(** * Metadata enrichment pipeline ([src/commands/metadata_enricher.py])

    A shallow embedding of the enrichment pipeline of the repository:
    [ConfidenceCalculator], [DataValidator], [DOIResolver] and
    [MetadataEnricher] ([_process_paper_block], [enrich]).

    - Python [str] values are modelled as [string]; the model covers ASCII
      text: [lower], [strip] and [split] act on ASCII letters and ASCII
      whitespace.  Python [int] values are [Z].
    - The network, the clock and the file system are outside the program:
      they are collaborators handed to the pipeline.  The network and the
      clock thread an abstract world, so that two calls with the same
      argument may answer differently.  [GoogleSearcher.search] and
      [MetadataExtractor.extract_from_url] catch every exception
      themselves; they are taken whole as collaborators.  The title of a
      search item is a string or [None]; its link is a string (the fetch of
      a missing link fails inside [extract_from_url], like that of a link
      whose page yields nothing).
    - Exceptions that leave a function are values: a computation that may
      raise returns [inl e] when the exception [e] leaves it and [inr a]
      when it returns [a].  Besides the failures of the file system,
      [enrich] lets through the [TypeError] of a search item without title
      (line 265), whatever [time.sleep] raises (line 354) and the
      [ZeroDivisionError] of [_analyze_results] (lines 432-445).
    - The run state carries, besides [self.results_log], the list of the
      calls made to the collaborators, in order, and the texts written to
      the output and log files; these record what the run did and are never
      read by the pipeline.
    - Paths are shown in messages as they were given.  Messages sent to the
      [logging] module and the text printed by [_analyze_results] are not
      modelled; of that report the model keeps the counts and which
      sections divide by [total_papers]. *)

From Stdlib Require Import ZArith List String Ascii Bool Lia DecimalString.
From Stdlib Require QArith.
Import ListNotations.

Local Open Scope string_scope.
Local Open Scope Z_scope.

Set Implicit Arguments.

(** ** Python string primitives *)

Module PyStr.

Definition nl : ascii := "010"%char.
Definition NL : string := String nl EmptyString.

(** [c.isspace()] on the ASCII range: TAB, LF, VT, FF, CR, FS, GS, RS, US
    and the space. *)
Definition is_space (c : ascii) : bool :=
  let n := nat_of_ascii c in
  ((9 <=? n) && (n <=? 13) || (28 <=? n) && (n <=? 32))%nat.

Definition is_upper (c : ascii) : bool :=
  let n := nat_of_ascii c in ((65 <=? n) && (n <=? 90))%nat.

Definition is_lower (c : ascii) : bool :=
  let n := nat_of_ascii c in ((97 <=? n) && (n <=? 122))%nat.

Definition lower_char (c : ascii) : ascii :=
  if is_upper c then ascii_of_nat (nat_of_ascii c + 32) else c.

(** [s.lower()] *)
Fixpoint lower (s : string) : string :=
  match s with
  | EmptyString => EmptyString
  | String c s' => String (lower_char c) (lower s')
  end.

(** [bool(s)]: a string is truthy when it is not empty. *)
Definition truthy (s : string) : bool :=
  match s with EmptyString => false | String _ _ => true end.

(** [s.lstrip()] *)
Fixpoint lstrip (s : string) : string :=
  match s with
  | EmptyString => EmptyString
  | String c s' => if is_space c then lstrip s' else s
  end.

(** [s.rstrip()] *)
Fixpoint rstrip (s : string) : string :=
  match s with
  | EmptyString => EmptyString
  | String c s' =>
      match rstrip s' with
      | EmptyString => if is_space c then EmptyString else String c EmptyString
      | r => String c r
      end
  end.

(** [s.strip()] *)
Definition strip (s : string) : string := rstrip (lstrip s).

(** [s[n:]] *)
Fixpoint drop (n : nat) (s : string) : string :=
  match n, s with
  | O, _ => s
  | S _, EmptyString => EmptyString
  | S k, String _ s' => drop k s'
  end.

(** [s[:n]] *)
Fixpoint take (n : nat) (s : string) : string :=
  match n, s with
  | O, _ => EmptyString
  | S _, EmptyString => EmptyString
  | S k, String c s' => String c (take k s')
  end.

(** [s.startswith(p)] *)
Definition startswith (p s : string) : bool := String.prefix p s.

(** [p in s] *)
Fixpoint contains (p s : string) : bool :=
  startswith p s ||
  match s with
  | EmptyString => false
  | String _ s' => contains p s'
  end.

(** [s.split(sep)] for a non-empty separator: the text is scanned from the
    left, every occurrence of [sep] closes the current piece and the scan
    resumes after it.  [skip] counts the characters of a matched separator
    that are still to be passed over; [cur] is the piece being built. *)
Fixpoint split_go (sep : string) (skip : nat) (cur : string) (s : string)
  : list string :=
  match s with
  | EmptyString => [cur]
  | String c s' =>
      match skip with
      | S k => split_go sep k cur s'
      | O =>
          if startswith sep s
          then cur :: split_go sep (String.length sep - 1) EmptyString s'
          else split_go sep O (cur ++ String c EmptyString) s'
      end
  end.

Definition split (sep s : string) : list string := split_go sep O EmptyString s.

(** [s.split()]: pieces between runs of whitespace, empty pieces dropped. *)
Fixpoint words_go (cur : string) (s : string) : list string :=
  match s with
  | EmptyString => if truthy cur then [cur] else []
  | String c s' =>
      if is_space c
      then (if truthy cur then cur :: words_go EmptyString s'
            else words_go EmptyString s')
      else words_go (cur ++ String c EmptyString) s'
  end.

Definition words (s : string) : list string := words_go EmptyString s.

(** [sep.join(l)] *)
Fixpoint join (sep : string) (l : list string) : string :=
  match l with
  | [] => EmptyString
  | [x] => x
  | x :: rest => x ++ sep ++ join sep rest
  end.

(** [str(n)] for an integer. *)
Definition of_Z (n : Z) : string := NilZero.string_of_int (Z.to_int n).

(** [str(b)] for a boolean. *)
Definition of_bool (b : bool) : string := if b then "True" else "False".

(** [c * n] *)
Fixpoint repeat_char (c : ascii) (n : nat) : string :=
  match n with
  | O => EmptyString
  | S k => String c (repeat_char c k)
  end.

End PyStr.

(** ** Validation flags and the confidence calculator *)

(** The dictionary [{'format_valid', 'content_relevant', 'source_reliable'}]
    built by [DataValidator.validate] and read by
    [ConfidenceCalculator.calculate]. *)
Record ValidationFlags : Type := mkFlags {
  format_valid : bool;
  content_relevant : bool;
  source_reliable : bool
}.

Module ConfidenceCalculator.

(** The table [base_scores] of [calculate]. *)
Definition base_scores (source_method : string) : option Z :=
  if (source_method =? "doi_direct")%string then Some 90
  else if (source_method =? "google_search")%string then Some 60
  else if (source_method =? "fallback")%string then Some 30
  else None.

(** [ConfidenceCalculator.calculate]: [data_type] is not read. *)
Definition calculate (data_type source_method : string)
  (validation_results : ValidationFlags) : Z :=
  let score :=
    match base_scores source_method with Some b => b | None => 30 end in
  let score := if format_valid validation_results then score + 10 else score in
  let score := if content_relevant validation_results then score + 10 else score in
  let score := if source_reliable validation_results then score + 10 else score in
  Z.min 100 (Z.max 0 score).

(** The calculator as the specification words it: a base score by
    acquisition method (90 for authoritative-direct, 60 for search-fallback,
    30 for anything else), plus 10 for each true flag, clamped to [0,100]. *)
Definition spec_base (source_method : string) : Z :=
  if (source_method =? "doi_direct")%string then 90
  else if (source_method =? "google_search")%string then 60
  else 30.

Definition spec_calculate (source_method : string) (flags : ValidationFlags) : Z :=
  let raw :=
    spec_base source_method
    + 10 * Z.b2z (format_valid flags)
    + 10 * Z.b2z (content_relevant flags)
    + 10 * Z.b2z (source_reliable flags) in
  if raw <? 0 then 0 else if 100 <? raw then 100 else raw.

End ConfidenceCalculator.

(** ** The data validator *)

Module DataValidator.

Import PyStr.

(** [[A-Z][a-z]] at the head of the text. *)
Definition cap_word_at (s : string) : bool :=
  match s with
  | String a (String b _) => is_upper a && is_lower b
  | _ => false
  end.

(** [.*[A-Z][a-z]+] matched at the head of the text; [.] is any character
    but the line feed. *)
Fixpoint re_rest (s : string) : bool :=
  cap_word_at s ||
  match s with
  | EmptyString => false
  | String c s' => negb (Ascii.eqb c nl) && re_rest s'
  end.

(** [re.search(r'[A-Z][a-z]+.*[A-Z][a-z]+', s)]: some position carries a
    capital and a small letter, and later on the same line a capital and a
    small letter follow.  (The first [[a-z]+] may always give back all but
    one letter to [.*], so one small letter is what the match needs.) *)
Fixpoint re_search_names (s : string) : bool :=
  match s with
  | EmptyString => false
  | String a s1 =>
      (is_upper a &&
       match s1 with
       | String b s2 => is_lower b && re_rest s2
       | EmptyString => false
       end)
      || re_search_names s1
  end.

Definition research_words : list string :=
  ["study"; "research"; "analysis"; "method"].

(** [len(title_words.intersection(data_words)) > 0] *)
Definition share_word (title_words data_words : list string) : bool :=
  existsb (fun w => existsb (String.eqb w) data_words) title_words.

(** [DataValidator.validate] *)
Definition validate (data paper_title data_type : string) : ValidationFlags :=
  if negb (truthy data) then mkFlags false false false
  else
    let fmt :=
      if (data_type =? "authors")%string then
        re_search_names data || contains "et al" data
      else if (data_type =? "abstract")%string then
        (50 <? String.length data)%nat
        && existsb (fun word => contains word (lower data)) research_words
      else false in
    let rel :=
      if truthy paper_title
      then share_word (words (lower paper_title)) (words (lower data))
      else false in
    mkFlags fmt rel false.

End DataValidator.

(** ** Collaborators, the run state and its monad *)

(** What [requests.get] gives [DOIResolver.resolve]: a response with its
    status code and final URL, or an exception with its text. *)
Inductive HttpOutcome : Type :=
| HttpResponse (status_code : Z) (url : string)
| HttpException (text : string).

(** One item of [GoogleSearcher.search]: the dictionary with the keys
    ['title'], ['link'] and ['snippet'].  The title is [item.get('title')]:
    a string, or [None] when the item has no title.  The link is only ever
    handed to [extract_from_url], which catches the failure of its fetch: an
    item without link behaves like an item whose page yields nothing, and
    the link is a string.  The snippet is never read. *)
Record SearchResult : Type := mkSearchResult {
  sr_title : option string;
  sr_link : string;
  sr_snippet : string
}.

(** The exceptions that leave [enrich]. *)
Inductive PyExn : Type :=
| FileNotFoundError (msg : string)
| IOError (msg : string)
| OSError (msg : string)
| TypeError (msg : string)
| ValueError (msg : string)
| OverflowError (msg : string)
| ZeroDivisionError (msg : string).

(** The calls that leave the process, in the order they are made. *)
Inductive Call : Type :=
| CallDoiGet (doi_url : string)
| CallSearch (query : string) (num_results : Z)
| CallExtract (url : string)
| CallSleep.

(** The external world of one run, [W], and what the pipeline asks of it:
    - [now_hms]: [datetime.now().strftime('%H:%M:%S')];
    - [now_full]: [str(datetime.now())];
    - [doi_get]: the [requests.get] of [DOIResolver.resolve];
    - [google_search]: [GoogleSearcher.search], which returns the items in
      the ranking of the API and the empty list on any error;
    - [page_extract]: [MetadataExtractor.extract_from_url], which returns
      [(abstract, authors)] and [("", "")] on any error;
    - [Delay]: the values [delay] can take (a number);
    - [time_sleep]: [time.sleep(delay)], which returns ([None]) or raises
      ([Some e]), as it does with [ValueError] for a negative delay and
      with [OverflowError] for one that is too large. *)
Record Collaborators (W : Type) : Type := mkCollaborators {
  Delay : Type;
  now_hms : W -> string;
  now_full : W -> string;
  doi_get : string -> W -> HttpOutcome * W;
  google_search : string -> Z -> W -> list SearchResult * W;
  page_extract : string -> W -> (string * string) * W;
  time_sleep : Delay -> W -> option PyExn * W
}.

(** The state one [enrich] run threads: the world, [self.results_log], the
    calls made so far, and the texts written to the output and log files. *)
Record State (W : Type) : Type := mkState {
  world : W;
  results_log : list string;
  calls : list Call;
  output_written : option string;
  log_written : option string
}.

Definition M (W A : Type) : Type := State W -> A * State W.

Definition ret {W A : Type} (a : A) : M W A := fun st => (a, st).

Definition bind {W A B : Type} (m : M W A) (k : A -> M W B) : M W B :=
  fun st => let (a, st') := m st in k a st'.

Declare Scope run_scope.
Delimit Scope run_scope with run.

Notation "x <- c1 ;; c2" := (bind c1 (fun x => c2))
  (at level 61, c1 at next level, right associativity) : run_scope.
Notation "' pat <- c1 ;; c2" :=
  (bind c1 (fun x => match x with pat => c2 end))
  (at level 61, pat pattern, c1 at next level, right associativity) : run_scope.
Notation "c1 ;; c2" := (bind c1 (fun _ => c2))
  (at level 61, right associativity) : run_scope.

(** Sequencing of computations that may raise: when the first raises, the
    exception leaves the whole and the rest is not run. *)
Definition bind_exn {W A B : Type} (m : M W (PyExn + A))
  (k : A -> M W (PyExn + B)) : M W (PyExn + B) :=
  fun st =>
    let (r, st') := m st in
    match r with
    | inl e => (inl e, st')
    | inr a => k a st'
    end.

Notation "x <-? c1 ;; c2" := (bind_exn c1 (fun x => c2))
  (at level 61, c1 at next level, right associativity) : run_scope.

(** The dictionary [result] of [_process_paper_block]. *)
Record EnrichmentResult : Type := mkResult {
  authors : string;
  abstract : string;
  webpage : string;
  author_confidence : Z;
  abstract_confidence : Z;
  webpage_confidence : Z;
  source_method : string;
  needs_review : bool;
  errors : list string
}.

(** What the file system answers during one [enrich] run:
    - [input_exists]: [input_path.exists()];
    - [mkdir_parent]: [output_path.parent.mkdir(...)], [Some e] when it
      raises with text [e];
    - [input_read]: reading the input, the content or the exception text;
    - [output_write], [log_write]: writing a text to the output file and to
      the log file, [Some e] when the write raises with text [e];
    - [results_path]: [output_path.parent / f"{output_path.stem}_results.txt"];
    - [log_read]: reading the log file back in [_analyze_results]. *)
Record FileSystem : Type := mkFileSystem {
  input_exists : bool;
  mkdir_parent : option string;
  input_read : string + string;
  output_write : string -> option string;
  log_write : string -> option string;
  results_path : string -> string;
  log_read : string + string
}.

(** ** The results analyzer ([MetadataEnricher._analyze_results])

    The analyzer counts markers in the text of the log and prints a report
    with percentages.  The counts are modelled as they are computed; of the
    report, the model keeps which sections are printed and which of them
    divide by [total_papers]; the printed floating-point figures are not
    modelled. *)

Module Analyzer.

Import PyStr.

Definition is_digit (c : ascii) : bool :=
  let n := nat_of_ascii c in ((48 <=? n) && (n <=? 57))%nat.

(** [len(re.findall(pat, content))] for a pattern that is a plain,
    non-empty text: the occurrences are counted from the left, the scan
    resuming after each one.  [skip] counts the characters of a counted
    occurrence still to be passed over. *)
Fixpoint count_go (pat : string) (skip : nat) (s : string) : nat :=
  match s with
  | EmptyString => 0
  | String _ s' =>
      match skip with
      | S k => count_go pat k s'
      | O =>
          if startswith pat s
          then S (count_go pat (String.length pat - 1) s')
          else count_go pat 0 s'
      end
  end.

Definition count_text (pat content : string) : nat := count_go pat 0 content.

(** The number of digits at the head of a text. *)
Fixpoint digits_len (s : string) : nat :=
  match s with
  | EmptyString => 0
  | String c s' => if is_digit c then S (digits_len s') else 0
  end.

(** The length of the match of [\[\d+/\d+\]] at the head of a text, if it
    matches there: an opening bracket, one or more digits, a slash, one or
    more digits, a closing bracket. *)
Definition marker_len (s : string) : option nat :=
  match s with
  | String "["%char s1 =>
      let n1 := digits_len s1 in
      if (n1 =? 0)%nat then None
      else
        match drop n1 s1 with
        | String "/"%char s2 =>
            let n2 := digits_len s2 in
            if (n2 =? 0)%nat then None
            else
              match drop n2 s2 with
              | String "]"%char _ => Some (n1 + n2 + 3)%nat
              | _ => None
              end
        | _ => None
        end
  | _ => None
  end.

(** [len(re.findall(r'\[\d+/\d+\]', content))] *)
Fixpoint count_markers_go (skip : nat) (s : string) : nat :=
  match s with
  | EmptyString => 0
  | String _ s' =>
      match skip with
      | S k => count_markers_go k s'
      | O =>
          match marker_len s with
          | Some len => S (count_markers_go (len - 1) s')
          | None => count_markers_go 0 s'
          end
      end
  end.

Definition count_markers (content : string) : nat := count_markers_go 0 content.

(** Lines 390-411: the counts. *)
Record Statistics : Type := mkStatistics {
  total_papers : nat;
  doi_attempts : nat;
  doi_successes : nat;
  doi_failures : nat;
  fallback_attempts : nat;
  fallback_successes : nat;
  no_results : nat;
  high_conf_90 : nat;
  med_conf_70 : nat;
  med_conf_60 : nat;
  zero_conf : nat;
  needs_review : nat;
  http_403 : nat;
  http_202 : nat
}.

Definition statistics (content : string) : Statistics :=
  mkStatistics
    (count_markers content)
    (count_text "Attempting DOI resolution" content)
    (count_text "DOI resolved to:" content)
    (count_text "DOI resolution failed:" content)
    (count_text "Falling back to Google search" content)
    (count_text "Fallback extraction successful" content)
    (count_text "No search results found" content)
    (count_text "confidence: 90%" content)
    (count_text "confidence: 70%" content)
    (count_text "confidence: 60%" content)
    (count_text "confidence: 0%" content)
    (count_text "[REVIEW NEEDED]" content)
    (count_text "HTTP 403" content)
    (count_text "HTTP 202" content).

(** Lines 413-451: the sections of the report.  The section on the
    resolution divides by [doi_attempts], which its guard makes positive;
    the sections on the fallback, on the confidence distribution and on the
    review divide by [total_papers] without a guard on it; the closing
    section is guarded by [total_papers > 0].  The report raises
    [ZeroDivisionError] when a section that divides by [total_papers] is
    printed while [total_papers] is 0. *)
Definition fallback_section (st : Statistics) : bool :=
  (0 <? fallback_attempts st)%nat.

Definition confidence_section (st : Statistics) : bool :=
  (0 <? high_conf_90 st)%nat || (0 <? med_conf_70 st)%nat
  || (0 <? med_conf_60 st)%nat || (0 <? zero_conf st)%nat.

Definition review_section (st : Statistics) : bool :=
  (0 <? needs_review st)%nat.

Definition report_divides_by_zero (st : Statistics) : bool :=
  (total_papers st =? 0)%nat
  && (fallback_section st || confidence_section st || review_section st).

End Analyzer.

(** ** The pipeline *)

Section Pipeline.

Import PyStr.

Variable W : Type.
Variable net : Collaborators W.

Local Open Scope run_scope.

Local Abbreviation Run := (M W).

(** [MetadataEnricher._log_result]: the message, stamped with the time, is
    appended to [self.results_log]. *)
Definition _log_result (message : string) : Run unit :=
  fun st =>
    let log_message := "[" ++ now_hms net (world st) ++ "] " ++ message in
    (tt, mkState (world st) (results_log st ++ [log_message]) (calls st)
                 (output_written st) (log_written st)).

(** A call to a collaborator: it is recorded, and the world moves on. *)
Definition call {A : Type} (c : Call) (f : W -> A * W) : Run A :=
  fun st =>
    let (a, w') := f (world st) in
    (a, mkState w' (results_log st) (calls st ++ [c])
                (output_written st) (log_written st)).

(** [doi and doi != "Not available" and "ISBN" not in doi], for a [doi]
    that is [None] or a string. *)
Definition doi_usable (doi : option string) : bool :=
  match doi with
  | None => false
  | Some d => truthy d && negb (d =? "Not available")%string
              && negb (contains "ISBN" d)
  end.

(** [DOIResolver.resolve] *)
Definition resolve (doi : option string) : Run (option string * string) :=
  match doi with
  | None => ret (None, "No valid DOI")
  | Some d =>
      if negb (truthy d) || (d =? "Not available")%string || contains "ISBN" d
      then ret (None, "No valid DOI")
      else
        let doi_url := "https://doi.org/" ++ d in
        response <- call (CallDoiGet doi_url) (doi_get net doi_url) ;;
        match response with
        | HttpResponse status_code url =>
            if status_code =? 200
            then ret (Some url, "DOI resolved successfully")
            else ret (None, "DOI resolution failed: HTTP " ++ of_Z status_code)
        | HttpException e => ret (None, "DOI resolution error: " ++ e)
        end
  end.

(** [GoogleSearcher.search] *)
Definition search (query : string) (num_results : Z) : Run (list SearchResult) :=
  call (CallSearch query num_results) (google_search net query num_results).

(** [MetadataExtractor.extract_from_url], returning [(abstract, authors)]. *)
Definition extract_from_url (url : string) : Run (string * string) :=
  call (CallExtract url) (page_extract net url).

(** The first loop of [_process_paper_block]: the last [DOI:] line and the
    last [Title:] line of the block give [doi] and [title]. *)
Definition parse_line (acc : option string * option string) (line : string)
  : option string * option string :=
  let (doi, title) := acc in
  if startswith "DOI:" line then (Some (strip (drop 4 line)), title)
  else if startswith "Title:" line then (doi, Some (strip (drop 6 line)))
  else (doi, title).

Definition parse_block (lines : list string) : option string * option string :=
  fold_left parse_line lines (None, None).

(** [not title], for a [title] that is [None] or a string. *)
Definition title_of (title : option string) : option string :=
  match title with
  | Some t => if truthy t then Some t else None
  | None => None
  end.

(** [f"{doi}"] *)
Definition show_doi (doi : option string) : string :=
  match doi with Some d => d | None => "None" end.

Definition initial_result : EnrichmentResult :=
  mkResult "" "" "" 0 0 0 "" false [].

Definition add_error (result : EnrichmentResult) (e : string) : EnrichmentResult :=
  mkResult (authors result) (abstract result) (webpage result)
           (author_confidence result) (abstract_confidence result)
           (webpage_confidence result) (source_method result)
           (needs_review result) (errors result ++ [e]).

(** [result.update({...})] of the two stages: every key but [needs_review]
    and [errors] is replaced. *)
Definition update_result (result : EnrichmentResult)
  (authors' abstract' webpage' : string)
  (author_confidence' abstract_confidence' webpage_confidence' : Z)
  (source_method' : string) : EnrichmentResult :=
  mkResult authors' abstract' webpage'
           author_confidence' abstract_confidence' webpage_confidence'
           source_method' (needs_review result) (errors result).

(** Lines 225-256: the authoritative stage. *)
Definition doi_stage (title : string) (doi : option string)
  (result : EnrichmentResult) : Run EnrichmentResult :=
  if doi_usable doi then
    _log_result "Attempting DOI resolution..." ;;
    ' (resolved_url, doi_status) <- resolve doi ;;
    match resolved_url with
    | Some url =>
        if truthy url then
          _log_result ("DOI resolved to: " ++ url) ;;
          ' (abstract, authors) <- extract_from_url url ;;
          if truthy authors || truthy abstract then
            let author_validation :=
              DataValidator.validate authors title "authors" in
            let abstract_validation :=
              DataValidator.validate abstract title "abstract" in
            let result :=
              update_result result authors abstract url
                (ConfidenceCalculator.calculate "authors" "doi_direct"
                   author_validation)
                (ConfidenceCalculator.calculate "abstract" "doi_direct"
                   abstract_validation)
                95 "DOI_DIRECT" in
            _log_result ("Authors confidence: "
                         ++ of_Z (author_confidence result) ++ "%") ;;
            _log_result ("Abstract confidence: "
                         ++ of_Z (abstract_confidence result) ++ "%") ;;
            ret result
          else
            _log_result "Failed to extract metadata from DOI page" ;;
            ret (add_error result "DOI page metadata extraction failed")
        else
          _log_result ("DOI resolution failed: " ++ doi_status) ;;
          ret (add_error result ("DOI resolution failed: " ++ doi_status))
    | None =>
        _log_result ("DOI resolution failed: " ++ doi_status) ;;
        ret (add_error result ("DOI resolution failed: " ++ doi_status))
    end
  else ret result.

(** Lines 264-280: the loop over [search_results[:2]], left at the first
    candidate that yields authors or an abstract.  The message of line 265
    slices the title of the candidate: when the title is [None] the slice
    raises [TypeError], before the message is logged and before the page is
    fetched, and nothing catches it. *)
Fixpoint try_candidates (title : string) (i : Z) (candidates : list SearchResult)
  (result : EnrichmentResult) : Run (PyExn + EnrichmentResult) :=
  match candidates with
  | [] => ret (inr result)
  | search_result :: rest =>
      match sr_title search_result with
      | None => ret (inl (TypeError "'NoneType' object is not subscriptable"))
      | Some search_title =>
          _log_result ("Trying search result " ++ of_Z (i + 1) ++ ": "
                       ++ take 50 search_title ++ "...") ;;
          ' (abstract, authors) <- extract_from_url (sr_link search_result) ;;
          if truthy authors || truthy abstract then
            let validation := DataValidator.validate authors title "authors" in
            let result :=
              update_result result authors abstract (sr_link search_result)
                (ConfidenceCalculator.calculate "authors" "google_search"
                   validation)
                (ConfidenceCalculator.calculate "abstract" "google_search"
                   validation)
                50 "GOOGLE_FALLBACK" in
            _log_result "Fallback extraction successful" ;;
            ret (inr result)
          else try_candidates title (i + 1) rest result
      end
  end.

Definition dquote : string := String "034"%char EmptyString.

(** Lines 258-283: the fallback stage. *)
Definition fallback_stage (title : string) (result : EnrichmentResult)
  : Run (PyExn + EnrichmentResult) :=
  if negb (truthy (authors result)) && negb (truthy (abstract result)) then
    _log_result "Falling back to Google search..." ;;
    search_results <- search (dquote ++ title ++ dquote) 3 ;;
    match search_results with
    | _ :: _ => try_candidates title 0 (firstn 2 search_results) result
    | [] =>
        _log_result "No search results found" ;;
        ret (inr (add_error result "No search results found"))
    end
  else ret (inr result).

(** Lines 285-288. *)
Definition low_confidence (result : EnrichmentResult) : bool :=
  (author_confidence result <? 70)
  || (abstract_confidence result <? 70)
  || (webpage_confidence result <? 70).

(** [bool(result['errors'])] *)
Definition has_errors (result : EnrichmentResult) : bool :=
  match errors result with [] => false | _ :: _ => true end.

Definition set_needs_review (result : EnrichmentResult) : EnrichmentResult :=
  mkResult (authors result) (abstract result) (webpage result)
           (author_confidence result) (abstract_confidence result)
           (webpage_confidence result) (source_method result)
           true (errors result).

(** Lines 285-297: the review decision and the closing log lines. *)
Definition review_stage (result : EnrichmentResult) : Run EnrichmentResult :=
  result <-
    (if low_confidence result || has_errors result then
       _log_result "[REVIEW NEEDED] Low confidence or errors detected" ;;
       ret (set_needs_review result)
     else ret result) ;;
  _log_result ("Final confidence scores - Authors: "
               ++ of_Z (author_confidence result) ++ "%, Abstract: "
               ++ of_Z (abstract_confidence result) ++ "%, Webpage: "
               ++ of_Z (webpage_confidence result) ++ "%") ;;
  (if has_errors result
   then _log_result ("Errors: " ++ join "; " (errors result))
   else ret tt) ;;
  ret result.

(** Lines 213-297: the [result] of a record with title [title]. *)
Definition enrichment_result (title : string) (doi : option string)
  : Run (PyExn + EnrichmentResult) :=
  result <- doi_stage title doi initial_result ;;
  result <-? fallback_stage title result ;;
  result <- review_stage result ;;
  ret (inr result).

(** Lines 299-320: the enriched block. *)
Definition build_enriched_block (block : string) (result : EnrichmentResult)
  : string :=
  let enriched_block := strip block in
  let enriched_block :=
    if truthy (authors result) then
      enriched_block ++ NL ++ "Authors: " ++ authors result
      ++ NL ++ "Author_Confidence: " ++ of_Z (author_confidence result) ++ "%"
    else enriched_block in
  let enriched_block :=
    if truthy (abstract result) then
      enriched_block ++ NL ++ "Abstract: " ++ abstract result
      ++ NL ++ "Abstract_Confidence: " ++ of_Z (abstract_confidence result) ++ "%"
    else enriched_block in
  let enriched_block :=
    if truthy (webpage result) then
      enriched_block ++ NL ++ "Webpage: " ++ webpage result
      ++ NL ++ "Webpage_Confidence: " ++ of_Z (webpage_confidence result) ++ "%"
    else enriched_block in
  let enriched_block :=
    enriched_block ++ NL ++ "Source_Method: " ++ source_method result in
  let enriched_block :=
    enriched_block ++ NL ++ "Needs_Review: " ++ of_bool (needs_review result) in
  if has_errors result
  then enriched_block ++ NL ++ "Errors: " ++ join "; " (errors result)
  else enriched_block.

(** [MetadataEnricher._process_paper_block] *)
Definition _process_paper_block (block : string) : Run (PyExn + string) :=
  let lines := split NL (strip block) in
  match lines with
  | [] => ret (inr block)
  | _ :: _ =>
      let (doi, title) := parse_block lines in
      match title_of title with
      | None =>
          _log_result "ERROR: No title found, skipping paper" ;;
          ret (inr block)
      | Some title =>
          _log_result ("Processing: " ++ take 60 title ++ "...") ;;
          _log_result ("DOI: " ++ show_doi doi) ;;
          result <-? enrichment_result title doi ;;
          ret (inr (build_enriched_block block result))
      end
  end.

(** [time.sleep(delay)] after each paper: the call is made, and it returns
    or raises. *)
Definition pause (delay : Delay net) : Run (PyExn + unit) :=
  outcome <- call CallSleep (time_sleep net delay) ;;
  match outcome with
  | Some e => ret (inl e)
  | None => ret (inr tt)
  end.

(** [self.results_log = [...]] at the start of [enrich]. *)
Definition reset_results_log : Run unit :=
  fun st =>
    (tt, mkState (world st)
                 ["PROCESSING STARTED: " ++ now_full net (world st);
                  repeat_char "="%char 80; ""]
                 (calls st) (output_written st) (log_written st)).

Definition get_results_log : Run (list string) :=
  fun st => (results_log st, st).

(** A successful [f.write(text)] on the output file and on the log file. *)
Definition store_output (text : string) : Run unit :=
  fun st =>
    (tt, mkState (world st) (results_log st) (calls st)
                 (Some text) (log_written st)).

Definition store_log (text : string) : Run unit :=
  fun st =>
    (tt, mkState (world st) (results_log st) (calls st)
                 (output_written st) (Some text)).

(** [[block for block in content.split('\n\n') if block.strip()]] *)
Definition paper_blocks (content : string) : list string :=
  filter (fun block => truthy (strip block)) (split (NL ++ NL) content).

(** Lines 350-354: the loop over [enumerate(blocks)]; [total] is
    [len(blocks)] and [i] the index of the head of [blocks].  An exception
    that leaves the processing of a block or the pause leaves the loop. *)
Fixpoint process_blocks (delay : Delay net) (total : nat) (i : Z)
  (blocks : list string) : Run (PyExn + list string) :=
  match blocks with
  | [] => ret (inr [])
  | block :: rest =>
      _log_result (NL ++ "[" ++ of_Z (i + 1) ++ "/" ++ of_Z (Z.of_nat total)
                   ++ "] " ++ repeat_char "="%char 50) ;;
      enriched_block <-? _process_paper_block block ;;
      slept <-? pause delay ;;
      enriched_blocks <-? process_blocks delay total (i + 1) rest ;;
      ret (inr (enriched_block :: enriched_blocks))
  end.

(** [MetadataEnricher._analyze_results]: the log file is read back; when the
    read fails the method logs the failure and returns, otherwise it counts
    the markers and prints its report.  The report raises
    [ZeroDivisionError] when one of its sections divides by a
    [total_papers] that is 0; nothing catches it. *)
Definition _analyze_results (fs : FileSystem) : Run (PyExn + unit) :=
  match log_read fs with
  | inr _ => ret (inr tt)
  | inl content =>
      if Analyzer.report_divides_by_zero (Analyzer.statistics content)
      then ret (inl (ZeroDivisionError "division by zero"))
      else ret (inr tt)
  end.

(** [MetadataEnricher.enrich]: [inl e] when the run is aborted by the
    exception [e], [inr n] when it returns [n]. *)
Definition enrich (fs : FileSystem) (input_file output_file : string)
  (delay : Delay net) : Run (PyExn + Z) :=
  if negb (input_exists fs) then
    ret (inl (FileNotFoundError ("Input file not found: " ++ input_file)))
  else
    match mkdir_parent fs with
    | Some e => ret (inl (OSError e))
    | None =>
        reset_results_log ;;
        _log_result "Starting to enrich references with DOI-first approach..." ;;
        match input_read fs with
        | inr e => ret (inl (IOError ("Failed to read input file: " ++ e)))
        | inl content =>
            let blocks := paper_blocks content in
            _log_result ("Found " ++ of_Z (Z.of_nat (List.length blocks))
                         ++ " papers to process") ;;
            enriched_blocks <-?
              process_blocks delay (List.length blocks) 0 blocks ;;
            let output_text := join (NL ++ NL) enriched_blocks in
            match output_write fs output_text with
            | Some e => ret (inl (IOError ("Failed to write output file: " ++ e)))
            | None =>
                store_output output_text ;;
                let log_file := results_path fs output_file in
                log_lines <- get_results_log ;;
                (match log_write fs (join NL log_lines) with
                 | Some _ => ret tt
                 | None => store_log (join NL log_lines)
                 end) ;;
                _log_result (NL ++ "Processing completed! Results saved to "
                             ++ output_file) ;;
                _log_result ("Detailed log available in " ++ log_file) ;;
                analyzed <-? _analyze_results fs ;;
                ret (inr (Z.of_nat (List.length blocks)))
            end
        end
    end.

End Pipeline.

Arguments _log_result {W} net message _.
Arguments initial_result : clear implicits.

(** ** A scripted world for concrete runs

    The world is [unit]; each collaborator answers from a fixed table.  The
    delay is a rational number of seconds, and the pause raises
    [ValueError] when it is negative. *)

Definition scripted
  (doi_table : string -> HttpOutcome)
  (search_table : string -> list SearchResult)
  (page_table : string -> string * string) : Collaborators unit :=
  mkCollaborators
    (Delay := QArith_base.Q)
    (fun _ => "12:00:00")
    (fun _ => "2024-01-01 12:00:00.000000")
    (fun doi_url w => (doi_table doi_url, w))
    (fun query _ w => (search_table query, w))
    (fun url w => (page_table url, w))
    (fun delay w =>
       (if QArith_base.Qnum delay <? 0
        then Some (ValueError "sleep length must be non-negative")
        else None, w)).

Definition one_second : QArith_base.Q := QArith_base.Qmake 1 1.

Definition minus_one_second : QArith_base.Q := QArith_base.Qmake (-1) 1.

Definition start_state : State unit := mkState tt [] [] None None.

(** No identifier resolves, every search comes back empty, no page yields
    anything. *)
Definition silent_net : Collaborators unit :=
  scripted (fun _ => HttpResponse 404 "") (fun _ => []) (fun _ => ("", "")).

(** The search finds one page, and that page yields neither authors nor an
    abstract. *)
Definition barren_candidate : SearchResult :=
  mkSearchResult (Some "Graph Learning at Scale") "https://example.org/p1" "".

Definition barren_net : Collaborators unit :=
  scripted (fun _ => HttpResponse 404 "")
           (fun _ => [barren_candidate])
           (fun _ => ("", "")).

(** An abstract of 143 characters. *)
Definition sample_abstract : string :=
  "This study shows that graph learning at scale needs new sampling methods, "
  ++ "and it reports experiments on citation graphs with millions of nodes.".

(** The search finds two pages; the first yields nothing, the second an
    abstract only. *)
Definition second_candidate : SearchResult :=
  mkSearchResult (Some "Graph Learning at Scale (preprint)")
                 "https://example.org/p2" "".

Definition two_candidates_net : Collaborators unit :=
  scripted (fun _ => HttpResponse 404 "")
           (fun _ => [barren_candidate; second_candidate])
           (fun url => if (url =? "https://example.org/p2")%string
                       then (sample_abstract, "") else ("", "")).

(** The identifier resolves to a page that yields authors and an abstract. *)
Definition sample_authors : string := "Authors: Alice Smith, Bob Lee".

Definition resolving_net : Collaborators unit :=
  scripted (fun _ => HttpResponse 200 "https://publisher.example/xyz")
           (fun _ => [])
           (fun _ => (sample_abstract, sample_authors)).

Definition sample_block : string :=
  "DOI: 10.1/xyz" ++ PyStr.NL ++ "Title: Graph Learning at Scale" ++ PyStr.NL.

Definition untitled_block : string :=
  " DOI: 10.1/xyz" ++ PyStr.NL ++ "Year: 2020" ++ PyStr.NL.

Definition titled_block : string := "Title: Graph Learning at Scale".

(** A document of two titled records with a stray blank line between them. *)
Definition sparse_document : string :=
  "Title: A" ++ PyStr.NL ++ PyStr.NL ++ PyStr.NL ++ PyStr.NL ++ "Title: B".

(** A file system on which everything works, holding [content] as input. *)
Definition healthy_fs (content : string) : FileSystem :=
  mkFileSystem true None (inl content) (fun _ => None) (fun _ => None)
               (fun output_file => output_file ++ "_results.txt") (inr "missing").

(** The same, except that the log file cannot be written. *)
Definition log_failing_fs (content : string) : FileSystem :=
  mkFileSystem true None (inl content) (fun _ => None)
               (fun _ => Some "Permission denied")
               (fun output_file => output_file ++ "_results.txt") (inr "missing").

(** The same as [healthy_fs], except that the output file cannot be
    written. *)
Definition output_failing_fs (content : string) : FileSystem :=
  mkFileSystem true None (inl content) (fun _ => Some "Permission denied")
               (fun _ => None)
               (fun output_file => output_file ++ "_results.txt") (inr "missing").

(** The same as [log_failing_fs], except that the path of the log holds the
    file of an earlier, interrupted run: a line flagged for review and no
    paper marker. *)
Definition stale_log : string :=
  "[11:00:00] [REVIEW NEEDED] Low confidence or errors detected".

Definition stale_log_fs (content : string) : FileSystem :=
  mkFileSystem true None (inl content) (fun _ => None)
               (fun _ => Some "Permission denied")
               (fun output_file => output_file ++ "_results.txt")
               (inl stale_log).

(** A file system on which everything works and on which reading the log
    back gives [text]. *)
Definition read_back_fs (content text : string) : FileSystem :=
  mkFileSystem true None (inl content) (fun _ => None) (fun _ => None)
               (fun output_file => output_file ++ "_results.txt") (inl text).

(** The search finds one item, which has no title. *)
Definition untitled_candidate : SearchResult :=
  mkSearchResult None "https://example.org/p3" "".

Definition untitled_candidate_net : Collaborators unit :=
  scripted (fun _ => HttpResponse 404 "")
           (fun _ => [untitled_candidate])
           (fun _ => ("", "")).

(** ** Notions used to state the properties *)

(** Some confidence that belongs to a populated field is below 70. *)
Definition populated_low_confidence (result : EnrichmentResult) : bool :=
  PyStr.truthy (authors result) && (author_confidence result <? 70)
  || PyStr.truthy (abstract result) && (abstract_confidence result <? 70)
  || PyStr.truthy (webpage result) && (webpage_confidence result <? 70).

(** The shapes [result] can have when the two stages are over, for a record
    with title [title]:
    - the authoritative stage populated it;
    - the fallback stage populated it (the errors of the authoritative
      stage, if any, are kept);
    - neither stage populated it. *)
Inductive staged (title : string) : EnrichmentResult -> Prop :=
| staged_doi (authors abstract url : string) :
    PyStr.truthy authors || PyStr.truthy abstract = true ->
    PyStr.truthy url = true ->
    staged title
      (mkResult authors abstract url
         (ConfidenceCalculator.calculate "authors" "doi_direct"
            (DataValidator.validate authors title "authors"))
         (ConfidenceCalculator.calculate "abstract" "doi_direct"
            (DataValidator.validate abstract title "abstract"))
         95 "DOI_DIRECT" false [])
| staged_google (authors abstract link : string) (errors : list string) :
    PyStr.truthy authors || PyStr.truthy abstract = true ->
    staged title
      (mkResult authors abstract link
         (ConfidenceCalculator.calculate "authors" "google_search"
            (DataValidator.validate authors title "authors"))
         (ConfidenceCalculator.calculate "abstract" "google_search"
            (DataValidator.validate authors title "authors"))
         50 "GOOGLE_FALLBACK" false errors)
| staged_none (errors : list string) :
    staged title (mkResult "" "" "" 0 0 0 "" false errors).

(** The two stages in sequence (lines 225-283). *)
Definition stages {W : Type} (net : Collaborators W) (title : string)
  (doi : option string) : M W (PyExn + EnrichmentResult) :=
  bind (doi_stage net title doi initial_result) (fallback_stage net title).

(** [item['title']] is a string. *)
Definition has_title (item : SearchResult) : bool :=
  match sr_title item with Some _ => true | None => false end.

(** The fallback loop of a record with title [title] can meet a search
    item without title: in some world, one of the first two items the
    search for the quoted title returns has none. *)
Definition untitled_item_tried {W : Type} (net : Collaborators W)
  (title : string) : Prop :=
  exists w : W,
    forallb has_title
      (firstn 2 (fst (google_search net (dquote ++ title ++ dquote) 3 w)))
    = false.

(** The state of a titled record when its two opening log lines are
    written. *)
Definition announced {W : Type} (net : Collaborators W) (title : string)
  (doi : option string) (st : State W) : State W :=
  snd (_log_result net ("DOI: " ++ show_doi doi)
         (snd (_log_result net ("Processing: " ++ PyStr.take 60 title ++ "...")
                 st))).

(** The opening of [enrich] (lines 333-335) and its loop over the document
    (lines 344-354), which gives the text to be written to the output. *)
Definition opening {W : Type} (net : Collaborators W) : M W unit :=
  bind (reset_results_log net)
       (fun _ => _log_result net
                   "Starting to enrich references with DOI-first approach...").

Definition enriched_blocks_of {W : Type} (net : Collaborators W)
  (content : string) (delay : Delay net) : M W (PyExn + list string) :=
  let blocks := paper_blocks content in
  bind (_log_result net ("Found " ++ PyStr.of_Z (Z.of_nat (List.length blocks))
                         ++ " papers to process"))
       (fun _ => process_blocks net delay (List.length blocks) 0 blocks).

(** The loop of [enrich] over the document [content], run after the
    opening from the state [st]. *)
Definition document_run {W : Type} (net : Collaborators W)
  (content : string) (delay : Delay net) (st : State W)
  : (PyExn + list string) * State W :=
  enriched_blocks_of net content delay (snd (opening net st)).

Definition is_some {A : Type} (o : option A) : bool :=
  match o with Some _ => true | None => false end.

Definition raised {A : Type} (r : PyExn + A) : bool :=
  match r with inl _ => true | inr _ => false end.

(** The failures of the file system that abort [enrich]: the input does not
    exist or cannot be read, the directory of the output cannot be made, the
    output cannot be written once the blocks are processed. *)
Definition fatal_io {W : Type} (net : Collaborators W) (fs : FileSystem)
  (delay : Delay net) (st : State W) : bool :=
  negb (input_exists fs)
  || is_some (mkdir_parent fs)
  || match input_read fs with
     | inr _ => true
     | inl content =>
         match fst (document_run net content delay st) with
         | inr enriched_blocks =>
             is_some (output_write fs
                        (PyStr.join (PyStr.NL ++ PyStr.NL) enriched_blocks))
         | inl _ => false
         end
     end.

(** The analysis of the log that is read back divides by zero. *)
Definition analysis_divides_by_zero (fs : FileSystem) : bool :=
  match log_read fs with
  | inl content =>
      Analyzer.report_divides_by_zero (Analyzer.statistics content)
  | inr _ => false
  end.

(** The part of [enrich] that no [try] guards raises: the loop over the
    blocks of the document is left by an exception, or the analysis of the
    log divides by zero. *)
Definition exception_escapes {W : Type} (net : Collaborators W)
  (fs : FileSystem) (delay : Delay net) (st : State W) : bool :=
  match input_read fs with
  | inl content => raised (fst (document_run net content delay st))
  | inr _ => false
  end
  || analysis_divides_by_zero fs.

(** The number of blank-line-delimited segments of a text. *)
Definition segment_count (text : string) : nat :=
  List.length (PyStr.split (PyStr.NL ++ PyStr.NL) text).

(** The text ends in a line feed. *)
Fixpoint ends_with_nl (s : string) : bool :=
  match s with
  | EmptyString => false
  | String c EmptyString => Ascii.eqb c PyStr.nl
  | String _ s' => ends_with_nl s'
  end.

(** ** The page metadata extractor ([MetadataExtractor])

    A parsed page is read through one question only: for a CSS selector,
    is there an element ([soup.select_one(selector)]), and what is its text
    ([element.get_text(strip=True)]).  A [Soup] answers that question. *)

Module MetadataExtractor.

Import PyStr.

Definition Soup : Type := string -> option string.

Definition author_selectors : list string :=
  [".authors"; ".author-list";
   "[class*=" ++ dquote ++ "author" ++ dquote ++ "]";
   ".citation-authors"; ".contributors"].

Definition author_keywords : list string := ["author"; "by "; "et al"].

(** [re.sub(r'\s+', ' ', text)]: every run of whitespace becomes one space.
    [in_run] tells that the previous character was whitespace. *)
Fixpoint collapse_go (in_run : bool) (s : string) : string :=
  match s with
  | EmptyString => EmptyString
  | String c s' =>
      if is_space c
      then (if in_run then collapse_go true s'
            else String " "%char (collapse_go true s'))
      else String c (collapse_go false s')
  end.

Definition collapse_whitespace (text : string) : string := collapse_go false text.

(** The loop of [_extract_authors] over the selectors still to try. *)
Fixpoint authors_from (soup : Soup) (selectors : list string) : string :=
  match selectors with
  | [] => ""
  | selector :: rest =>
      match soup selector with
      | Some text =>
          if existsb (fun keyword => contains keyword (lower text))
                     author_keywords
          then collapse_whitespace text
          else authors_from soup rest
      | None => authors_from soup rest
      end
  end.

(** [MetadataExtractor._extract_authors] *)
Definition _extract_authors (soup : Soup) : string :=
  authors_from soup author_selectors.

Definition abstract_selectors : list string :=
  [".abstract"; ".article-abstract";
   "[id*=" ++ dquote ++ "abstract" ++ dquote ++ "]";
   "[class*=" ++ dquote ++ "abstract" ++ dquote ++ "]";
   ".article-text"; ".content"].

(** The loop of [_extract_abstract] over the selectors still to try. *)
Fixpoint abstract_from (soup : Soup) (selectors : list string) : string :=
  match selectors with
  | [] => ""
  | selector :: rest =>
      match soup selector with
      | Some text =>
          if (100 <? String.length text)%nat
          then (if (500 <? String.length text)%nat
                then take 500 text ++ "..." else text)
          else abstract_from soup rest
      | None => abstract_from soup rest
      end
  end.

(** [MetadataExtractor._extract_abstract] *)
Definition _extract_abstract (soup : Soup) : string :=
  abstract_from soup abstract_selectors.

(** [MetadataExtractor.extract_from_url], over the fetch of the page:
    [fetch url] answers the parsed page, or [None] when the request or the
    parsing raises.  The result is [(abstract, authors)]. *)
Definition extract_with {W : Type} (fetch : string -> W -> option Soup * W)
  (url : string) (w : W) : (string * string) * W :=
  let (page, w') := fetch url w in
  (match page with
   | Some soup => (_extract_abstract soup, _extract_authors soup)
   | None => ("", "")
   end, w').

End MetadataExtractor.

(** The collaborators [net], with the page extractor of the repository over
    the fetch [fetch]. *)
Definition with_extractor {W : Type} (net : Collaborators W)
  (fetch : string -> W -> option MetadataExtractor.Soup * W)
  : Collaborators W :=
  mkCollaborators (now_hms net) (now_full net) (doi_get net)
                  (google_search net)
                  (MetadataExtractor.extract_with fetch) (time_sleep net).

(** A page whose [.abstract] element holds [sample_abstract] and which has
    no element for the authors; the search finds one item, whose page it
    is. *)
Definition abstract_page : MetadataExtractor.Soup :=
  fun selector =>
    if (selector =? ".abstract")%string then Some sample_abstract else None.

Definition abstract_only_net : Collaborators unit :=
  with_extractor barren_net (fun _ w => (Some abstract_page, w)).

(** A page whose [.abstract] element holds two paragraphs with a blank line
    between them. *)
Definition two_paragraphs : string :=
  "This study shows that graph learning at scale needs new sampling methods."
  ++ PyStr.NL ++ PyStr.NL
  ++ "It reports experiments on citation graphs with millions of nodes.".

Definition two_paragraphs_page : MetadataExtractor.Soup :=
  fun selector =>
    if (selector =? ".abstract")%string then Some two_paragraphs else None.

Definition two_paragraphs_net : Collaborators unit :=
  with_extractor barren_net (fun _ w => (Some two_paragraphs_page, w)).

(** A page whose [.abstract] element holds 600 letters and whose
    [.authors] element holds a by-line over two lines. *)
Definition long_page : MetadataExtractor.Soup :=
  fun selector =>
    if (selector =? ".abstract")%string
    then Some (PyStr.repeat_char "a"%char 600)
    else if (selector =? ".authors")%string
    then Some ("by  Alice Smith" ++ PyStr.NL ++ "  and Bob Lee")
    else None.

(** ** Notions used to state further properties *)

(** [st'] comes from [st] by appending lines to the log and calls that all
    satisfy [P] to the list of calls, the written files being left alone. *)
Definition appends {W : Type} (P : Call -> Prop) (st st' : State W) : Prop :=
  (exists lines, results_log st' = (results_log st ++ lines)%list)
  /\ (exists made, calls st' = (calls st ++ made)%list /\ Forall P made)
  /\ output_written st' = output_written st
  /\ log_written st' = log_written st.

Definition is_sleep (c : Call) : bool :=
  match c with CallSleep => true | _ => false end.

(** A call to the network, as opposed to a pause. *)
Definition network_call (c : Call) : Prop := is_sleep c = false.

(** The number of pauses in a list of calls. *)
Definition sleeps (l : list Call) : nat := List.length (filter is_sleep l).

Fixpoint all_chars (p : ascii -> bool) (s : string) : bool :=
  match s with
  | EmptyString => true
  | String c s' => p c && all_chars p s'
  end.

(** The texts [re.search(r'[A-Z][a-z]+.*[A-Z][a-z]+', s)] accepts, read off
    the pattern: somewhere a capital letter, one or more small letters, any
    characters but a line feed, a capital letter, one or more small
    letters. *)
Definition matches_two_names (s : string) : Prop :=
  exists (before : string) (a : ascii) (small1 middle : string) (c : ascii)
         (small2 after : string),
    s = (before ++ String a small1 ++ middle ++ String c small2 ++ after)%string
    /\ PyStr.is_upper a = true
    /\ small1 <> "" /\ all_chars PyStr.is_lower small1 = true
    /\ all_chars (fun x => negb (Ascii.eqb x PyStr.nl)) middle = true
    /\ PyStr.is_upper c = true
    /\ small2 <> "" /\ all_chars PyStr.is_lower small2 = true.


(** [enriched] is what processing makes of [block]: the block itself when
    it has no title, and otherwise the stripped block followed by a line
    feed and further text. *)
Definition processed_from (block enriched : string) : Prop :=
  match title_of (snd (parse_block (PyStr.split PyStr.NL (PyStr.strip block))))
  with
  | None => enriched = block
  | Some _ =>
      exists rest, enriched = (PyStr.strip block ++ String PyStr.nl rest)%string
  end.

(** ** Sanity checks of the string primitives and of concrete runs *)

Example split_blank_lines :
  PyStr.split (PyStr.NL ++ PyStr.NL)
              ("a" ++ PyStr.NL ++ PyStr.NL ++ PyStr.NL ++ "b")
  = ["a"; PyStr.NL ++ "b"].
Proof. reflexivity. Qed.

Example strip_both_ends :
  PyStr.strip ("  Title: x " ++ PyStr.NL) = "Title: x".
Proof. reflexivity. Qed.

Example words_of_title :
  PyStr.words " Graph  Learning at Scale " = ["Graph"; "Learning"; "at"; "Scale"].
Proof. reflexivity. Qed.

Example of_Z_examples :
  (PyStr.of_Z 95, PyStr.of_Z 0, PyStr.of_Z 404) = ("95", "0", "404").
Proof. reflexivity. Qed.

Example validate_authors_sample :
  DataValidator.validate sample_authors "Graph Learning at Scale" "authors"
  = mkFlags true false false.
Proof. reflexivity. Qed.

Example validate_abstract_sample :
  DataValidator.validate sample_abstract "Graph Learning at Scale" "abstract"
  = mkFlags true true false.
Proof. reflexivity. Qed.

Example run_resolving :
  fst (_process_paper_block resolving_net sample_block start_state)
  = inr ("DOI: 10.1/xyz" ++ PyStr.NL ++ "Title: Graph Learning at Scale"
         ++ PyStr.NL ++ "Authors: Authors: Alice Smith, Bob Lee"
         ++ PyStr.NL ++ "Author_Confidence: 100%"
         ++ PyStr.NL ++ "Abstract: " ++ sample_abstract
         ++ PyStr.NL ++ "Abstract_Confidence: 100%"
         ++ PyStr.NL ++ "Webpage: https://publisher.example/xyz"
         ++ PyStr.NL ++ "Webpage_Confidence: 95%"
         ++ PyStr.NL ++ "Source_Method: DOI_DIRECT"
         ++ PyStr.NL ++ "Needs_Review: False").
Proof. vm_compute. reflexivity. Qed.

Example run_two_candidates :
  _process_paper_block two_candidates_net sample_block start_state
  = (inr ("DOI: 10.1/xyz" ++ PyStr.NL ++ "Title: Graph Learning at Scale"
          ++ PyStr.NL ++ "Abstract: " ++ sample_abstract
          ++ PyStr.NL ++ "Abstract_Confidence: 60%"
          ++ PyStr.NL ++ "Webpage: https://example.org/p2"
          ++ PyStr.NL ++ "Webpage_Confidence: 50%"
          ++ PyStr.NL ++ "Source_Method: GOOGLE_FALLBACK"
          ++ PyStr.NL ++ "Needs_Review: True"
          ++ PyStr.NL
          ++ "Errors: DOI resolution failed: DOI resolution failed: HTTP 404"),
     mkState tt
       ["[12:00:00] Processing: Graph Learning at Scale...";
        "[12:00:00] DOI: 10.1/xyz";
        "[12:00:00] Attempting DOI resolution...";
        "[12:00:00] DOI resolution failed: DOI resolution failed: HTTP 404";
        "[12:00:00] Falling back to Google search...";
        "[12:00:00] Trying search result 1: Graph Learning at Scale...";
        "[12:00:00] Trying search result 2: Graph Learning at Scale (preprint)...";
        "[12:00:00] Fallback extraction successful";
        "[12:00:00] [REVIEW NEEDED] Low confidence or errors detected";
        "[12:00:00] Final confidence scores - Authors: 60%, Abstract: 60%, Webpage: 50%";
        "[12:00:00] Errors: DOI resolution failed: DOI resolution failed: HTTP 404"]
       [CallDoiGet "https://doi.org/10.1/xyz";
        CallSearch (dquote ++ "Graph Learning at Scale" ++ dquote) 3;
        CallExtract "https://example.org/p1";
        CallExtract "https://example.org/p2"]
       None None).
Proof. vm_compute. reflexivity. Qed.

Example run_untitled :
  _process_paper_block resolving_net untitled_block start_state
  = (inr untitled_block,
     mkState tt ["[12:00:00] ERROR: No title found, skipping paper"] []
             None None).
Proof. vm_compute. reflexivity. Qed.

(** A search item without title raises at the message of line 265: nothing
    is logged for the item and its page is not fetched. *)
Example run_untitled_candidate :
  _process_paper_block untitled_candidate_net titled_block start_state
  = (inl (TypeError "'NoneType' object is not subscriptable"),
     mkState tt
       ["[12:00:00] Processing: Graph Learning at Scale...";
        "[12:00:00] DOI: None";
        "[12:00:00] Falling back to Google search..."]
       [CallSearch (dquote ++ "Graph Learning at Scale" ++ dquote) 3]
       None None).
Proof. vm_compute. reflexivity. Qed.

(** A negative delay raises at the pause of the first block, when that
    block is processed. *)
Example run_negative_delay :
  let run :=
    enrich silent_net (healthy_fs sparse_document) "refs.txt"
      "out/enriched.txt" minus_one_second start_state in
  fst run = inl (ValueError "sleep length must be non-negative")
  /\ calls (snd run)
     = [CallSearch (dquote ++ "A" ++ dquote) 3; CallSleep]
  /\ output_written (snd run) = None.
Proof. vm_compute. repeat split; reflexivity. Qed.

(** The analysis of a stale log divides by zero when the output is already
    written. *)
Example run_stale_log :
  let run :=
    enrich silent_net (stale_log_fs titled_block) "refs.txt"
      "out/enriched.txt" one_second start_state in
  fst run = inl (ZeroDivisionError "division by zero")
  /\ log_written (snd run) = None
  /\ output_written (snd run)
     = Some ("Title: Graph Learning at Scale" ++ PyStr.NL ++ "Source_Method: "
             ++ PyStr.NL ++ "Needs_Review: True"
             ++ PyStr.NL ++ "Errors: No search results found").
Proof. vm_compute. repeat split; reflexivity. Qed.

(** ** The confidence calculator *)

Lemma base_scores_spec_base (source_method : string) :
  match ConfidenceCalculator.base_scores source_method with
  | Some b => b
  | None => 30
  end = ConfidenceCalculator.spec_base source_method.
Proof.
  unfold ConfidenceCalculator.base_scores, ConfidenceCalculator.spec_base.
  destruct (source_method =? "doi_direct")%string; [reflexivity|].
  destruct (source_method =? "google_search")%string; [reflexivity|].
  destruct (source_method =? "fallback")%string; reflexivity.
Qed.

Lemma spec_base_values (source_method : string) :
  ConfidenceCalculator.spec_base source_method = 90
  \/ ConfidenceCalculator.spec_base source_method = 60
  \/ ConfidenceCalculator.spec_base source_method = 30.
Proof.
  unfold ConfidenceCalculator.spec_base.
  destruct (source_method =? "doi_direct")%string; [now left|].
  destruct (source_method =? "google_search")%string; [now (right; left)|].
  now (right; right).
Qed.

(** C7: [ConfidenceCalculator.calculate] is the function of the
    specification -- base score 90 for [doi_direct], 60 for [google_search],
    30 for any other acquisition method, plus 10 for each true flag among
    [format_valid], [content_relevant], [source_reliable], clamped to
    [0,100] -- whatever the data kind, and so every value it returns lies in
    [0,100]. *)
Theorem calculate_meets_spec (data_type source_method : string)
  (flags : ValidationFlags) :
  ConfidenceCalculator.calculate data_type source_method flags
  = ConfidenceCalculator.spec_calculate source_method flags
  /\ 0 <= ConfidenceCalculator.calculate data_type source_method flags <= 100.
Proof.
  unfold ConfidenceCalculator.calculate, ConfidenceCalculator.spec_calculate.
  rewrite base_scores_spec_base.
  destruct (spec_base_values source_method) as [E | [E | E]]; rewrite E;
    destruct flags as [[] [] []]; cbn; split; (reflexivity || lia).
Qed.

(** C10: whatever the data kind, the acquisition method and the flags,
    [ConfidenceCalculator.calculate] returns a value in [30,100]; the inner
    [max(0, score)] never changes the score, because every base score is at
    least 30 and the flags only add to it. *)
Theorem calculate_at_least_30 (data_type source_method : string)
  (flags : ValidationFlags) :
  30 <= ConfidenceCalculator.calculate data_type source_method flags <= 100
  /\ ConfidenceCalculator.calculate data_type source_method flags
     = Z.min 100 (ConfidenceCalculator.spec_base source_method
                  + 10 * Z.b2z (format_valid flags)
                  + 10 * Z.b2z (content_relevant flags)
                  + 10 * Z.b2z (source_reliable flags)).
Proof.
  unfold ConfidenceCalculator.calculate.
  rewrite base_scores_spec_base.
  destruct (spec_base_values source_method) as [E | [E | E]]; rewrite E;
    destruct flags as [[] [] []]; cbn; split; (reflexivity || lia).
Qed.

(** ** The stages of one record *)

Section Stages.

Variable W : Type.
Variable net : Collaborators W.

Ltac run_step :=
  cbv beta delta [bind bind_exn ret call _log_result extract_from_url search];
  cbn.

Lemma truthy_false_empty (s : string) : PyStr.truthy s = false -> s = "".
Proof. destruct s; [reflexivity | discriminate]. Qed.

(** The authoritative stage, started from the initial result, either leaves
    it authoritative-populated or leaves authors, abstract and webpage
    empty. *)
Lemma doi_stage_staged (title : string) (doi : option string) (st : State W) :
  staged title (fst (doi_stage net title doi (initial_result) st)).
Proof.
  unfold doi_stage.
  destruct (doi_usable doi) eqn:Hu; [| apply staged_none].
  destruct doi as [d |]; [| discriminate].
  cbn in Hu. apply andb_prop in Hu. destruct Hu as [Hu Hisbn].
  apply andb_prop in Hu. destruct Hu as [Ht Hna].
  unfold resolve. rewrite Ht.
  apply negb_true_iff in Hna. apply negb_true_iff in Hisbn.
  rewrite Hna, Hisbn. run_step.
  destruct (doi_get net _ (world st)) as [[status_code url | e] w1]; cbn.
  - destruct (status_code =? 200); cbn; [| apply staged_none].
    destruct (PyStr.truthy url) eqn:Hurl; cbn; [| apply staged_none].
    run_step.
    destruct (page_extract net url w1) as [[abstract authors] w2]; cbn.
    destruct (PyStr.truthy authors || PyStr.truthy abstract) eqn:Hdata; cbn.
    + now apply staged_doi.
    + apply staged_none.
  - apply staged_none.
Qed.

(** The loop over the candidates, when it returns, keeps the result or
    populates it from the search. *)
Lemma try_candidates_cases (title : string) (candidates : list SearchResult) :
  forall (i : Z) (result result' : EnrichmentResult) (st : State W),
    fst (try_candidates net title i candidates result st) = inr result' ->
    result' = result
    \/ exists authors abstract link,
         PyStr.truthy authors || PyStr.truthy abstract = true
         /\ result'
            = update_result result authors abstract link
                (ConfidenceCalculator.calculate "authors" "google_search"
                   (DataValidator.validate authors title "authors"))
                (ConfidenceCalculator.calculate "abstract" "google_search"
                   (DataValidator.validate authors title "authors"))
                50 "GOOGLE_FALLBACK".
Proof.
  induction candidates as [| search_result rest IH];
    intros i result result' st H.
  - left. cbn in H. now injection H as <-.
  - cbn [try_candidates] in H.
    destruct (sr_title search_result) as [search_title |];
      [| cbn in H; discriminate].
    revert H. run_step.
    destruct (page_extract net (sr_link search_result) (world st))
      as [[abstract authors] w1]; cbn.
    destruct (PyStr.truthy authors || PyStr.truthy abstract) eqn:Hdata; cbn.
    + intros H. injection H as <-.
      right. exists authors, abstract, (sr_link search_result). now split.
    + apply IH.
Qed.

(** The loop over the candidates raises only at a candidate without
    title, and then with [TypeError]. *)
Lemma try_candidates_raises (title : string) (candidates : list SearchResult) :
  forall (i : Z) (result : EnrichmentResult) (st : State W) (e : PyExn),
    fst (try_candidates net title i candidates result st) = inl e ->
    e = TypeError "'NoneType' object is not subscriptable"
    /\ forallb has_title candidates = false.
Proof.
  induction candidates as [| search_result rest IH]; intros i result st e H.
  - cbn in H. discriminate.
  - cbn [try_candidates] in H. cbn [forallb]. unfold has_title at 1.
    destruct (sr_title search_result) as [search_title |].
    + revert H. run_step.
      destruct (page_extract net (sr_link search_result) (world st))
        as [[abstract authors] w1]; cbn.
      destruct (PyStr.truthy authors || PyStr.truthy abstract); cbn.
      * discriminate.
      * apply IH.
    + cbn in H. injection H as <-. split; reflexivity.
Qed.

(** What the fallback stage does to a result, when it returns. *)
Lemma fallback_stage_cases (title : string) (result result' : EnrichmentResult)
  (st : State W) :
  fst (fallback_stage net title result st) = inr result' ->
  result' = result
  \/ (authors result = "" /\ abstract result = ""
      /\ result' = add_error result "No search results found")
  \/ (authors result = "" /\ abstract result = ""
      /\ exists authors abstract link,
           PyStr.truthy authors || PyStr.truthy abstract = true
           /\ result'
              = update_result result authors abstract link
                  (ConfidenceCalculator.calculate "authors" "google_search"
                     (DataValidator.validate authors title "authors"))
                  (ConfidenceCalculator.calculate "abstract" "google_search"
                     (DataValidator.validate authors title "authors"))
                  50 "GOOGLE_FALLBACK").
Proof.
  unfold fallback_stage.
  destruct (PyStr.truthy (authors result)) eqn:Ha; cbn;
    [intros H; left; now injection H as <- |].
  destruct (PyStr.truthy (abstract result)) eqn:Hb; cbn;
    [intros H; left; now injection H as <- |].
  apply truthy_false_empty in Ha. apply truthy_false_empty in Hb.
  run_step.
  destruct (google_search net _ 3 (world st)) as [search_results w1]; cbn.
  destruct search_results as [| first others].
  - cbn. intros H. injection H as <-. right. left. auto.
  - intros H. apply try_candidates_cases in H.
    destruct H as [Hsame | Hpop].
    + left. exact Hsame.
    + right. right. auto.
Qed.

(** The fallback stage raises only when one of the first two items of its
    search has no title. *)
Lemma fallback_stage_raises (title : string) (result : EnrichmentResult)
  (st : State W) (e : PyExn) :
  fst (fallback_stage net title result st) = inl e ->
  e = TypeError "'NoneType' object is not subscriptable"
  /\ forallb has_title
       (firstn 2 (fst (google_search net (dquote ++ title ++ dquote) 3
                         (world st))))
     = false.
Proof.
  unfold fallback_stage.
  destruct (negb (PyStr.truthy (authors result))
            && negb (PyStr.truthy (abstract result)));
    [| cbn; discriminate].
  run_step.
  destruct (google_search net _ 3 (world st)) as [search_results w1]; cbn.
  destruct search_results as [| first others]; [cbn; discriminate |].
  apply try_candidates_raises.
Qed.

(** When the two stages are over the result has one of the three shapes. *)
Lemma stages_staged (title : string) (doi : option string) (st : State W)
  (result : EnrichmentResult) :
  fst (stages net title doi st) = inr result ->
  staged title result.
Proof.
  unfold stages, bind.
  pose proof (doi_stage_staged title doi st) as Hdoi.
  destruct (doi_stage net title doi initial_result st) as [r1 st1].
  cbn [fst] in Hdoi. intros H. apply fallback_stage_cases in H.
  destruct Hdoi as [au0 ab0 url0 Hd0 Hu0 | au0 ab0 l0 errs0 Hd0 | errs0];
    destruct H as [Hsame | [(Ha & Hb & Herr)
                           | (Ha & Hb & au & ab & link & Hdata & Hpop)]];
    cbn in *; subst; try discriminate;
    cbn; solve [ now apply staged_doi | now apply staged_google
               | apply staged_none ].
Qed.

Lemma stages_raises (title : string) (doi : option string) (st : State W)
  (e : PyExn) :
  fst (stages net title doi st) = inl e ->
  e = TypeError "'NoneType' object is not subscriptable"
  /\ untitled_item_tried net title.
Proof.
  unfold stages, bind.
  destruct (doi_stage net title doi initial_result st) as [r1 st1].
  intros H. apply fallback_stage_raises in H. destruct H as [He Hitem].
  split; [exact He |]. exists (world st1). exact Hitem.
Qed.

End Stages.

(** ** The review decision *)

Section Review.

Variable W : Type.
Variable net : Collaborators W.

Lemma review_stage_result (result : EnrichmentResult) (st : State W) :
  fst (review_stage net result st)
  = if low_confidence result || has_errors result
    then set_needs_review result else result.
Proof.
  unfold review_stage.
  destruct (low_confidence result || has_errors result);
    cbv beta delta [bind ret _log_result has_errors set_needs_review]; cbn;
    destruct (errors result); reflexivity.
Qed.

(** The decision of lines 285-290, on any result. *)
Lemma review_decision (result : EnrichmentResult) :
  low_confidence result || has_errors result = true
  <-> author_confidence result < 70
      \/ abstract_confidence result < 70
      \/ webpage_confidence result < 70
      \/ errors result <> [].
Proof.
  unfold low_confidence, has_errors.
  rewrite !orb_true_iff, !Z.ltb_lt.
  destruct (errors result) as [| e errs].
  - split.
    + intros [[[C | C] | C] | C]; auto; discriminate.
    + intros [C | [C | [C | C]]]; auto; now contradiction C.
  - split.
    + intros _. right. right. right. discriminate.
    + intros _. right. reflexivity.
Qed.

Lemma enrichment_result_stages (title : string) (doi : option string)
  (st : State W) :
  enrichment_result net title doi st
  = bind_exn (stages net title doi)
      (fun result => bind (review_stage net result)
                          (fun result => ret (inr result))) st.
Proof.
  unfold enrichment_result, stages, bind, bind_exn.
  destruct (doi_stage net title doi initial_result st) as [r1 st1].
  reflexivity.
Qed.

(** The result of a titled record: one of the three staged shapes, with
    [needs_review] set by the review decision. *)
Lemma enrichment_result_shape (title : string) (doi : option string)
  (st : State W) (result : EnrichmentResult) :
  fst (enrichment_result net title doi st) = inr result ->
  exists staged_result,
    staged title staged_result
    /\ result
       = if low_confidence staged_result || has_errors staged_result
         then set_needs_review staged_result else staged_result.
Proof.
  rewrite enrichment_result_stages. unfold bind_exn, bind, ret.
  pose proof (stages_staged net title doi st) as Hshape.
  destruct (stages net title doi st) as [[e | r2] st2]; cbn [fst] in *;
    [discriminate |].
  pose proof (review_stage_result r2 st2) as Hreview.
  destruct (review_stage net r2 st2) as [r3 st3]. cbn [fst] in *.
  intros H. injection H as <-.
  exists r2. split; [now apply Hshape | exact Hreview].
Qed.

(** The processing of a titled record raises only when the fallback loop
    meets a search item without title. *)
Lemma enrichment_result_raises (title : string) (doi : option string)
  (st : State W) (e : PyExn) :
  fst (enrichment_result net title doi st) = inl e ->
  e = TypeError "'NoneType' object is not subscriptable"
  /\ untitled_item_tried net title.
Proof.
  rewrite enrichment_result_stages. unfold bind_exn, bind, ret.
  pose proof (stages_raises net title doi st) as Hraises.
  destruct (stages net title doi st) as [[e' | r2] st2]; cbn [fst] in *.
  - intros H. injection H as <-. now apply Hraises.
  - destruct (review_stage net r2 st2) as [r3 st3]. discriminate.
Qed.

End Review.

Lemma doi_direct_confidence (data_type : string) (flags : ValidationFlags) :
  90 <= ConfidenceCalculator.calculate data_type "doi_direct" flags.
Proof.
  destruct flags as [[] [] []]; cbv; discriminate.
Qed.

(** The review decision on a result of one of the three staged shapes. *)
Lemma staged_review (title : string) (staged_result : EnrichmentResult) :
  staged title staged_result ->
  let result :=
    if low_confidence staged_result || has_errors staged_result
    then set_needs_review staged_result else staged_result in
  (needs_review result = true <->
     author_confidence result < 70
     \/ abstract_confidence result < 70
     \/ webpage_confidence result < 70
     \/ errors result <> [])
  /\ (authors result = "" /\ abstract result = "" ->
      needs_review result = true
      /\ author_confidence result = 0
      /\ abstract_confidence result = 0
      /\ webpage_confidence result = 0).
Proof.
  intros Hshape. cbv zeta.
  destruct Hshape as [au ab url Hd Hu | au ab link errs Hd | errs].
  - pose proof (doi_direct_confidence "authors"
                  (DataValidator.validate au title "authors")) as H1.
    pose proof (doi_direct_confidence "abstract"
                  (DataValidator.validate ab title "abstract")) as H2.
    unfold low_confidence, has_errors. cbn.
    destruct (Z.ltb_spec (ConfidenceCalculator.calculate "authors" "doi_direct"
                (DataValidator.validate au title "authors")) 70); [lia |].
    destruct (Z.ltb_spec (ConfidenceCalculator.calculate "abstract" "doi_direct"
                (DataValidator.validate ab title "abstract")) 70); [lia |].
    cbn. split.
    + split; [discriminate |].
      intros [C | [C | [C | C]]]; try lia. now contradiction C.
    + intros [-> ->]. discriminate.
  - unfold low_confidence, has_errors. cbn.
    rewrite !orb_true_r. cbn. split.
    + split; [| reflexivity]. intros _. right. right. left. lia.
    + intros [-> ->]. discriminate.
  - unfold low_confidence, has_errors. cbn. split.
    + split; [| reflexivity]. intros _. left. lia.
    + intros _. repeat split; reflexivity.
Qed.

(** ** The enriched block *)

Lemma append_assoc (s1 s2 s3 : string) :
  ((s1 ++ s2) ++ s3 = s1 ++ (s2 ++ s3))%string.
Proof.
  induction s1 as [| c s1 IH]; cbn; [reflexivity | now rewrite IH].
Qed.

Lemma append_empty_r (s : string) : (s ++ "" = s)%string.
Proof.
  induction s as [| c s IH]; cbn; [reflexivity | now rewrite IH].
Qed.

(** [split] never returns the empty list. *)
Lemma split_go_nonempty (sep : string) (s : string) :
  forall (skip : nat) (cur : string), PyStr.split_go sep skip cur s <> [].
Proof.
  induction s as [| c s' IH]; intros skip cur; cbn.
  - discriminate.
  - destruct skip as [| k]; [| apply IH].
    match goal with
    | |- context [if ?b then _ else _] => destruct b
    end; [discriminate | apply IH].
Qed.

(** A block whose parsed title is not empty is enriched: its output is built
    from the result of its stages, and an exception that leaves its stages
    leaves its processing. *)
Lemma process_titled_block (W : Type) (net : Collaborators W)
  (block title : string) (doi : option string) (st : State W) :
  parse_block (PyStr.split PyStr.NL (PyStr.strip block)) = (doi, Some title) ->
  PyStr.truthy title = true ->
  _process_paper_block net block st
  = (match fst (enrichment_result net title doi (announced net title doi st))
     with
     | inr result => inr (build_enriched_block block result)
     | inl e => inl e
     end,
     snd (enrichment_result net title doi (announced net title doi st))).
Proof.
  intros Hparse Htitle. unfold _process_paper_block.
  destruct (PyStr.split PyStr.NL (PyStr.strip block)) as [| l ls] eqn:Hlines.
  - exfalso. apply (split_go_nonempty PyStr.NL (PyStr.strip block) 0 "").
    exact Hlines.
  - rewrite Hparse. cbn [title_of]. rewrite Htitle.
    unfold announced. cbv beta delta [bind bind_exn ret]. cbn [snd fst].
    destruct (_log_result net _ st) as [[] st1]. cbn [snd].
    destruct (_log_result net _ st1) as [[] st2]. cbn [snd].
    destruct (enrichment_result net title doi st2) as [[e | r] st3];
      reflexivity.
Qed.

(** The processing of a titled record returns the block built from the
    result of its stages, or raises because the fallback loop met a search
    item without title. *)
Lemma process_titled_block_cases (W : Type) (net : Collaborators W)
  (block title : string) (doi : option string) (st : State W) :
  parse_block (PyStr.split PyStr.NL (PyStr.strip block)) = (doi, Some title) ->
  PyStr.truthy title = true ->
  match fst (_process_paper_block net block st) with
  | inr output =>
      exists result,
        fst (enrichment_result net title doi (announced net title doi st))
        = inr result
        /\ output = build_enriched_block block result
  | inl e =>
      e = TypeError "'NoneType' object is not subscriptable"
      /\ untitled_item_tried net title
  end.
Proof.
  intros Hparse Htitle.
  rewrite (@process_titled_block W net block title doi st Hparse Htitle).
  cbn [fst].
  pose proof (@enrichment_result_raises W net title doi
                (announced net title doi st)) as Hraises.
  destruct (fst (enrichment_result net title doi (announced net title doi st)))
    as [e | result].
  - now apply Hraises.
  - exists result. split; reflexivity.
Qed.

(** C1, as the code has it: for a titled record that is processed to an
    output block, the [needs_review] flag of the result the block is built
    from is true if and only if one of the three confidence values -- each
    compared whether its field was populated or not -- is below 70, or the
    errors list is non-empty.  So a record for which neither authors nor an
    abstract was populated, whose three confidences are the initial 0, has
    [needs_review] true, with or without errors.  (The processing returns
    no block only when the fallback loop meets a search item without
    title.)  The decision itself, on any result: the flag is set exactly
    when a confidence is below 70 or there is an error. *)
Theorem needs_review_iff_low_or_errors (W : Type) (net : Collaborators W)
  (block title : string) (doi : option string) (st : State W) :
  parse_block (PyStr.split PyStr.NL (PyStr.strip block)) = (doi, Some title) ->
  PyStr.truthy title = true ->
  match fst (_process_paper_block net block st) with
  | inr output =>
      exists result,
        fst (enrichment_result net title doi (announced net title doi st))
        = inr result
        /\ output = build_enriched_block block result
        /\ (needs_review result = true <->
              author_confidence result < 70
              \/ abstract_confidence result < 70
              \/ webpage_confidence result < 70
              \/ errors result <> [])
        /\ (authors result = "" /\ abstract result = "" ->
            needs_review result = true
            /\ author_confidence result = 0
            /\ abstract_confidence result = 0
            /\ webpage_confidence result = 0)
  | inl _ => untitled_item_tried net title
  end
  /\ forall (result : EnrichmentResult) (st' : State W),
       needs_review result = false ->
       (needs_review (fst (review_stage net result st')) = true <->
          author_confidence result < 70
          \/ abstract_confidence result < 70
          \/ webpage_confidence result < 70
          \/ errors result <> []).
Proof.
  intros Hparse Htitle. split.
  - pose proof (@process_titled_block_cases W net block title doi st
                  Hparse Htitle) as Hcases.
    destruct (fst (_process_paper_block net block st)) as [e | output];
      [apply Hcases |].
    destruct Hcases as (result & Hresult & Houtput).
    exists result. split; [exact Hresult |]. split; [exact Houtput |].
    destruct (enrichment_result_shape net title doi _ Hresult)
      as (r & Hshape & ->).
    apply (staged_review Hshape).
  - intros result st' Hfalse. rewrite review_stage_result.
    rewrite <- review_decision.
    destruct (low_confidence result || has_errors result); cbn.
    + split; reflexivity.
    + rewrite Hfalse. split; discriminate.
Qed.

(** C1 at a concrete record: a titled record without identifier, whose
    search finds a page that yields nothing. *)
Lemma needs_review_iff_low_or_errors_witness :
  exists result,
    fst (_process_paper_block barren_net titled_block start_state)
    = inr (build_enriched_block titled_block result)
    /\ needs_review result = true /\ errors result = [].
Proof.
  pose proof (@needs_review_iff_low_or_errors unit barren_net titled_block
                "Graph Learning at Scale" None start_state eq_refl eq_refl)
    as [H _].
  destruct (fst (_process_paper_block barren_net titled_block start_state))
    as [e | output] eqn:E.
  - vm_compute in E. discriminate.
  - destruct H as (result & Hresult & Houtput & _ & Hzero).
    exists result. split; [now rewrite Houtput |].
    vm_compute in Hresult. injection Hresult as <-.
    split; reflexivity.
Defined.

(** C1 as stated fails on that record: nothing is populated and the errors
    list is empty, so no populated confidence is below 70, yet
    [needs_review] is true. *)
Lemma needs_review_without_populated_confidence :
  exists result,
    fst (enrichment_result barren_net "Graph Learning at Scale" None
           (announced barren_net "Graph Learning at Scale" None start_state))
    = inr result
    /\ fst (_process_paper_block barren_net titled_block start_state)
       = inr (build_enriched_block titled_block result)
    /\ authors result = "" /\ abstract result = "" /\ webpage result = ""
    /\ errors result = []
    /\ needs_review result = true
    /\ ~ (needs_review result = true <->
          populated_low_confidence result = true \/ errors result <> []).
Proof.
  exists (mkResult "" "" "" 0 0 0 "" true []).
  repeat split; try (vm_compute; reflexivity).
  intros [H _]. destruct (H eq_refl) as [C | C].
  - vm_compute in C. discriminate.
  - apply C. reflexivity.
Qed.

(** C2, as the code has it: for a titled record that is processed to an
    output block, [source_method] is the empty string exactly when neither
    stage populated authors or an abstract (the other values being
    [DOI_DIRECT] and [GOOGLE_FALLBACK]), and the enriched block of such a
    record is the stripped input block followed by the line
    [Source_Method: ] with nothing after the colon's space, the line
    [Needs_Review: True] and, when there are errors, the [Errors:] line.
    The processing returns no block only when the fallback loop meets a
    search item without title. *)
Theorem source_method_empty_iff_no_data (W : Type) (net : Collaborators W)
  (block title : string) (doi : option string) (st : State W) :
  parse_block (PyStr.split PyStr.NL (PyStr.strip block)) = (doi, Some title) ->
  PyStr.truthy title = true ->
  match fst (_process_paper_block net block st) with
  | inr output =>
      exists result,
        fst (enrichment_result net title doi (announced net title doi st))
        = inr result
        /\ output = build_enriched_block block result
        /\ (source_method result = "" <->
            authors result = "" /\ abstract result = "")
        /\ (source_method result = "" \/ source_method result = "DOI_DIRECT"
            \/ source_method result = "GOOGLE_FALLBACK")
        /\ (authors result = "" /\ abstract result = "" ->
            output
            = PyStr.strip block ++ PyStr.NL ++ "Source_Method: "
              ++ PyStr.NL ++ "Needs_Review: True"
              ++ match errors result with
                 | [] => ""
                 | _ :: _ =>
                     PyStr.NL ++ "Errors: " ++ PyStr.join "; " (errors result)
                 end)
  | inl _ => untitled_item_tried net title
  end.
Proof.
  intros Hparse Htitle.
  pose proof (@process_titled_block_cases W net block title doi st
                Hparse Htitle) as Hcases.
  destruct (fst (_process_paper_block net block st)) as [e | output];
    [apply Hcases |].
  destruct Hcases as (result & Hresult & ->).
  exists result. split; [exact Hresult |]. split; [reflexivity |].
  destruct (enrichment_result_shape net title doi _ Hresult)
    as (r & Hshape & ->).
  destruct Hshape as [au ab url Hd Hu | au ab link errs Hd | errs].
  - assert (Hne : ~ (au = "" /\ ab = ""))
      by (intros [-> ->]; discriminate).
    destruct (low_confidence _ || has_errors _); cbn;
      (split; [split; [discriminate | intros C; now destruct (Hne C)] |]);
      (split; [now (right; left) |]); intros C; now destruct (Hne C).
  - assert (Hne : ~ (au = "" /\ ab = ""))
      by (intros [-> ->]; discriminate).
    destruct (low_confidence _ || has_errors _); cbn;
      (split; [split; [discriminate | intros C; now destruct (Hne C)] |]);
      (split; [now (right; right) |]); intros C; now destruct (Hne C).
  - unfold low_confidence. cbn.
    split; [split; [now split | reflexivity] |].
    split; [now left |]. intros _.
    unfold build_enriched_block, has_errors. cbn.
    destruct errs as [| e errs]; cbn.
    + rewrite !append_assoc. reflexivity.
    + rewrite !append_assoc. reflexivity.
Qed.

(** C2 at a concrete record: a titled record with no identifier and an
    empty search. *)
Lemma source_method_empty_iff_no_data_witness :
  fst (_process_paper_block silent_net titled_block start_state)
  = inr ("Title: Graph Learning at Scale" ++ PyStr.NL ++ "Source_Method: "
         ++ PyStr.NL ++ "Needs_Review: True"
         ++ PyStr.NL ++ "Errors: No search results found").
Proof.
  pose proof (@source_method_empty_iff_no_data unit silent_net titled_block
                "Graph Learning at Scale" None start_state
                eq_refl eq_refl) as H.
  destruct (fst (_process_paper_block silent_net titled_block start_state))
    as [e | output] eqn:E.
  - vm_compute in E. discriminate.
  - destruct H as (result & Hresult & _ & _ & _ & H).
    vm_compute in Hresult. injection Hresult as <-.
    rewrite H; [reflexivity | split; reflexivity].
Defined.

(** C2 as stated fails on that record: no stage populates anything, yet the
    enriched block has no line [Source_Method: NONE] and [source_method] is
    not [NONE]; it is the empty string. *)
Lemma source_method_is_not_none :
  exists result output,
    fst (enrichment_result silent_net "Graph Learning at Scale" None
           (announced silent_net "Graph Learning at Scale" None start_state))
    = inr result
    /\ fst (_process_paper_block silent_net titled_block start_state)
       = inr output
    /\ authors result = "" /\ abstract result = "" /\ webpage result = ""
    /\ output = build_enriched_block titled_block result
    /\ PyStr.contains "Source_Method: NONE" output = false
    /\ source_method result <> "NONE"
    /\ source_method result = "".
Proof.
  exists (mkResult "" "" "" 0 0 0 "" true ["No search results found"]).
  eexists.
  split; [vm_compute; reflexivity |].
  split; [vm_compute; reflexivity |].
  repeat split; try (vm_compute; reflexivity).
  vm_compute. discriminate.
Qed.

(** ** The fallback stage *)

(** C3, as the code has it: when the fallback stage is entered, the error
    [No search results found] is appended to the errors list exactly when
    the search returned an empty candidate list; when the search returned
    candidates and no tried candidate yields authors or an abstract, nothing
    is appended.  In both cases [source_method] keeps the value it had (the
    empty string of the initial result).  The stage returns no result only
    when one of its first two candidates has no title. *)
Theorem fallback_error_iff_search_empty (W : Type) (net : Collaborators W)
  (title : string) (result : EnrichmentResult) (st : State W)
  (search_results : list SearchResult) (w' : W) :
  authors result = "" ->
  abstract result = "" ->
  google_search net (dquote ++ title ++ dquote) 3 (world st)
  = (search_results, w') ->
  match fst (fallback_stage net title result st) with
  | inr result' =>
      errors result'
      = match search_results with
        | [] => (errors result ++ ["No search results found"])%list
        | _ :: _ => errors result
        end
      /\ (search_results = [] -> authors result' = "" /\ abstract result' = "")
      /\ (authors result' = "" /\ abstract result' = "" ->
          source_method result' = source_method result)
  | inl e =>
      e = TypeError "'NoneType' object is not subscriptable"
      /\ forallb has_title (firstn 2 search_results) = false
  end.
Proof.
  intros Ha Hb Hsearch.
  pose proof (@fallback_stage_raises W net title result st) as Hraises.
  rewrite Hsearch in Hraises. cbn [fst] in Hraises.
  destruct (fst (fallback_stage net title result st)) as [e | result'] eqn:E;
    [now apply Hraises |].
  revert E. unfold fallback_stage.
  rewrite Ha, Hb. cbn [PyStr.truthy negb andb].
  cbv beta delta [bind ret call _log_result search]. cbn [world fst snd].
  rewrite Hsearch.
  destruct search_results as [| first others].
  - cbn. intros E. injection E as <-. cbn. rewrite Ha, Hb.
    repeat split; reflexivity.
  - intros E. apply try_candidates_cases in E.
    destruct E as [-> | (au & ab & link & Hdata & ->)].
    + split; [reflexivity |]. split; [discriminate | reflexivity].
    + cbn. split; [reflexivity |]. split; [discriminate |].
      intros [-> ->]. discriminate.
Qed.

(** C3 at concrete runs: an empty search appends the error, a search whose
    only candidate yields nothing appends none. *)
Lemma fallback_error_iff_search_empty_witness :
  (exists result',
     fst (fallback_stage silent_net "Graph Learning at Scale"
            initial_result start_state) = inr result'
     /\ errors result' = ["No search results found"])
  /\ (exists result',
        fst (fallback_stage barren_net "Graph Learning at Scale"
               initial_result start_state) = inr result'
        /\ errors result' = []).
Proof.
  split.
  - pose proof (@fallback_error_iff_search_empty unit silent_net
                  "Graph Learning at Scale" initial_result start_state
                  [] tt eq_refl eq_refl eq_refl) as H.
    destruct (fst (fallback_stage silent_net "Graph Learning at Scale"
                     initial_result start_state)) as [e | result'].
    + destruct H as [_ H]. discriminate.
    + exists result'. split; [reflexivity | apply H].
  - pose proof (@fallback_error_iff_search_empty unit barren_net
                  "Graph Learning at Scale" initial_result start_state
                  [barren_candidate] tt eq_refl eq_refl eq_refl) as H.
    destruct (fst (fallback_stage barren_net "Graph Learning at Scale"
                     initial_result start_state)) as [e | result'].
    + destruct H as [_ H]. discriminate.
    + exists result'. split; [reflexivity | apply H].
Defined.

(** C3 as stated fails when the search returns a candidate whose page
    yields nothing: no tried candidate yields authors or an abstract, and
    the errors list stays empty. *)
Lemma no_error_when_candidates_yield_nothing :
  let run :=
    fallback_stage barren_net "Graph Learning at Scale" initial_result
      start_state in
  google_search barren_net (dquote ++ "Graph Learning at Scale" ++ dquote) 3 tt
  = ([barren_candidate], tt)
  /\ page_extract barren_net (sr_link barren_candidate) tt = ("", "", tt)
  /\ calls (snd run)
     = [CallSearch (dquote ++ "Graph Learning at Scale" ++ dquote) 3;
        CallExtract (sr_link barren_candidate)]
  /\ exists result',
       fst run = inr result'
       /\ authors result' = "" /\ abstract result' = ""
       /\ ~ In "No search results found" (errors result')
       /\ ~ In "no search results found" (errors result')
       /\ errors result' = [].
Proof.
  cbv zeta. repeat split; try reflexivity.
  exists initial_result.
  repeat split; try reflexivity; intros H; exact H.
Qed.

(** C5 fails in the fallback stage: for a titled record whose search
    candidate is a page on which the extractor of the repository finds an
    abstract (of 143 characters) and no authors, [abstract_confidence] is
    computed from the flags of the (empty) authors text validated as
    ['authors'], which gives 60, where the flags of the abstract validated
    as ['abstract'] would give 80; the enriched block carries the 60. *)
Theorem fallback_abstract_confidence_uses_author_flags :
  let title := "Graph Learning at Scale" in
  exists result,
    fst (enrichment_result abstract_only_net title None
           (announced abstract_only_net title None start_state))
    = inr result
    /\ fst (_process_paper_block abstract_only_net titled_block start_state)
       = inr (build_enriched_block titled_block result)
    /\ MetadataExtractor._extract_abstract abstract_page = sample_abstract
    /\ MetadataExtractor._extract_authors abstract_page = ""
    /\ String.length sample_abstract = 143%nat
    /\ source_method result = "GOOGLE_FALLBACK"
    /\ authors result = ""
    /\ abstract result = sample_abstract
    /\ abstract_confidence result = 60
    /\ abstract_confidence result
       = ConfidenceCalculator.calculate "abstract" "google_search"
           (DataValidator.validate (authors result) title "authors")
    /\ DataValidator.validate (abstract result) title "abstract"
       = mkFlags true true false
    /\ ConfidenceCalculator.calculate "abstract" "google_search"
         (DataValidator.validate (abstract result) title "abstract")
       = 80
    /\ PyStr.contains "Abstract_Confidence: 60%"
         (build_enriched_block titled_block result) = true.
Proof.
  cbv zeta.
  exists (mkResult "" sample_abstract "https://example.org/p1" 60 60 50
            "GOOGLE_FALLBACK" true []).
  repeat split; vm_compute; reflexivity.
Qed.

(** The authoritative stage validates each text as its own kind. *)
Lemma doi_stage_confidence_per_kind (W : Type) (net : Collaborators W)
  (title : string) (doi : option string) (st : State W) :
  let result := fst (doi_stage net title doi initial_result st) in
  source_method result = "DOI_DIRECT" ->
  abstract_confidence result
  = ConfidenceCalculator.calculate "abstract" "doi_direct"
      (DataValidator.validate (abstract result) title "abstract")
  /\ author_confidence result
     = ConfidenceCalculator.calculate "authors" "doi_direct"
         (DataValidator.validate (authors result) title "authors").
Proof.
  cbv zeta. intros Hsrc.
  destruct (doi_stage_staged net title doi st)
    as [au ab url Hd Hu | au ab link errs Hd | errs]; cbn in *.
  - split; reflexivity.
  - discriminate.
  - discriminate.
Qed.

(** Whatever the fallback stage populates, both confidences come from the
    flags of the authors text. *)
Lemma fallback_confidences_share_flags (W : Type) (net : Collaborators W)
  (title : string) (doi : option string) (st : State W)
  (result : EnrichmentResult) :
  fst (stages net title doi st) = inr result ->
  source_method result = "GOOGLE_FALLBACK" ->
  abstract_confidence result
  = ConfidenceCalculator.calculate "abstract" "google_search"
      (DataValidator.validate (authors result) title "authors").
Proof.
  intros Hstages Hsrc.
  destruct (stages_staged net title doi st Hstages)
    as [au ab url Hd Hu | au ab link errs Hd | errs]; cbn in *.
  - discriminate.
  - reflexivity.
  - discriminate.
Qed.

(** ** The order of the calls *)

Section Calls.

Variable W : Type.
Variable net : Collaborators W.

Ltac run_step :=
  cbv beta delta [bind bind_exn ret call _log_result extract_from_url search];
  cbn [fst snd world calls results_log output_written log_written].

Lemma app_assoc_cons {A : Type} (l l1 : list A) (x : A) (l2 : list A) :
  ((l ++ x :: l1) ++ l2 = l ++ x :: (l1 ++ l2))%list.
Proof. now rewrite <- app_assoc. Qed.

(** The loop over the candidates only calls the page extractor. *)
Lemma try_candidates_calls (title : string) (candidates : list SearchResult) :
  forall (i : Z) (result : EnrichmentResult) (st : State W),
  exists made,
    calls (snd (try_candidates net title i candidates result st))
    = (calls st ++ made)%list
    /\ Forall (fun c => exists url, c = CallExtract url) made.
Proof.
  induction candidates as [| search_result rest IH]; intros i result st.
  - exists []. cbn. now rewrite app_nil_r.
  - cbn [try_candidates].
    destruct (sr_title search_result) as [search_title |].
    + run_step.
      destruct (page_extract net (sr_link search_result) (world st))
        as [[abstract authors] w1].
      destruct (PyStr.truthy authors || PyStr.truthy abstract).
      * run_step. exists [CallExtract (sr_link search_result)].
        split; [reflexivity |]. constructor; [now eexists | constructor].
      * match goal with
        | |- context [try_candidates net title ?j rest result ?s] =>
            destruct (IH j result s) as (made & Hcalls & Hmade)
        end.
        exists (CallExtract (sr_link search_result) :: made).
        rewrite Hcalls. cbn [calls]. rewrite <- app_assoc.
        split; [reflexivity |]. constructor; [now eexists | exact Hmade].
    + exists []. cbn. now rewrite app_nil_r.
Qed.

(** The fallback stage is left at once when authors or abstract are
    populated; otherwise its first call is the search. *)
Lemma fallback_stage_skipped (title : string) (result : EnrichmentResult)
  (st : State W) :
  PyStr.truthy (authors result) || PyStr.truthy (abstract result) = true ->
  fallback_stage net title result st = (inr result, st).
Proof.
  intros H. unfold fallback_stage.
  apply orb_true_iff in H. destruct H as [-> | ->]; cbn;
    [| rewrite andb_false_r]; reflexivity.
Qed.

Lemma fallback_stage_calls (title : string) (result : EnrichmentResult)
  (st : State W) :
  exists made,
    calls (snd (fallback_stage net title result st)) = (calls st ++ made)%list
    /\ (made = []
        \/ authors result = "" /\ abstract result = "").
Proof.
  unfold fallback_stage.
  destruct (PyStr.truthy (authors result)) eqn:Ha; cbn [negb andb].
  { exists []. cbn. rewrite app_nil_r. auto. }
  destruct (PyStr.truthy (abstract result)) eqn:Hb; cbn [negb andb].
  { exists []. cbn. rewrite app_nil_r. auto. }
  apply truthy_false_empty in Ha. apply truthy_false_empty in Hb.
  run_step.
  destruct (google_search net _ 3 (world st)) as [search_results w1].
  destruct search_results as [| first others].
  - run_step. eexists. split; [reflexivity | auto].
  - match goal with
    | |- context [try_candidates net title 0 ?cs result ?s] =>
        destruct (try_candidates_calls title cs 0 result s)
          as (made & Hcalls & _)
    end.
    rewrite Hcalls. cbn [calls]. rewrite <- app_assoc.
    eexists. split; [reflexivity | auto].
Qed.

Lemma review_stage_calls (result : EnrichmentResult) (st : State W) :
  calls (snd (review_stage net result st)) = calls st.
Proof.
  unfold review_stage.
  destruct (low_confidence result || has_errors result); run_step;
    match goal with
    | |- context [if ?b then _ else _] => destruct b
    end; reflexivity.
Qed.

(** With a usable identifier, the first call of the authoritative stage is
    the resolution, and the stage makes no search. *)
Lemma doi_stage_calls (title d : string) (result : EnrichmentResult)
  (st : State W) :
  doi_usable (Some d) = true ->
  exists made,
    calls (snd (doi_stage net title (Some d) result st))
    = (calls st ++ CallDoiGet ("https://doi.org/" ++ d) :: made)%list
    /\ Forall (fun c => exists url, c = CallExtract url) made.
Proof.
  intros Hu. unfold doi_stage. rewrite Hu.
  cbn in Hu. apply andb_prop in Hu. destruct Hu as [Hu Hisbn].
  apply andb_prop in Hu. destruct Hu as [Ht Hna].
  apply negb_true_iff in Hna. apply negb_true_iff in Hisbn.
  unfold resolve. rewrite Ht, Hna, Hisbn. cbn [negb orb]. run_step.
  destruct (doi_get net _ (world st)) as [[status_code url | e] w1].
  - destruct (status_code =? 200).
    + destruct (PyStr.truthy url).
      * run_step.
        destruct (page_extract net url w1) as [[abstract authors] w2].
        destruct (PyStr.truthy authors || PyStr.truthy abstract); run_step;
          (exists [CallExtract url]; rewrite <- app_assoc;
           split; [reflexivity |]; constructor; [now eexists | constructor]).
      * run_step. exists []. split; [reflexivity | constructor].
    + run_step. exists []. split; [reflexivity | constructor].
  - run_step. exists []. split; [reflexivity | constructor].
Qed.

(** The calls of the result of a titled record are those of its two
    stages; the review decision makes none. *)
Lemma enrichment_result_calls (title : string) (doi : option string)
  (st : State W) :
  calls (snd (enrichment_result net title doi st))
  = calls (snd (stages net title doi st)).
Proof.
  rewrite enrichment_result_stages. unfold bind_exn, bind, ret.
  destruct (stages net title doi st) as [[e | r2] st2]; [reflexivity |].
  pose proof (review_stage_calls r2 st2) as Hreview.
  destruct (review_stage net r2 st2) as [r3 st3]. exact Hreview.
Qed.

End Calls.

Lemma doi_usable_present (d : string) :
  d <> "" -> d <> "Not available" -> PyStr.contains "ISBN" d = false ->
  doi_usable (Some d) = true.
Proof.
  intros Hne Hna Hisbn. cbn. rewrite Hisbn.
  destruct d as [| c d']; [now contradiction Hne |].
  destruct (String.eqb_spec (String c d') "Not available") as [E | _];
    [now contradiction Hna | reflexivity].
Qed.

(** C8: for a titled record (a block whose parsed title is not empty)
    whose parsed identifier is present (a non-empty string other than the
    marker [Not available]) and not ISBN-tagged, the first call the
    processing of the block makes is the authoritative resolution of that
    identifier, so any search comes after it; a search is made only if
    authors and abstract are both empty when the authoritative stage is
    over; and when either is populated the fallback stage does nothing at
    all, no search is made and the enriched block is built from the result
    of the authoritative stage. *)
Theorem authoritative_before_fallback (W : Type) (net : Collaborators W)
  (block title d : string) (st : State W) :
  parse_block (PyStr.split PyStr.NL (PyStr.strip block))
  = (Some d, Some title) ->
  PyStr.truthy title = true ->
  d <> "" ->
  d <> "Not available" ->
  PyStr.contains "ISBN" d = false ->
  let after_doi :=
    doi_stage net title (Some d) initial_result
      (announced net title (Some d) st) in
  exists made,
    calls (snd (_process_paper_block net block st))
    = (calls st ++ CallDoiGet ("https://doi.org/" ++ d) :: made)%list
    /\ ((exists query num_results, In (CallSearch query num_results) made) ->
        authors (fst after_doi) = "" /\ abstract (fst after_doi) = "")
    /\ (authors (fst after_doi) <> "" \/ abstract (fst after_doi) <> "" ->
        fallback_stage net title (fst after_doi) (snd after_doi)
        = (inr (fst after_doi), snd after_doi)
        /\ (forall query num_results, ~ In (CallSearch query num_results) made)
        /\ fst (_process_paper_block net block st)
           = inr (build_enriched_block block
                    (fst (review_stage net (fst after_doi) (snd after_doi))))).
Proof.
  intros Hparse Htitle Hne Hna Hisbn. cbv zeta.
  pose proof (doi_usable_present Hne Hna Hisbn) as Hu.
  rewrite (@process_titled_block W net block title (Some d) st Hparse Htitle).
  cbn [fst snd].
  assert (Hst : calls (announced net title (Some d) st) = calls st)
    by reflexivity.
  set (st0 := announced net title (Some d) st) in *.
  rewrite enrichment_result_calls.
  rewrite enrichment_result_stages.
  unfold stages, bind, bind_exn, ret.
  destruct (@doi_stage_calls W net title d initial_result st0 Hu)
    as (made1 & Hcalls1 & Hmade1).
  destruct (doi_stage net title (Some d) initial_result st0) as [r1 st1].
  cbn [fst snd] in *.
  destruct (fallback_stage_calls net title r1 st1) as (made2 & Hcalls2 & Hwhy).
  exists (made1 ++ made2)%list. split; [| split].
  - rewrite Hcalls2, Hcalls1, Hst. apply app_assoc_cons.
  - intros (query & num_results & Hin).
    apply in_app_or in Hin. destruct Hin as [Hin | Hin].
    + rewrite Forall_forall in Hmade1.
      destruct (Hmade1 _ Hin) as [url Hurl]. discriminate.
    + destruct Hwhy as [-> | Hempty]; [now destruct Hin | exact Hempty].
  - intros Hpop.
    assert (Hskip : fallback_stage net title r1 st1 = (inr r1, st1)).
    { apply fallback_stage_skipped.
      destruct Hpop as [Hpop | Hpop].
      - destruct (authors r1); [now contradiction Hpop | reflexivity].
      - destruct (abstract r1); [now contradiction Hpop | apply orb_true_r]. }
    split; [exact Hskip |]. split.
    + intros query num_results Hin.
      rewrite Hskip in Hcalls2. cbn [snd] in Hcalls2.
      assert (made2 = []) as ->.
      { rewrite <- (app_nil_r (calls st1)) in Hcalls2 at 1.
        now apply app_inv_head in Hcalls2. }
      rewrite app_nil_r in Hin.
      rewrite Forall_forall in Hmade1.
      destruct (Hmade1 _ Hin) as [url Hurl]. discriminate.
    + rewrite Hskip.
      destruct (review_stage net r1 st1) as [r3 st3]. reflexivity.
Qed.

(** C8 at the sample record, whose identifier resolves to a page with
    authors and an abstract: the resolution comes first and no search is
    made. *)
Lemma authoritative_before_fallback_witness :
  exists made,
    calls (snd (_process_paper_block resolving_net sample_block start_state))
    = CallDoiGet "https://doi.org/10.1/xyz" :: made
    /\ forall query num_results, ~ In (CallSearch query num_results) made.
Proof.
  destruct (@authoritative_before_fallback unit resolving_net sample_block
              "Graph Learning at Scale" "10.1/xyz" start_state)
    as (made & Hcalls & _ & Hpop).
  - reflexivity.
  - reflexivity.
  - discriminate.
  - discriminate.
  - reflexivity.
  - exists made. split; [exact Hcalls |].
    apply Hpop. left. vm_compute. discriminate.
Defined.

(** ** Records without a title *)

Lemma parse_line_keeps_no_title (acc : option string * option string)
  (line : string) :
  PyStr.startswith "Title:" line = false ->
  snd (parse_line acc line) = snd acc.
Proof.
  intros H. destruct acc as [doi title]. unfold parse_line.
  destruct (PyStr.startswith "DOI:" line); [reflexivity |].
  rewrite H. reflexivity.
Qed.

(** A block none of whose lines starts with [Title:] has no title. *)
Lemma parse_block_no_title_line (lines : list string) :
  Forall (fun line => PyStr.startswith "Title:" line = false) lines ->
  snd (parse_block lines) = None.
Proof.
  unfold parse_block.
  assert (G : forall acc,
             Forall (fun line => PyStr.startswith "Title:" line = false) lines ->
             snd (fold_left parse_line lines acc) = snd acc).
  { induction lines as [| line rest IH]; intros acc Hall; [reflexivity |].
    inversion Hall as [| ? ? Hline Hrest]; subst. cbn [fold_left].
    rewrite IH by exact Hrest. now apply parse_line_keeps_no_title. }
  intros Hall. now rewrite G.
Qed.

(** C9: a block from which no title is parsed (no line starts with
    [Title:], or the last such line has nothing but whitespace after the
    colon) is returned as it is, character for character; nothing but the
    log line of the skip is done: no collaborator is called, no result is
    built, nothing is appended to the block, and nothing is raised. *)
Theorem untitled_block_unchanged (W : Type) (net : Collaborators W)
  (block : string) (st : State W) :
  title_of (snd (parse_block (PyStr.split PyStr.NL (PyStr.strip block)))) = None ->
  _process_paper_block net block st
  = (inr block, snd (_log_result net "ERROR: No title found, skipping paper" st))
  /\ calls (snd (_process_paper_block net block st)) = calls st
  /\ world (snd (_process_paper_block net block st)) = world st.
Proof.
  intros Hnone.
  assert (E : _process_paper_block net block st
              = (inr block,
                 snd (_log_result net "ERROR: No title found, skipping paper"
                        st))).
  { unfold _process_paper_block.
    destruct (PyStr.split PyStr.NL (PyStr.strip block)) as [| l ls] eqn:Hlines.
    - exfalso. apply (split_go_nonempty PyStr.NL (PyStr.strip block) 0 "").
      exact Hlines.
    - destruct (parse_block (l :: ls)) as [doi title]. cbn [snd] in Hnone.
      rewrite Hnone. reflexivity. }
  rewrite E. repeat split; reflexivity.
Qed.

(** C9 at a block with a [DOI:] line that does not start its line, a
    [Year:] line and a closing line feed. *)
Lemma untitled_block_unchanged_witness :
  fst (_process_paper_block resolving_net untitled_block start_state)
  = inr untitled_block.
Proof.
  pose proof (@untitled_block_unchanged unit resolving_net untitled_block
                start_state eq_refl) as [E _].
  rewrite E. reflexivity.
Defined.

(** ** The run over a document *)

Section Enrich.

Variable W : Type.
Variable net : Collaborators W.

(** The processing of a block, titled or not, raises only when the
    fallback loop of a titled record meets a search item without title. *)
Lemma process_paper_block_raises (block : string) (st : State W) (e : PyExn) :
  fst (_process_paper_block net block st) = inl e ->
  e = TypeError "'NoneType' object is not subscriptable"
  /\ exists title, untitled_item_tried net title.
Proof.
  unfold _process_paper_block.
  destruct (PyStr.split PyStr.NL (PyStr.strip block)) as [| l ls];
    [cbn; discriminate |].
  destruct (parse_block (l :: ls)) as [doi title].
  destruct (title_of title) as [t |]; [| cbn; discriminate].
  cbv beta delta [bind bind_exn ret].
  destruct (_log_result net _ st) as [[] st1].
  destruct (_log_result net _ st1) as [[] st2].
  pose proof (@enrichment_result_raises W net t doi st2) as Hraises.
  destruct (enrichment_result net t doi st2) as [[e' | r] st3]; cbn [fst] in *.
  - intros H. injection H as <-.
    destruct (Hraises e' eq_refl) as [He Hitem].
    split; [exact He | now exists t].
  - discriminate.
Qed.

(** What the pause answers. *)
Lemma pause_run (delay : Delay net) (st : State W) :
  pause net delay st
  = (match fst (time_sleep net delay (world st)) with
     | Some e => inl e
     | None => inr tt
     end,
     mkState (snd (time_sleep net delay (world st))) (results_log st)
             (calls st ++ [CallSleep]) (output_written st) (log_written st)).
Proof.
  unfold pause, bind, call, ret.
  destruct (time_sleep net delay (world st)) as [[e |] w']; reflexivity.
Qed.

(** The loop over the blocks returns one enriched block per block. *)
Lemma process_blocks_length (delay : Delay net) (blocks : list string) :
  forall (total : nat) (i : Z) (st : State W) (enriched_blocks : list string),
    fst (process_blocks net delay total i blocks st) = inr enriched_blocks ->
    List.length enriched_blocks = List.length blocks.
Proof.
  induction blocks as [| block rest IH]; intros total i st enriched_blocks.
  - cbn. intros H. now injection H as <-.
  - cbn [process_blocks]. cbv beta delta [bind bind_exn ret].
    destruct (_log_result net _ st) as [[] st1].
    destruct (_process_paper_block net block st1) as [[e | enriched_block] st2];
      [cbn; discriminate |].
    destruct (pause net delay st2) as [[e | []] st3]; [cbn; discriminate |].
    specialize (IH total (i + 1) st3).
    destruct (process_blocks net delay total (i + 1) rest st3)
      as [[e | enriched] st4]; [cbn; discriminate |].
    cbn [fst] in *. intros H. injection H as <-.
    cbn [List.length]. now rewrite (IH enriched eq_refl).
Qed.

(** The loop over the blocks raises only with the [TypeError] of a search
    item without title or with what the pause raises. *)
Lemma process_blocks_raises (delay : Delay net) (blocks : list string) :
  forall (total : nat) (i : Z) (st : State W) (e : PyExn),
    fst (process_blocks net delay total i blocks st) = inl e ->
    (e = TypeError "'NoneType' object is not subscriptable"
     /\ exists title, untitled_item_tried net title)
    \/ exists w : W, fst (time_sleep net delay w) = Some e.
Proof.
  induction blocks as [| block rest IH]; intros total i st e.
  - cbn. discriminate.
  - cbn [process_blocks]. cbv beta delta [bind bind_exn ret].
    destruct (_log_result net _ st) as [[] st1].
    pose proof (@process_paper_block_raises block st1) as Hblock.
    destruct (_process_paper_block net block st1) as [[e1 | enriched_block] st2];
      cbn [fst] in *.
    { intros H. injection H as <-. left. now apply Hblock. }
    rewrite pause_run.
    destruct (fst (time_sleep net delay (world st2))) as [e2 |] eqn:Hsleep.
    { cbn. intros H. injection H as <-. right. now exists (world st2). }
    match goal with
    | |- context [process_blocks net delay total (i + 1) rest ?s] =>
        specialize (IH total (i + 1) s e);
        destruct (process_blocks net delay total (i + 1) rest s)
          as [[e3 | enriched] st4]
    end; cbn [fst] in *.
    + intros H. injection H as <-. now apply IH.
    + discriminate.
Qed.

(** The outcome of [enrich], by the answers of the file system and the
    outcome of the loop over the document. *)
Lemma enrich_outcome (fs : FileSystem) (input_file output_file : string)
  (delay : Delay net) (st : State W) :
  let run := enrich net fs input_file output_file delay st in
  match input_exists fs, mkdir_parent fs, input_read fs with
  | false, _, _ =>
      fst run = inl (FileNotFoundError ("Input file not found: " ++ input_file))
  | true, Some e, _ => fst run = inl (OSError e)
  | true, None, inr e =>
      fst run = inl (IOError ("Failed to read input file: " ++ e))
  | true, None, inl content =>
      match fst (document_run net content delay st) with
      | inl e => fst run = inl e
      | inr enriched_blocks =>
          match output_write fs
                  (PyStr.join (PyStr.NL ++ PyStr.NL) enriched_blocks) with
          | Some e =>
              fst run = inl (IOError ("Failed to write output file: " ++ e))
          | None =>
              fst run
              = (if analysis_divides_by_zero fs
                 then inl (ZeroDivisionError "division by zero")
                 else inr (Z.of_nat (List.length (paper_blocks content))))
              /\ output_written (snd run)
                 = Some (PyStr.join (PyStr.NL ++ PyStr.NL) enriched_blocks)
          end
      end
  end.
Proof.
  cbv zeta. unfold enrich.
  destruct (input_exists fs); cbn [negb]; [| reflexivity].
  destruct (mkdir_parent fs) as [e |]; [reflexivity |].
  unfold document_run, enriched_blocks_of, opening.
  cbv beta delta [bind bind_exn ret].
  destruct (reset_results_log net st) as [[] st1]. cbn [snd].
  destruct (_log_result net _ st1) as [[] st2]. cbn [snd].
  destruct (input_read fs) as [content | e]; [| reflexivity].
  destruct (_log_result net _ st2) as [[] st3].
  destruct (process_blocks net delay _ 0 (paper_blocks content) st3)
    as [[e | enriched_blocks] st4]; [reflexivity |].
  cbn [fst].
  destruct (output_write fs _) as [e |]; [reflexivity |].
  unfold store_output, get_results_log, _analyze_results,
    analysis_divides_by_zero.
  cbn [fst snd results_log world calls output_written log_written].
  destruct (log_write fs _); destruct (log_read fs) as [text | e];
    try destruct (Analyzer.report_divides_by_zero (Analyzer.statistics text));
    cbv beta delta [ret store_log _log_result];
    cbn [fst snd results_log world calls output_written log_written];
    split; reflexivity.
Qed.

(** [enrich] raises exactly when the file system fails it or an exception
    escapes. *)
Lemma enrich_raised (fs : FileSystem) (input_file output_file : string)
  (delay : Delay net) (st : State W) :
  raised (fst (enrich net fs input_file output_file delay st))
  = fatal_io net fs delay st || exception_escapes net fs delay st.
Proof.
  pose proof (enrich_outcome fs input_file output_file delay st) as H.
  cbv zeta in H. unfold fatal_io, exception_escapes, analysis_divides_by_zero
    in *.
  destruct (input_exists fs); [| now rewrite H].
  destruct (mkdir_parent fs) as [e |]; [now rewrite H |].
  destruct (input_read fs) as [content | e]; [| now rewrite H].
  destruct (fst (document_run net content delay st)) as [e | enriched_blocks];
    [now rewrite H |].
  destruct (output_write fs _) as [e |]; [now rewrite H |].
  destruct H as [H _]. rewrite H. cbn.
  destruct (log_read fs) as [text | e]; [| reflexivity].
  destruct (Analyzer.report_divides_by_zero (Analyzer.statistics text));
    reflexivity.
Qed.

(** A run of [enrich] that returns has read the input and returns the
    number of its blocks. *)
Lemma enrich_returned (fs : FileSystem) (input_file output_file : string)
  (delay : Delay net) (st : State W) :
  raised (fst (enrich net fs input_file output_file delay st)) = false ->
  exists content,
    input_read fs = inl content
    /\ fst (enrich net fs input_file output_file delay st)
       = inr (Z.of_nat (List.length (paper_blocks content))).
Proof.
  pose proof (enrich_outcome fs input_file output_file delay st) as H.
  cbv zeta in H. intros Hraised.
  destruct (input_exists fs); [| rewrite H in Hraised; discriminate].
  destruct (mkdir_parent fs) as [e |]; [rewrite H in Hraised; discriminate |].
  destruct (input_read fs) as [content | e];
    [| rewrite H in Hraised; discriminate].
  destruct (fst (document_run net content delay st)) as [e | enriched_blocks];
    [rewrite H in Hraised; discriminate |].
  destruct (output_write fs _) as [e |]; [rewrite H in Hraised; discriminate |].
  destruct H as [H _]. rewrite H in *.
  destruct (analysis_divides_by_zero fs); [discriminate |].
  exists content. split; reflexivity.
Qed.

(** When every search item that can be tried has a title and the pause
    returns, the loop over the document returns. *)
Lemma document_run_returns (content : string) (delay : Delay net)
  (st : State W) :
  (forall (title : string) (w : W),
     forallb has_title
       (firstn 2 (fst (google_search net (dquote ++ title ++ dquote) 3 w)))
     = true) ->
  (forall w : W, fst (time_sleep net delay w) = None) ->
  raised (fst (document_run net content delay st)) = false.
Proof.
  intros Htitled Hsleep. unfold document_run, enriched_blocks_of, bind.
  destruct (_log_result net _ (snd (opening net st))) as [[] st1].
  pose proof (@process_blocks_raises delay (paper_blocks content)
                (List.length (paper_blocks content)) 0 st1) as Hraises.
  destruct (fst (process_blocks net delay _ 0 (paper_blocks content) st1))
    as [e | enriched_blocks]; [| reflexivity].
  exfalso.
  destruct (Hraises e eq_refl) as [(_ & title & w & Hitem) | (w & Hw)].
  - rewrite Htitled in Hitem. discriminate.
  - rewrite Hsleep in Hw. discriminate.
Qed.

End Enrich.

(** C4, as the code has it: [enrich] raises exactly when the input document
    does not exist or cannot be read, or the directory of the output cannot
    be made or the output file cannot be written, or an exception escapes
    from the code no handler guards (the processing of the blocks, the
    analysis of the log that is read back).  The write of the log file is
    not among these: its failure is caught.  A run that does not raise
    returns the number of blocks.  Whatever the resolver, the search and
    the page extractor answer, no exception escapes as long as every search
    item that can be tried has a title, the pause returns and the analysis
    does not divide by zero: then [enrich] raises exactly on the failures
    of the input and of the output. *)
Theorem enrich_raises_iff_fatal_io (W : Type) (net : Collaborators W)
  (fs : FileSystem) (input_file output_file : string) (delay : Delay net)
  (st : State W) :
  let run := enrich net fs input_file output_file delay st in
  raised (fst run)
  = fatal_io net fs delay st || exception_escapes net fs delay st
  /\ (raised (fst run) = false ->
      exists content,
        input_read fs = inl content
        /\ fst run = inr (Z.of_nat (List.length (paper_blocks content))))
  /\ ((forall (title : string) (w : W),
         forallb has_title
           (firstn 2 (fst (google_search net (dquote ++ title ++ dquote) 3 w)))
         = true) ->
      (forall w : W, fst (time_sleep net delay w) = None) ->
      analysis_divides_by_zero fs = false ->
      exception_escapes net fs delay st = false
      /\ raised (fst run) = fatal_io net fs delay st).
Proof.
  cbv zeta. split; [apply enrich_raised |]. split; [apply enrich_returned |].
  intros Htitled Hsleep Hanalysis.
  assert (Hescapes : exception_escapes net fs delay st = false).
  { unfold exception_escapes. rewrite Hanalysis, orb_false_r.
    destruct (input_read fs) as [content | e]; [| reflexivity].
    now apply document_run_returns. }
  split; [exact Hescapes |].
  rewrite enrich_raised, Hescapes. apply orb_false_r.
Qed.

(** C4 at concrete runs: an output file that cannot be written aborts the
    run, a log file that cannot be written does not. *)
Lemma enrich_raises_iff_fatal_io_witness :
  raised (fst (enrich silent_net (output_failing_fs titled_block)
                 "refs.txt" "out/enriched.txt" one_second start_state)) = true
  /\ raised (fst (enrich silent_net (log_failing_fs titled_block)
                    "refs.txt" "out/enriched.txt" one_second start_state))
     = false.
Proof.
  split.
  - destruct (enrich_raises_iff_fatal_io silent_net
                (output_failing_fs titled_block)
                "refs.txt" "out/enriched.txt" one_second start_state)
      as (_ & _ & H).
    destruct H as [_ H]; [reflexivity | reflexivity | reflexivity |].
    cbv zeta in H. rewrite H. vm_compute. reflexivity.
  - destruct (enrich_raises_iff_fatal_io silent_net
                (log_failing_fs titled_block)
                "refs.txt" "out/enriched.txt" one_second start_state)
      as (_ & _ & H).
    destruct H as [_ H]; [reflexivity | reflexivity | reflexivity |].
    cbv zeta in H. rewrite H. vm_compute. reflexivity.
Defined.

(** C4 as stated fails.  When the log file cannot be written the write
    raises, and [enrich] still returns the number of papers, with the
    output written and no log written.  And with an input that is read and
    an output that is written, the run is aborted by a search item without
    title, by a negative delay and by the analysis of a stale log. *)
Lemma enrich_fatal_cases_differ :
  let fs := log_failing_fs titled_block in
  let run :=
    enrich silent_net fs "refs.txt" "out/enriched.txt" one_second start_state in
  ((forall text, log_write fs text = Some "Permission denied")
   /\ fst run = inr 1
   /\ raised (fst run) = false
   /\ log_written (snd run) = None
   /\ output_written (snd run)
      = Some ("Title: Graph Learning at Scale" ++ PyStr.NL ++ "Source_Method: "
              ++ PyStr.NL ++ "Needs_Review: True"
              ++ PyStr.NL ++ "Errors: No search results found"))
  /\ fst (enrich untitled_candidate_net (healthy_fs titled_block) "refs.txt"
            "out/enriched.txt" one_second start_state)
     = inl (TypeError "'NoneType' object is not subscriptable")
  /\ fst (enrich silent_net (healthy_fs titled_block) "refs.txt"
            "out/enriched.txt" minus_one_second start_state)
     = inl (ValueError "sleep length must be non-negative")
  /\ fst (enrich silent_net (stale_log_fs titled_block) "refs.txt"
            "out/enriched.txt" one_second start_state)
     = inl (ZeroDivisionError "division by zero").
Proof.
  cbv zeta. repeat split; vm_compute; reflexivity.
Qed.

(** ** Blocks and blank-line-delimited segments *)

Lemma startswith_blank_line (s : string) :
  PyStr.startswith (PyStr.NL ++ PyStr.NL) s
  = match s with
    | String a (String b _) => Ascii.eqb a PyStr.nl && Ascii.eqb b PyStr.nl
    | _ => false
    end.
Proof.
  unfold PyStr.startswith.
  destruct s as [| a [| b r]]; cbn -[ascii_dec Ascii.eqb].
  - reflexivity.
  - destruct (ascii_dec PyStr.nl a); reflexivity.
  - destruct (ascii_dec PyStr.nl a) as [<- | Na].
    + rewrite Ascii.eqb_refl.
      destruct (ascii_dec PyStr.nl b) as [<- | Nb].
      * rewrite Ascii.eqb_refl. now destruct r.
      * symmetry. apply Ascii.eqb_neq. congruence.
    + symmetry. apply andb_false_intro1. apply Ascii.eqb_neq. congruence.
Qed.

Lemma split_go_step (c : ascii) (s' cur : string) :
  PyStr.split_go (PyStr.NL ++ PyStr.NL) 0 cur (String c s')
  = if PyStr.startswith (PyStr.NL ++ PyStr.NL) (String c s')
    then cur :: PyStr.split_go (PyStr.NL ++ PyStr.NL) 1 "" s'
    else PyStr.split_go (PyStr.NL ++ PyStr.NL) 0 (cur ++ String c "") s'.
Proof. reflexivity. Qed.

Lemma filter_length_bound {A : Type} (f : A -> bool) (l : list A) :
  (List.length (filter f l) <= List.length l)%nat.
Proof.
  induction l as [| x l IH]; cbn; [lia |].
  destruct (f x); cbn; lia.
Qed.

(** C6, as the code has it: segments that hold only whitespace are dropped
    before enrichment, so it is the number of non-blank segments of the
    input that is kept: a run that returns has processed the document to
    exactly one enriched block per non-blank segment, has written their
    blank-line join to the output and returns their number, which is at
    most the number of segments of the input.  (The number of segments of
    the output text itself is not kept: an enriched block may hold a blank
    line of its own.) *)
Theorem enriched_blocks_match_nonblank_segments (W : Type)
  (net : Collaborators W) (fs : FileSystem) (input_file output_file : string)
  (delay : Delay net) (st : State W) (content : string) (n : Z) :
  input_read fs = inl content ->
  fst (enrich net fs input_file output_file delay st) = inr n ->
  exists enriched_blocks : list string,
    fst (document_run net content delay st) = inr enriched_blocks
    /\ output_written (snd (enrich net fs input_file output_file delay st))
       = Some (PyStr.join (PyStr.NL ++ PyStr.NL) enriched_blocks)
    /\ List.length enriched_blocks
       = List.length
           (filter (fun segment => PyStr.truthy (PyStr.strip segment))
                   (PyStr.split (PyStr.NL ++ PyStr.NL) content))
    /\ n = Z.of_nat (List.length enriched_blocks)
    /\ (List.length enriched_blocks <= segment_count content)%nat.
Proof.
  intros Hread Hret.
  pose proof (enrich_outcome net fs input_file output_file delay st) as H.
  cbv zeta in H. rewrite Hread in H.
  destruct (input_exists fs); [| rewrite H in Hret; discriminate].
  destruct (mkdir_parent fs) as [e |]; [rewrite H in Hret; discriminate |].
  destruct (fst (document_run net content delay st))
    as [e | enriched_blocks] eqn:Hrun;
    [rewrite H in Hret; discriminate |].
  destruct (output_write fs _) as [e |]; [rewrite H in Hret; discriminate |].
  destruct H as [Hn Hout]. rewrite Hn in Hret.
  destruct (analysis_divides_by_zero fs); [discriminate |].
  injection Hret as <-.
  assert (Hlen : List.length enriched_blocks
                 = List.length (paper_blocks content)).
  { revert Hrun. unfold document_run, enriched_blocks_of, bind.
    destruct (_log_result net _ (snd (opening net st))) as [[] st3].
    apply process_blocks_length. }
  exists enriched_blocks.
  split; [reflexivity |]. split; [exact Hout |].
  split; [exact Hlen |]. split; [now rewrite Hlen |].
  rewrite Hlen. apply filter_length_bound.
Qed.

(** C6 at the document with a stray blank line between its two records:
    two non-blank segments, two enriched blocks. *)
Lemma enriched_blocks_match_nonblank_segments_witness :
  exists enriched_blocks : list string,
    output_written
      (snd (enrich silent_net (healthy_fs sparse_document) "refs.txt"
              "out/enriched.txt" one_second start_state))
    = Some (PyStr.join (PyStr.NL ++ PyStr.NL) enriched_blocks)
    /\ List.length enriched_blocks = 2%nat.
Proof.
  destruct (@enriched_blocks_match_nonblank_segments unit silent_net
              (healthy_fs sparse_document) "refs.txt" "out/enriched.txt"
              one_second start_state sparse_document 2)
    as (enriched_blocks & _ & Hout & Hlen & _).
  - reflexivity.
  - vm_compute. reflexivity.
  - exists enriched_blocks. split; [exact Hout |].
    rewrite Hlen. vm_compute. reflexivity.
Defined.

(** C6 as stated fails in both directions.  On a document with a stray
    blank line between two records the input has three
    blank-line-delimited segments and the enriched output two.  On a
    document of one record whose page yields an abstract of two paragraphs
    the input has one segment and the enriched output two. *)
Lemma blank_segment_is_dropped :
  let run :=
    enrich silent_net (healthy_fs sparse_document) "refs.txt"
      "out/enriched.txt" one_second start_state in
  let run' :=
    enrich two_paragraphs_net (healthy_fs titled_block) "refs.txt"
      "out/enriched.txt" one_second start_state in
  (PyStr.split (PyStr.NL ++ PyStr.NL) sparse_document
   = ["Title: A"; ""; "Title: B"]
   /\ segment_count sparse_document = 3%nat
   /\ fst run = inr 2
   /\ option_map segment_count (output_written (snd run)) = Some 2%nat
   /\ option_map segment_count (output_written (snd run))
      <> Some (segment_count sparse_document))
  /\ (MetadataExtractor._extract_abstract two_paragraphs_page = two_paragraphs
      /\ segment_count titled_block = 1%nat
      /\ fst run' = inr 1
      /\ option_map segment_count (output_written (snd run')) = Some 2%nat
      /\ option_map segment_count (output_written (snd run'))
         <> Some (segment_count titled_block)).
Proof.
  cbv zeta. repeat split; try (vm_compute; reflexivity);
    vm_compute; discriminate.
Qed.

(** ** Further properties: the resolver *)

Section Resolver.

Variable W : Type.
Variable net : Collaborators W.

Lemma resolve_unusable (doi : option string) (st : State W) :
  doi_usable doi = false ->
  resolve net doi st = ((None, "No valid DOI"), st).
Proof.
  intros Hu. unfold resolve.
  destruct doi as [d |]; [| reflexivity].
  cbn in Hu.
  destruct (PyStr.truthy d); cbn in *; [| reflexivity].
  destruct (d =? "Not available")%string; cbn in *; [reflexivity |].
  destruct (PyStr.contains "ISBN" d); cbn in *; [reflexivity | discriminate].
Qed.

(** X1: for an identifier that is absent, empty, the marker
    [Not available] or ISBN-tagged, [DOIResolver.resolve] answers
    [(None, "No valid DOI")] without any call to the network: the state is
    left as it is, and so is the list of calls. *)
Theorem resolve_unusable_no_call (doi : option string) (st : State W) :
  doi_usable doi = false ->
  resolve net doi st = ((None, "No valid DOI"), st)
  /\ calls (snd (resolve net doi st)) = calls st.
Proof.
  intros Hu. rewrite (resolve_unusable doi st Hu). split; reflexivity.
Qed.

Lemma resolve_usable (d : string) (st : State W) :
  doi_usable (Some d) = true ->
  resolve net (Some d) st
  = (let (response, w') := doi_get net ("https://doi.org/" ++ d) (world st) in
     (match response with
      | HttpResponse status_code url =>
          if status_code =? 200
          then (Some url, "DOI resolved successfully")
          else (None, "DOI resolution failed: HTTP " ++ PyStr.of_Z status_code)
      | HttpException e => (None, "DOI resolution error: " ++ e)
      end,
      mkState w' (results_log st)
              (calls st ++ [CallDoiGet ("https://doi.org/" ++ d)])
              (output_written st) (log_written st))).
Proof.
  intros Hu. cbn in Hu.
  apply andb_prop in Hu. destruct Hu as [Hu Hisbn].
  apply andb_prop in Hu. destruct Hu as [Ht Hna].
  apply negb_true_iff in Hna. apply negb_true_iff in Hisbn.
  unfold resolve. rewrite Ht, Hna, Hisbn. cbn [negb orb].
  cbv beta delta [bind ret call].
  destruct (doi_get net _ (world st)) as [[status_code url | e] w1].
  - destruct (status_code =? 200); reflexivity.
  - reflexivity.
Qed.

(** X2: [DOIResolver.resolve] answers a URL exactly when the identifier is
    usable and the request to [https://doi.org/<identifier>] is answered
    with status 200; the URL is then the final URL of that response. *)
Theorem resolve_url_iff_status_200 (doi : option string) (st : State W)
  (u : string) :
  fst (fst (resolve net doi st)) = Some u
  <-> exists d w',
        doi = Some d /\ doi_usable (Some d) = true
        /\ doi_get net ("https://doi.org/" ++ d) (world st)
           = (HttpResponse 200 u, w').
Proof.
  split.
  - intros H. destruct (doi_usable doi) eqn:Hu.
    + destruct doi as [d |]; [| discriminate].
      rewrite (resolve_usable d st Hu) in H.
      destruct (doi_get net _ (world st)) as [[status_code url | e] w1] eqn:Hget;
        cbn in H; [| discriminate].
      destruct (Z.eqb_spec status_code 200) as [-> | _]; [| discriminate].
      injection H as ->. exists d, w1. auto.
    + rewrite (resolve_unusable doi st Hu) in H. discriminate.
  - intros (d & w' & -> & Hu & Hget).
    rewrite (resolve_usable d st Hu), Hget. reflexivity.
Qed.

(** X3: when the request of a usable identifier is answered with a status
    other than 200, the authoritative stage populates nothing and leaves
    exactly one error, whose text repeats its prefix:
    [DOI resolution failed: DOI resolution failed: HTTP <status>]; no page
    is fetched. *)
Theorem doi_stage_http_failure (title d : string) (st : State W)
  (status_code : Z) (url : string) (w' : W) :
  doi_usable (Some d) = true ->
  doi_get net ("https://doi.org/" ++ d) (world st)
  = (HttpResponse status_code url, w') ->
  status_code <> 200 ->
  fst (doi_stage net title (Some d) initial_result st)
  = add_error initial_result
      ("DOI resolution failed: DOI resolution failed: HTTP "
       ++ PyStr.of_Z status_code)
  /\ calls (snd (doi_stage net title (Some d) initial_result st))
     = (calls st ++ [CallDoiGet ("https://doi.org/" ++ d)])%list.
Proof.
  intros Hu Hget Hne. unfold doi_stage. rewrite Hu.
  cbv beta delta [bind]. cbn [_log_result].
  match goal with
  | |- context [resolve net (Some d) ?s] =>
      rewrite (@resolve_usable d s Hu)
  end.
  cbn [world]. rewrite Hget.
  destruct (Z.eqb_spec status_code 200) as [E | _]; [now contradiction Hne |].
  cbv beta delta [bind ret _log_result]. cbn. split; reflexivity.
Qed.

End Resolver.

(** X1 at the records of a book and of a missing identifier. *)
Lemma resolve_unusable_no_call_witness :
  resolve resolving_net (Some "ISBN 978-3-16-148410-0") start_state
  = ((None, "No valid DOI"), start_state)
  /\ resolve resolving_net (Some "Not available") start_state
     = ((None, "No valid DOI"), start_state).
Proof.
  split.
  - apply (proj1 (@resolve_unusable_no_call unit resolving_net
                    (Some "ISBN 978-3-16-148410-0") start_state eq_refl)).
  - apply (proj1 (@resolve_unusable_no_call unit resolving_net
                    (Some "Not available") start_state eq_refl)).
Defined.

(** X2 at the sample identifier. *)
Lemma resolve_url_iff_status_200_witness :
  fst (fst (resolve resolving_net (Some "10.1/xyz") start_state))
  = Some "https://publisher.example/xyz".
Proof.
  apply (proj2 (@resolve_url_iff_status_200 unit resolving_net
                  (Some "10.1/xyz") start_state
                  "https://publisher.example/xyz")).
  exists "10.1/xyz", tt. repeat split; reflexivity.
Defined.

(** X3 at the sample identifier, answered with status 404. *)
Lemma doi_stage_http_failure_witness :
  errors (fst (doi_stage silent_net "Graph Learning at Scale"
                 (Some "10.1/xyz") initial_result start_state))
  = ["DOI resolution failed: DOI resolution failed: HTTP 404"].
Proof.
  rewrite (proj1 (@doi_stage_http_failure unit silent_net
                    "Graph Learning at Scale" "10.1/xyz" start_state
                    404 "" tt eq_refl eq_refl ltac:(discriminate))).
  reflexivity.
Defined.

(** ** Further properties: validation and confidence together *)

Lemma validate_source_reliable (data paper_title data_type : string) :
  source_reliable (DataValidator.validate data paper_title data_type) = false.
Proof.
  unfold DataValidator.validate. destruct (PyStr.truthy data); reflexivity.
Qed.

Lemma confidence_steps (kind method data paper_title data_type : string) :
  let confidence :=
    ConfidenceCalculator.calculate kind method
      (DataValidator.validate data paper_title data_type) in
  (confidence = ConfidenceCalculator.spec_base method
   \/ confidence = Z.min 100 (ConfidenceCalculator.spec_base method + 10)
   \/ confidence = Z.min 100 (ConfidenceCalculator.spec_base method + 20))
  /\ (data = "" -> confidence = ConfidenceCalculator.spec_base method).
Proof.
  cbv zeta. unfold ConfidenceCalculator.calculate.
  rewrite base_scores_spec_base, validate_source_reliable.
  split.
  - destruct (spec_base_values method) as [E | [E | E]]; rewrite E;
      destruct (format_valid _), (content_relevant _); cbn; auto.
  - intros ->. cbn.
    destruct (spec_base_values method) as [E | [E | E]]; rewrite E; reflexivity.
Qed.

(** X4: the validator never sets [source_reliable], so the confidence of a
    validated text is the base score of its acquisition method, or that
    score plus 10 or plus 20 (capped at 100), never plus 30; and the
    confidence of an empty text is the bare base score. *)
Theorem confidence_of_validated_text
  (kind method data paper_title data_type : string) :
  let confidence :=
    ConfidenceCalculator.calculate kind method
      (DataValidator.validate data paper_title data_type) in
  source_reliable (DataValidator.validate data paper_title data_type) = false
  /\ (confidence = ConfidenceCalculator.spec_base method
      \/ confidence = Z.min 100 (ConfidenceCalculator.spec_base method + 10)
      \/ confidence = Z.min 100 (ConfidenceCalculator.spec_base method + 20))
  /\ (data = "" -> confidence = ConfidenceCalculator.spec_base method).
Proof.
  cbv zeta. split; [apply validate_source_reliable |].
  apply confidence_steps.
Qed.

Lemma confidence_of_validated_text_witness :
  ConfidenceCalculator.calculate "abstract" "google_search"
    (DataValidator.validate "" "Graph Learning at Scale" "abstract")
  = 60.
Proof.
  apply (proj2 (proj2 (confidence_of_validated_text "abstract" "google_search"
                         "" "Graph Learning at Scale" "abstract"))).
  reflexivity.
Defined.

Lemma doi_direct_values (kind data paper_title data_type : string) :
  let c := ConfidenceCalculator.calculate kind "doi_direct"
             (DataValidator.validate data paper_title data_type) in
  (c = 90 \/ c = 100) /\ (data = "" -> c = 90).
Proof.
  pose proof (confidence_steps kind "doi_direct" data paper_title
                data_type) as [H E].
  cbv zeta in *. split; [| exact E].
  destruct H as [H | [H | H]]; rewrite H; cbn; auto.
Qed.

Lemma google_search_values (kind data paper_title data_type : string) :
  let c := ConfidenceCalculator.calculate kind "google_search"
             (DataValidator.validate data paper_title data_type) in
  (c = 60 \/ c = 70 \/ c = 80) /\ (data = "" -> c = 60).
Proof.
  pose proof (confidence_steps kind "google_search" data
                paper_title data_type) as [H E].
  cbv zeta in *. split; [| exact E].
  destruct H as [H | [H | H]]; rewrite H; cbn; auto.
Qed.

(** X5: the confidences of the result of a titled record, by the stage
    that populated it.  Authoritative: authors and abstract each 90 or 100
    (90 for a text that is empty), webpage 95.  Fallback: authors and
    abstract equal, 60, 70 or 80 (60 when the authors text is empty,
    whatever the abstract), webpage 50.  Unpopulated: all three 0.  There is
    no result only when the fallback loop meets a search item without
    title. *)
Theorem result_confidences_by_source (W : Type) (net : Collaborators W)
  (title : string) (doi : option string) (st : State W) :
  match fst (enrichment_result net title doi st) with
  | inr result =>
      (source_method result = "DOI_DIRECT"
       /\ (author_confidence result = 90 \/ author_confidence result = 100)
       /\ (abstract_confidence result = 90 \/ abstract_confidence result = 100)
       /\ (authors result = "" -> author_confidence result = 90)
       /\ (abstract result = "" -> abstract_confidence result = 90)
       /\ webpage_confidence result = 95)
      \/ (source_method result = "GOOGLE_FALLBACK"
          /\ (author_confidence result = 60 \/ author_confidence result = 70
              \/ author_confidence result = 80)
          /\ abstract_confidence result = author_confidence result
          /\ (authors result = "" -> author_confidence result = 60)
          /\ webpage_confidence result = 50)
      \/ (source_method result = ""
          /\ author_confidence result = 0 /\ abstract_confidence result = 0
          /\ webpage_confidence result = 0)
  | inl _ => untitled_item_tried net title
  end.
Proof.
  pose proof (@enrichment_result_shape W net title doi st) as Hshape.
  pose proof (@enrichment_result_raises W net title doi st) as Hraises.
  destruct (fst (enrichment_result net title doi st)) as [e | result];
    [exact (proj2 (Hraises e eq_refl)) |].
  destruct (Hshape result eq_refl) as (r & Hr & ->).
  destruct Hr as [au ab url Hd Hu | au ab link errs Hd | errs].
  - left.
    pose proof (doi_direct_values "authors" au title "authors") as [H1 E1].
    pose proof (doi_direct_values "abstract" ab title "abstract") as [H2 E2].
    cbv zeta in *.
    destruct (low_confidence _ || has_errors _); cbn; auto 10.
  - right. left.
    pose proof (google_search_values "authors" au title "authors") as [H1 E1].
    cbv zeta in *.
    destruct (low_confidence _ || has_errors _); cbn; auto 10.
  - right. right.
    destruct (low_confidence _ || has_errors _); cbn; auto.
Qed.

(** X6: a titled record escapes review exactly when the authoritative stage
    populated it: [needs_review] is false if and only if [source_method]
    is [DOI_DIRECT], and then the errors list is empty.  Every record
    populated by the fallback search, and every unpopulated record, is
    flagged.  There is no result only when the fallback loop meets a search
    item without title. *)
Theorem no_review_iff_doi_direct (W : Type) (net : Collaborators W)
  (title : string) (doi : option string) (st : State W) :
  match fst (enrichment_result net title doi st) with
  | inr result =>
      (needs_review result = false <-> source_method result = "DOI_DIRECT")
      /\ (source_method result = "DOI_DIRECT" -> errors result = [])
  | inl _ => untitled_item_tried net title
  end.
Proof.
  pose proof (@enrichment_result_shape W net title doi st) as Hshape.
  pose proof (@enrichment_result_raises W net title doi st) as Hraises.
  destruct (fst (enrichment_result net title doi st)) as [e | result];
    [exact (proj2 (Hraises e eq_refl)) |].
  destruct (Hshape result eq_refl) as (r & Hr & ->).
  destruct Hr as [au ab url Hd Hu | au ab link errs Hd | errs].
  - pose proof (doi_direct_confidence "authors"
                  (DataValidator.validate au title "authors")) as H1.
    pose proof (doi_direct_confidence "abstract"
                  (DataValidator.validate ab title "abstract")) as H2.
    unfold low_confidence, has_errors. cbn.
    destruct (Z.ltb_spec (ConfidenceCalculator.calculate "authors" "doi_direct"
                (DataValidator.validate au title "authors")) 70); [lia |].
    destruct (Z.ltb_spec (ConfidenceCalculator.calculate "abstract" "doi_direct"
                (DataValidator.validate ab title "abstract")) 70); [lia |].
    cbn. repeat split; auto.
  - unfold low_confidence, has_errors. cbn. rewrite !orb_true_r. cbn.
    repeat split; discriminate.
  - unfold low_confidence. cbn. repeat split; discriminate.
Qed.

Lemma no_review_iff_doi_direct_witness :
  exists result,
    fst (enrichment_result resolving_net "Graph Learning at Scale"
           (Some "10.1/xyz") start_state) = inr result
    /\ needs_review result = false.
Proof.
  pose proof (no_review_iff_doi_direct resolving_net
                "Graph Learning at Scale" (Some "10.1/xyz") start_state) as H.
  destruct (fst (enrichment_result resolving_net "Graph Learning at Scale"
                   (Some "10.1/xyz") start_state)) as [e | result] eqn:E.
  - vm_compute in E. discriminate.
  - exists result. split; [reflexivity |].
    apply (proj1 H). vm_compute in E. injection E as <-. reflexivity.
Defined.

(** ** Further properties: what the validator accepts *)

Lemma startswith_app (p s : string) : PyStr.startswith p (p ++ s) = true.
Proof.
  unfold PyStr.startswith.
  induction p as [| a p IH]; cbn -[ascii_dec]; [now destruct s |].
  destruct (ascii_dec a a) as [_ | N]; [exact IH | now contradiction N].
Qed.

Lemma startswith_split (p s : string) :
  PyStr.startswith p s = true -> exists r, s = (p ++ r)%string.
Proof.
  unfold PyStr.startswith. revert s.
  induction p as [| a p IH]; intros s H.
  - exists s. reflexivity.
  - destruct s as [| b s]; cbn -[ascii_dec] in H; [discriminate |].
    destruct (ascii_dec a b) as [<- | _]; [| discriminate].
    destruct (IH s H) as [r ->]. exists r. reflexivity.
Qed.

(** [p in s] holds exactly when [s] is some text, [p], some text. *)
Lemma contains_iff (p s : string) :
  PyStr.contains p s = true <-> exists a b, s = (a ++ p ++ b)%string.
Proof.
  split.
  - induction s as [| c s IH]; cbn [PyStr.contains]; intros H.
    + rewrite orb_false_r in H. apply startswith_split in H.
      destruct H as [r ->]. exists "", r. reflexivity.
    + apply orb_true_iff in H. destruct H as [H | H].
      * apply startswith_split in H. destruct H as [r ->].
        exists "", r. reflexivity.
      * destruct (IH H) as (a & b & ->). exists (String c a), b. reflexivity.
  - intros (a & b & ->). induction a as [| c a IH].
    + cbn [append]. destruct (p ++ b)%string eqn:E; cbn [PyStr.contains];
        rewrite <- E, startswith_app; reflexivity.
    + cbn [append PyStr.contains]. rewrite IH. apply orb_true_r.
Qed.

Lemma all_chars_app (p : ascii -> bool) (s t : string) :
  all_chars p (s ++ t) = all_chars p s && all_chars p t.
Proof.
  induction s as [| c s IH]; cbn; [reflexivity |].
  now rewrite IH, andb_assoc.
Qed.

Lemma lower_is_not_nl (c : ascii) :
  PyStr.is_lower c = true -> negb (Ascii.eqb c PyStr.nl) = true.
Proof.
  intros H. destruct (Ascii.eqb_spec c PyStr.nl) as [-> | _];
    [discriminate | reflexivity].
Qed.

Lemma all_lower_no_nl (s : string) :
  all_chars PyStr.is_lower s = true ->
  all_chars (fun x => negb (Ascii.eqb x PyStr.nl)) s = true.
Proof.
  induction s as [| c s IH]; cbn; [reflexivity |].
  intros H. apply andb_prop in H. destruct H as [Hc Hs].
  now rewrite (lower_is_not_nl c Hc), IH.
Qed.

Lemma re_rest_cons (x : ascii) (s : string) :
  DataValidator.re_rest (String x s)
  = DataValidator.cap_word_at (String x s)
    || (negb (Ascii.eqb x PyStr.nl) && DataValidator.re_rest s).
Proof. reflexivity. Qed.

Lemma re_search_names_cons (a : ascii) (s1 : string) :
  DataValidator.re_search_names (String a s1)
  = (PyStr.is_upper a
     && match s1 with
        | String b s2 => PyStr.is_lower b && DataValidator.re_rest s2
        | EmptyString => false
        end)
    || DataValidator.re_search_names s1.
Proof. reflexivity. Qed.

(** The tail of the pattern, [.*[A-Z][a-z]+], at the head of a text. *)
Lemma re_rest_iff (s : string) :
  DataValidator.re_rest s = true
  <-> exists (middle : string) (c : ascii) (small2 after : string),
        s = (middle ++ String c small2 ++ after)%string
        /\ all_chars (fun x => negb (Ascii.eqb x PyStr.nl)) middle = true
        /\ PyStr.is_upper c = true
        /\ small2 <> "" /\ all_chars PyStr.is_lower small2 = true.
Proof.
  split.
  - induction s as [| x s IH]; cbn [DataValidator.re_rest]; intros H.
    + discriminate.
    + apply orb_true_iff in H. destruct H as [H | H].
      * destruct s as [| b r]; [discriminate |].
        cbn in H. apply andb_prop in H. destruct H as [Hx Hb].
        exists "", x, (String b ""), r. cbn. rewrite Hb.
        repeat split; auto. discriminate.
      * apply andb_prop in H. destruct H as [Hx H].
        destruct (IH H) as (middle & c & small2 & after & -> & Hm & Hc & Hne & Hs).
        exists (String x middle), c, small2, after. cbn. rewrite Hx, Hm.
        repeat split; auto.
  - intros (middle & c & small2 & after & -> & Hm & Hc & Hne & Hs).
    induction middle as [| x m IH].
    + destruct small2 as [| d sm]; [now contradiction Hne |].
      cbn in Hs. apply andb_prop in Hs. destruct Hs as [Hd _].
      cbn. now rewrite Hc, Hd.
    + cbn in Hm. apply andb_prop in Hm. destruct Hm as [Hx Hm].
      change (DataValidator.re_rest
                (String x (m ++ String c small2 ++ after)) = true).
      rewrite re_rest_cons, Hx, (IH Hm). apply orb_true_r.
Qed.

(** The matcher of the validator accepts exactly the texts the pattern
    [[A-Z][a-z]+.*[A-Z][a-z]+] matches somewhere. *)
Lemma re_search_names_iff (s : string) :
  DataValidator.re_search_names s = true <-> matches_two_names s.
Proof.
  unfold matches_two_names. split.
  - induction s as [| a s1 IH]; cbn [DataValidator.re_search_names]; intros H.
    + discriminate.
    + apply orb_true_iff in H. destruct H as [H | H].
      * apply andb_prop in H. destruct H as [Ha H].
        destruct s1 as [| b s2]; [discriminate |].
        apply andb_prop in H. destruct H as [Hb H].
        apply re_rest_iff in H.
        destruct H as (middle & c & small2 & after & -> & Hm & Hc & Hne & Hs).
        exists "", a, (String b ""), middle, c, small2, after.
        cbn. rewrite Hb. repeat split; auto. discriminate.
      * destruct (IH H)
          as (before & x & small1 & middle & c & small2 & after
              & -> & Hx & Hne1 & Hs1 & Hm & Hc & Hne2 & Hs2).
        exists (String a before), x, small1, middle, c, small2, after.
        repeat split; auto.
  - intros (before & a & small1 & middle & c & small2 & after
            & -> & Ha & Hne1 & Hs1 & Hm & Hc & Hne2 & Hs2).
    induction before as [| x before IH].
    + destruct small1 as [| b sm1]; [now contradiction Hne1 |].
      cbn in Hs1. apply andb_prop in Hs1. destruct Hs1 as [Hb Hs1].
      change (DataValidator.re_search_names
                (String a (String b
                   (sm1 ++ middle ++ String c small2 ++ after))) = true).
      rewrite re_search_names_cons, Ha, Hb. cbn [andb].
      assert (R : DataValidator.re_rest
                    (sm1 ++ middle ++ String c small2 ++ after) = true).
      { apply re_rest_iff.
        exists (sm1 ++ middle)%string, c, small2, after.
        rewrite append_assoc, all_chars_app, (all_lower_no_nl sm1 Hs1), Hm.
        repeat split; auto. }
      rewrite R. reflexivity.
    + change (DataValidator.re_search_names
                (String x (before ++ String a small1 ++ middle
                           ++ String c small2 ++ after)) = true).
      rewrite re_search_names_cons, IH. apply orb_true_r.
Qed.

(** X7: an authors text has [format_valid] exactly when the pattern
    [[A-Z][a-z]+.*[A-Z][a-z]+] matches somewhere in it -- a capital letter
    and small letters, then on the same line a capital letter and small
    letters -- or the text holds [et al]; an empty text never has it. *)
Theorem author_format_valid_iff (data paper_title : string) :
  format_valid (DataValidator.validate data paper_title "authors") = true
  <-> matches_two_names data
      \/ exists a b, data = (a ++ "et al" ++ b)%string.
Proof.
  unfold DataValidator.validate.
  destruct data as [| x data'].
  - cbn. split; [discriminate |].
    intros [(before & a & s1 & m & c & s2 & after & E & _) | (a & b & E)].
    + destruct before; discriminate.
    + destruct a; discriminate.
  - cbn [PyStr.truthy negb format_valid].
    change (("authors" =? "authors")%string) with true. cbv iota.
    rewrite orb_true_iff, re_search_names_iff, contains_iff. reflexivity.
Qed.

Lemma share_word_iff (title_words data_words : list string) :
  DataValidator.share_word title_words data_words = true
  <-> exists w, In w title_words /\ In w data_words.
Proof.
  unfold DataValidator.share_word. rewrite existsb_exists. split.
  - intros (w & Hw & H). apply existsb_exists in H.
    destruct H as (w' & Hw' & E). apply String.eqb_eq in E. subst w'.
    now exists w.
  - intros (w & Hw & Hw'). exists w. split; [exact Hw |].
    apply existsb_exists. exists w. split; [exact Hw' | apply String.eqb_refl].
Qed.

(** X8: content relevance is symmetric: a non-empty text is relevant to a
    non-empty title exactly when the title, taken as data, is relevant to
    the text, taken as title, whatever the data kinds. *)
Theorem content_relevant_symmetric (data paper_title kind kind' : string) :
  data <> "" ->
  paper_title <> "" ->
  content_relevant (DataValidator.validate data paper_title kind)
  = content_relevant (DataValidator.validate paper_title data kind').
Proof.
  intros Hd Ht. unfold DataValidator.validate.
  destruct data as [| x d]; [now contradiction Hd |].
  destruct paper_title as [| y t]; [now contradiction Ht |].
  cbn [PyStr.truthy negb content_relevant].
  apply eq_true_iff_eq. rewrite !share_word_iff.
  split; intros (w & H1 & H2); exists w; auto.
Qed.

Lemma content_relevant_symmetric_witness :
  content_relevant
    (DataValidator.validate sample_abstract "Graph Learning at Scale" "abstract")
  = content_relevant
      (DataValidator.validate "Graph Learning at Scale" sample_abstract "authors").
Proof.
  apply content_relevant_symmetric; discriminate.
Defined.

(** ** Further properties: the page metadata extractor *)

Lemma length_append (s t : string) :
  String.length (s ++ t) = (String.length s + String.length t)%nat.
Proof.
  induction s as [| c s IH]; cbn; [reflexivity | now rewrite IH].
Qed.

Lemma length_take (n : nat) (s : string) :
  (n <= String.length s)%nat -> String.length (PyStr.take n s) = n.
Proof.
  revert s. induction n as [| n IH]; intros s H; [reflexivity |].
  destruct s as [| c s]; cbn in *; [lia |].
  rewrite IH; lia.
Qed.

Lemma abstract_from_cases (soup : MetadataExtractor.Soup)
  (selectors : list string) :
  MetadataExtractor.abstract_from soup selectors = ""
  \/ exists selector text,
       In selector selectors /\ soup selector = Some text
       /\ (100 < String.length text)%nat
       /\ MetadataExtractor.abstract_from soup selectors
          = if (500 <? String.length text)%nat
            then (PyStr.take 500 text ++ "...")%string else text.
Proof.
  induction selectors as [| selector rest IH]; [now left |].
  cbn [MetadataExtractor.abstract_from].
  destruct (soup selector) as [text |] eqn:Hsel.
  - destruct (Nat.ltb_spec 100 (String.length text)) as [Hlong | _].
    + right. exists selector, text. cbn [In]. auto.
    + destruct IH as [IH | (s' & t' & Hin & Hs & Hl & E)]; [now left |].
      right. exists s', t'. cbn [In]. auto.
  - destruct IH as [IH | (s' & t' & Hin & Hs & Hl & E)]; [now left |].
    right. exists s', t'. cbn [In]. auto.
Qed.

(** X9: the abstract the extractor returns is empty, or the whole text of
    an element of the page when that text has 101 to 500 characters, or the
    first 500 characters of a longer text followed by three dots, 503
    characters in all.  No abstract of 1 to 100 characters is ever
    returned. *)
Theorem extracted_abstract_bounds (soup : MetadataExtractor.Soup) :
  let abstract := MetadataExtractor._extract_abstract soup in
  abstract = ""
  \/ (exists selector,
        In selector MetadataExtractor.abstract_selectors
        /\ soup selector = Some abstract
        /\ (100 < String.length abstract <= 500)%nat)
  \/ (exists selector text,
        In selector MetadataExtractor.abstract_selectors
        /\ soup selector = Some text
        /\ (500 < String.length text)%nat
        /\ abstract = (PyStr.take 500 text ++ "...")%string
        /\ String.length abstract = 503%nat).
Proof.
  cbv zeta. unfold MetadataExtractor._extract_abstract.
  destruct (abstract_from_cases soup MetadataExtractor.abstract_selectors)
    as [E | (selector & text & Hin & Hsel & Hlong & E)]; [now left |].
  right. rewrite E.
  destruct (Nat.ltb_spec 500 (String.length text)) as [Hvery | Hfit].
  - right. exists selector, text. repeat split; auto.
    rewrite length_append, length_take by lia. reflexivity.
  - left. exists selector. repeat split; auto.
Qed.

Lemma extracted_abstract_length (soup : MetadataExtractor.Soup) :
  MetadataExtractor._extract_abstract soup = ""
  \/ (100 < String.length (MetadataExtractor._extract_abstract soup) <= 503)%nat.
Proof.
  unfold MetadataExtractor._extract_abstract.
  destruct (abstract_from_cases soup MetadataExtractor.abstract_selectors)
    as [E | (selector & text & Hin & Hsel & Hlong & E)]; [now left |].
  right. rewrite E.
  destruct (Nat.ltb_spec 500 (String.length text)) as [Hvery | Hfit].
  - rewrite length_append, length_take by lia. cbn. lia.
  - lia.
Qed.

(** X10: for an abstract the extractor returns, the length test of the
    validator never decides: [format_valid] of the abstract is true exactly
    when its lower-cased text holds one of [study], [research],
    [analysis], [method]. *)
Theorem extracted_abstract_format_valid (soup : MetadataExtractor.Soup)
  (paper_title : string) :
  format_valid
    (DataValidator.validate (MetadataExtractor._extract_abstract soup)
       paper_title "abstract")
  = existsb
      (fun word =>
         PyStr.contains word
           (PyStr.lower (MetadataExtractor._extract_abstract soup)))
      DataValidator.research_words.
Proof.
  destruct (extracted_abstract_length soup) as [E | Hlen].
  - rewrite E. reflexivity.
  - unfold DataValidator.validate.
    destruct (MetadataExtractor._extract_abstract soup) as [| c a] eqn:E;
      [cbn in Hlen; lia |].
    cbn [PyStr.truthy negb format_valid].
    change (("abstract" =? "authors")%string) with false.
    change (("abstract" =? "abstract")%string) with true. cbv iota.
    destruct (Nat.ltb_spec 50 (String.length (String c a))) as [_ | Hshort];
      [reflexivity | lia].
Qed.

Lemma startswith_pair (x y : ascii) (s : string) :
  PyStr.startswith (String x (String y "")) s
  = match s with
    | String a (String b _) => Ascii.eqb a x && Ascii.eqb b y
    | _ => false
    end.
Proof.
  unfold PyStr.startswith.
  destruct s as [| a [| b r]]; cbn -[ascii_dec Ascii.eqb].
  - reflexivity.
  - destruct (ascii_dec x a); reflexivity.
  - destruct (ascii_dec x a) as [<- | Na].
    + rewrite Ascii.eqb_refl.
      destruct (ascii_dec y b) as [<- | Nb].
      * rewrite Ascii.eqb_refl. now destruct r.
      * symmetry. apply Ascii.eqb_neq. congruence.
    + symmetry. apply andb_false_intro1. apply Ascii.eqb_neq. congruence.
Qed.

Lemma not_space_not_blank (c : ascii) :
  PyStr.is_space c = false -> Ascii.eqb c " " = false.
Proof.
  intros H. destruct (Ascii.eqb_spec c " ") as [-> | _];
    [discriminate | reflexivity].
Qed.

Lemma collapse_go_chars (s : string) :
  forall in_run : bool,
    all_chars (fun c => negb (PyStr.is_space c) || Ascii.eqb c " ")
              (MetadataExtractor.collapse_go in_run s) = true.
Proof.
  induction s as [| c s IH]; intros in_run; [reflexivity |].
  cbn [MetadataExtractor.collapse_go].
  destruct (PyStr.is_space c) eqn:Hc.
  - destruct in_run; [apply IH |]. cbn [all_chars]. now rewrite IH.
  - cbn [all_chars]. now rewrite Hc, IH.
Qed.

Lemma collapse_go_single_spaced (s : string) :
  forall in_run : bool,
    PyStr.contains "  " (MetadataExtractor.collapse_go in_run s) = false
    /\ (in_run = true ->
        match MetadataExtractor.collapse_go in_run s with
        | String x _ => Ascii.eqb x " "
        | EmptyString => false
        end = false).
Proof.
  induction s as [| c s IH]; intros in_run; [split; reflexivity |].
  cbn [MetadataExtractor.collapse_go].
  destruct (PyStr.is_space c) eqn:Hc.
  - destruct in_run; [apply IH |].
    destruct (IH true) as [Hno Hhead]. specialize (Hhead eq_refl).
    split; [| discriminate].
    change (PyStr.contains "  "
              (String " " (MetadataExtractor.collapse_go true s)))
      with (PyStr.startswith "  "
              (String " " (MetadataExtractor.collapse_go true s))
            || PyStr.contains "  " (MetadataExtractor.collapse_go true s)).
    rewrite Hno, orb_false_r, startswith_pair.
    destruct (MetadataExtractor.collapse_go true s); [reflexivity | exact Hhead].
  - destruct (IH false) as [Hno _].
    split; [| intros _; now apply not_space_not_blank].
    change (PyStr.contains "  "
              (String c (MetadataExtractor.collapse_go false s)))
      with (PyStr.startswith "  "
              (String c (MetadataExtractor.collapse_go false s))
            || PyStr.contains "  " (MetadataExtractor.collapse_go false s)).
    rewrite Hno, orb_false_r, startswith_pair.
    destruct (MetadataExtractor.collapse_go false s); [reflexivity |].
    now rewrite (not_space_not_blank c Hc).
Qed.

Lemma no_line_feed_of_chars (s : string) :
  all_chars (fun c => negb (PyStr.is_space c) || Ascii.eqb c " ") s = true ->
  PyStr.contains PyStr.NL s = false.
Proof.
  intros H. destruct (PyStr.contains PyStr.NL s) eqn:C; [| reflexivity].
  apply contains_iff in C. destruct C as (a & b & ->).
  rewrite !all_chars_app in H. cbn in H.
  rewrite andb_false_r in H. discriminate.
Qed.

Lemma authors_from_cases (soup : MetadataExtractor.Soup)
  (selectors : list string) :
  MetadataExtractor.authors_from soup selectors = ""
  \/ exists selector text,
       In selector selectors /\ soup selector = Some text
       /\ existsb (fun keyword => PyStr.contains keyword (PyStr.lower text))
                  MetadataExtractor.author_keywords = true
       /\ MetadataExtractor.authors_from soup selectors
          = MetadataExtractor.collapse_whitespace text.
Proof.
  induction selectors as [| selector rest IH]; [now left |].
  cbn [MetadataExtractor.authors_from].
  destruct (soup selector) as [text |] eqn:Hsel.
  - destruct (existsb _ MetadataExtractor.author_keywords) eqn:Hkey.
    + right. exists selector, text. cbn [In]. auto.
    + destruct IH as [IH | (s' & t' & Hin & Hs & Hk & E)]; [now left |].
      right. exists s', t'. cbn [In]. auto.
  - destruct IH as [IH | (s' & t' & Hin & Hs & Hk & E)]; [now left |].
    right. exists s', t'. cbn [In]. auto.
Qed.

Lemma extracted_authors_spacing (soup : MetadataExtractor.Soup) :
  all_chars (fun c => negb (PyStr.is_space c) || Ascii.eqb c " ")
            (MetadataExtractor._extract_authors soup) = true
  /\ PyStr.contains "  " (MetadataExtractor._extract_authors soup) = false
  /\ PyStr.contains PyStr.NL (MetadataExtractor._extract_authors soup) = false.
Proof.
  unfold MetadataExtractor._extract_authors.
  destruct (authors_from_cases soup MetadataExtractor.author_selectors)
    as [E | (selector & text & Hin & Hsel & Hkey & E)]; rewrite E.
  - repeat split; reflexivity.
  - unfold MetadataExtractor.collapse_whitespace.
    pose proof (collapse_go_chars text false) as Hchars.
    split; [exact Hchars |].
    split; [apply collapse_go_single_spaced | now apply no_line_feed_of_chars].
Qed.

(** X11: the authors text the extractor returns is empty or the
    whitespace-collapsed text of an element whose lower-cased text holds
    [author], [by ] or [et al]; in it every whitespace character is a
    space, no two spaces follow each other, and so it holds no line feed:
    it is a single line. *)
Theorem extracted_authors_single_line (soup : MetadataExtractor.Soup) :
  let authors := MetadataExtractor._extract_authors soup in
  (authors = ""
   \/ exists selector text,
        In selector MetadataExtractor.author_selectors
        /\ soup selector = Some text
        /\ existsb (fun keyword => PyStr.contains keyword (PyStr.lower text))
                   MetadataExtractor.author_keywords = true
        /\ authors = MetadataExtractor.collapse_whitespace text)
  /\ all_chars (fun c => negb (PyStr.is_space c) || Ascii.eqb c " ") authors
     = true
  /\ PyStr.contains "  " authors = false
  /\ PyStr.contains PyStr.NL authors = false.
Proof.
  cbv zeta. split; [| apply extracted_authors_spacing].
  unfold MetadataExtractor._extract_authors.
  destruct (authors_from_cases soup MetadataExtractor.author_selectors)
    as [E | (selector & text & Hin & Hsel & Hkey & E)]; [now left |].
  right. exists selector, text. auto.
Qed.

Example extract_long_page :
  MetadataExtractor.extract_with
    (fun (_ : string) (w : unit) => (Some long_page, w)) "https://example.org" tt
  = ((PyStr.repeat_char "a"%char 500 ++ "...", "by Alice Smith and Bob Lee"), tt).
Proof. vm_compute. reflexivity. Qed.

(** ** Further properties: where the texts of a result come from *)

Section Provenance.

Variable W : Type.
Variable net : Collaborators W.

(** A property of an [(abstract, authors)] pair that the empty pair has and
    that every answer of the page extractor has. *)
Variable P : string -> string -> Prop.
Hypothesis P_empty : P "" "".
Hypothesis P_extracted :
  forall (url : string) (w : W),
    P (fst (fst (page_extract net url w))) (snd (fst (page_extract net url w))).

Ltac run_step :=
  cbv beta delta [bind bind_exn ret call _log_result extract_from_url search];
  cbn [fst snd world calls results_log output_written log_written].

Lemma doi_stage_texts (title : string) (doi : option string) (st : State W) :
  P (abstract (fst (doi_stage net title doi initial_result st)))
    (authors (fst (doi_stage net title doi initial_result st))).
Proof.
  unfold doi_stage.
  destruct (doi_usable doi); [| exact P_empty].
  run_step.
  destruct (resolve net doi _) as [[resolved_url doi_status] st1].
  destruct resolved_url as [url |]; [| exact P_empty].
  destruct (PyStr.truthy url); [| exact P_empty].
  run_step.
  pose proof (P_extracted url (world st1)) as HP.
  destruct (page_extract net url (world st1)) as [[abstract authors] w2].
  destruct (PyStr.truthy authors || PyStr.truthy abstract);
    [exact HP | exact P_empty].
Qed.

Lemma try_candidates_texts (title : string) (candidates : list SearchResult) :
  forall (i : Z) (result result' : EnrichmentResult) (st : State W),
    P (abstract result) (authors result) ->
    fst (try_candidates net title i candidates result st) = inr result' ->
    P (abstract result') (authors result').
Proof.
  induction candidates as [| search_result rest IH];
    intros i result result' st Hres H.
  - cbn in H. now injection H as <-.
  - cbn [try_candidates] in H.
    destruct (sr_title search_result) as [search_title |];
      [| cbn in H; discriminate].
    revert H. run_step.
    pose proof (P_extracted (sr_link search_result) (world st)) as HP.
    destruct (page_extract net (sr_link search_result) (world st))
      as [[abstract authors] w1].
    destruct (PyStr.truthy authors || PyStr.truthy abstract).
    + cbn. intros H. injection H as <-. exact HP.
    + intros H. eapply IH; [exact Hres | exact H].
Qed.

Lemma fallback_stage_texts (title : string) (result result' : EnrichmentResult)
  (st : State W) :
  P (abstract result) (authors result) ->
  fst (fallback_stage net title result st) = inr result' ->
  P (abstract result') (authors result').
Proof.
  intros Hres. unfold fallback_stage.
  destruct (negb (PyStr.truthy (authors result))
            && negb (PyStr.truthy (abstract result)));
    [| cbn; intros H; now injection H as <-].
  run_step.
  destruct (google_search net _ 3 (world st)) as [search_results w1].
  destruct search_results as [| first others];
    [cbn; intros H; now injection H as <- |].
  apply try_candidates_texts. exact Hres.
Qed.

Lemma enrichment_result_texts (title : string) (doi : option string)
  (st : State W) (result : EnrichmentResult) :
  fst (enrichment_result net title doi st) = inr result ->
  P (abstract result) (authors result).
Proof.
  rewrite enrichment_result_stages. unfold stages, bind, bind_exn, ret.
  pose proof (doi_stage_texts title doi st) as H1.
  destruct (doi_stage net title doi initial_result st) as [r1 st1].
  pose proof (@fallback_stage_texts title r1) as H2.
  destruct (fallback_stage net title r1 st1) as [[e | r2] st2] eqn:Hfb;
    [cbn; discriminate |].
  specialize (H2 r2 st1 H1). rewrite Hfb in H2. specialize (H2 eq_refl).
  pose proof (review_stage_result net r2 st2) as Hreview.
  destruct (review_stage net r2 st2) as [r3 st3]. cbn [fst] in *.
  intros H. injection H as <-. rewrite Hreview.
  destruct (low_confidence r2 || has_errors r2); exact H2.
Qed.

End Provenance.

(** X12: with the page extractor of the repository, whatever the pages
    fetched, the result of a titled record has an abstract that is empty or
    of 101 to 503 characters, and an authors text that is a single line
    without two spaces in a row.  There is no result only when the fallback
    loop meets a search item without title. *)
Theorem result_texts_from_extractor (W : Type) (net : Collaborators W)
  (fetch : string -> W -> option MetadataExtractor.Soup * W)
  (title : string) (doi : option string) (st : State W) :
  match fst (enrichment_result (with_extractor net fetch) title doi st) with
  | inr result =>
      (abstract result = ""
       \/ (100 < String.length (abstract result) <= 503)%nat)
      /\ PyStr.contains PyStr.NL (authors result) = false
      /\ PyStr.contains "  " (authors result) = false
  | inl _ => untitled_item_tried (with_extractor net fetch) title
  end.
Proof.
  pose proof (@enrichment_result_raises W (with_extractor net fetch)
                title doi st) as Hraises.
  destruct (fst (enrichment_result (with_extractor net fetch) title doi st))
    as [e | result] eqn:E; [exact (proj2 (Hraises e eq_refl)) |].
  apply (@enrichment_result_texts W (with_extractor net fetch)
           (fun abstract authors =>
              (abstract = "" \/ (100 < String.length abstract <= 503)%nat)
              /\ PyStr.contains PyStr.NL authors = false
              /\ PyStr.contains "  " authors = false))
    with (title := title) (doi := doi) (st := st).
  - repeat split; auto.
  - intros url w. cbn [with_extractor page_extract].
    unfold MetadataExtractor.extract_with.
    destruct (fetch url w) as [[soup |] w']; cbn [fst snd].
    + pose proof (extracted_authors_spacing soup) as (_ & H2 & H1).
      split; [apply extracted_abstract_length | auto].
    + repeat split; auto.
  - exact E.
Qed.

(** ** Further properties: what a run appends *)

Section Frame.

Variable W : Type.
Variable net : Collaborators W.
Variable P : Call -> Prop.

Lemma appends_refl (st : State W) : appends P st st.
Proof.
  repeat split.
  - exists []. now rewrite app_nil_r.
  - exists []. split; [now rewrite app_nil_r | constructor].
Qed.

Lemma appends_trans (st1 st2 st3 : State W) :
  appends P st1 st2 -> appends P st2 st3 -> appends P st1 st3.
Proof.
  intros ((l1 & Hl1) & (c1 & Hc1 & HP1) & Ho1 & Hw1)
         ((l2 & Hl2) & (c2 & Hc2 & HP2) & Ho2 & Hw2).
  repeat split.
  - exists (l1 ++ l2)%list. now rewrite Hl2, Hl1, app_assoc.
  - exists (c1 ++ c2)%list. split.
    + now rewrite Hc2, Hc1, app_assoc.
    + apply Forall_app. now split.
  - congruence.
  - congruence.
Qed.

Lemma appends_ret {A : Type} (a : A) (st : State W) :
  appends P st (snd (ret a st)).
Proof. apply appends_refl. Qed.

Lemma appends_log (message : string) (st : State W) :
  appends P st (snd (_log_result net message st)).
Proof.
  repeat split.
  - eexists. reflexivity.
  - exists []. split; [cbn; now rewrite app_nil_r | constructor].
Qed.

Lemma appends_call {A : Type} (c : Call) (f : W -> A * W) (st : State W) :
  P c -> appends P st (snd (call c f st)).
Proof.
  intros Hc. unfold call. destruct (f (world st)) as [a w']. cbn.
  repeat split.
  - exists []. now rewrite app_nil_r.
  - exists [c]. split; [reflexivity | now constructor].
Qed.

Lemma appends_bind {A B : Type} (m : M W A) (k : A -> M W B) (st : State W) :
  appends P st (snd (m st)) ->
  (forall (a : A) (st' : State W), appends P st' (snd (k a st'))) ->
  appends P st (snd (bind m k st)).
Proof.
  intros Hm Hk. unfold bind. destruct (m st) as [a st1]. cbn [snd] in Hm.
  eapply appends_trans; [exact Hm | apply Hk].
Qed.

Lemma appends_bind_exn {A B : Type} (m : M W (PyExn + A))
  (k : A -> M W (PyExn + B)) (st : State W) :
  appends P st (snd (m st)) ->
  (forall (a : A) (st' : State W), appends P st' (snd (k a st'))) ->
  appends P st (snd (bind_exn m k st)).
Proof.
  intros Hm Hk. unfold bind_exn. destruct (m st) as [[e | a] st1].
  - exact Hm.
  - cbn [snd] in Hm. eapply appends_trans; [exact Hm | apply Hk].
Qed.

End Frame.

Ltac frame_step :=
  match goal with
  | |- appends _ ?st (snd (ret _ ?st)) => apply appends_ret
  | |- appends _ ?st (snd (_log_result _ _ ?st)) => apply appends_log
  | |- appends _ ?st (snd (call _ _ ?st)) =>
      apply appends_call; first [reflexivity | exact I]
  | |- appends _ ?st (snd (bind _ _ ?st)) =>
      apply appends_bind; [| intros ? ?]
  | |- appends _ ?st (snd (bind_exn _ _ ?st)) =>
      apply appends_bind_exn; [| intros ? ?]
  | |- appends _ ?st (snd ((if ?b then _ else _) ?st)) => destruct b
  | |- appends _ ?st (snd (match ?x with _ => _ end ?st)) => destruct x
  end.

Ltac frame := repeat frame_step.

Section FrameStages.

Variable W : Type.
Variable net : Collaborators W.

Lemma resolve_appends (doi : option string) (st : State W) :
  appends network_call st (snd (resolve net doi st)).
Proof. unfold resolve. frame. Qed.

Lemma doi_stage_appends (title : string) (doi : option string)
  (result : EnrichmentResult) (st : State W) :
  appends network_call st (snd (doi_stage net title doi result st)).
Proof.
  unfold doi_stage, extract_from_url. frame.
  apply resolve_appends.
Qed.

Lemma try_candidates_appends (title : string) (candidates : list SearchResult) :
  forall (i : Z) (result : EnrichmentResult) (st : State W),
    appends network_call st
      (snd (try_candidates net title i candidates result st)).
Proof.
  induction candidates as [| search_result rest IH]; intros i result st.
  - apply appends_refl.
  - cbn [try_candidates]. unfold extract_from_url. frame. apply IH.
Qed.

Lemma fallback_stage_appends (title : string) (result : EnrichmentResult)
  (st : State W) :
  appends network_call st (snd (fallback_stage net title result st)).
Proof.
  unfold fallback_stage, search. frame. apply try_candidates_appends.
Qed.

Lemma review_stage_appends (result : EnrichmentResult) (st : State W) :
  appends network_call st (snd (review_stage net result st)).
Proof. unfold review_stage. frame. Qed.

Lemma enrichment_result_appends (title : string) (doi : option string)
  (st : State W) :
  appends network_call st (snd (enrichment_result net title doi st)).
Proof.
  unfold enrichment_result. frame.
  - apply doi_stage_appends.
  - apply fallback_stage_appends.
  - apply review_stage_appends.
Qed.

Lemma process_paper_block_appends (block : string) (st : State W) :
  appends network_call st (snd (_process_paper_block net block st)).
Proof.
  unfold _process_paper_block. frame.
  apply enrichment_result_appends.
Qed.

End FrameStages.

Section CallCount.

Variable W : Type.
Variable net : Collaborators W.

Ltac run_step :=
  cbv beta delta [bind bind_exn ret call _log_result extract_from_url search];
  cbn [fst snd world calls results_log output_written log_written].

Lemma doi_stage_call_count (title : string) (doi : option string)
  (result : EnrichmentResult) (st : State W) :
  exists made,
    calls (snd (doi_stage net title doi result st)) = (calls st ++ made)%list
    /\ (List.length made <= 2)%nat.
Proof.
  unfold doi_stage.
  destruct (doi_usable doi) eqn:Hu.
  - destruct doi as [d |]; [| discriminate]. run_step.
    match goal with
    | |- context [resolve net (Some d) ?s] => rewrite (resolve_usable net d s Hu)
    end.
    cbn [world calls].
    destruct (doi_get net _ (world st)) as [[status_code url | e] w1].
    + destruct (status_code =? 200).
      * destruct (PyStr.truthy url).
        -- run_step.
           destruct (page_extract net url w1) as [[abstract authors] w2].
           destruct (PyStr.truthy authors || PyStr.truthy abstract); run_step;
             (exists [CallDoiGet ("https://doi.org/" ++ d); CallExtract url];
              rewrite <- app_assoc; split; [reflexivity | cbn; lia]).
        -- run_step. eexists. split; [reflexivity | cbn; lia].
      * run_step. eexists. split; [reflexivity | cbn; lia].
    + run_step. eexists. split; [reflexivity | cbn; lia].
  - exists []. cbn. rewrite app_nil_r. split; [reflexivity | lia].
Qed.

(** The loop tries the candidates in order and stops at the first that
    yields something: the pages fetched are those of the first [k]
    candidates, and either all were tried in vain, or the [k]-th populated
    the result, or the candidate after them has no title and the loop
    raised before fetching its page. *)
Lemma try_candidates_ranked (title : string) (candidates : list SearchResult) :
  forall (i : Z) (result : EnrichmentResult) (st : State W),
  exists k : nat,
    (k <= List.length candidates)%nat
    /\ calls (snd (try_candidates net title i candidates result st))
       = (calls st
          ++ map (fun r => CallExtract (sr_link r)) (firstn k candidates))%list
    /\ (fst (try_candidates net title i candidates result st) = inr result
        /\ k = List.length candidates
        \/ (exists r result',
              nth_error candidates (k - 1) = Some r /\ (1 <= k)%nat
              /\ fst (try_candidates net title i candidates result st)
                 = inr result'
              /\ webpage result' = sr_link r
              /\ source_method result' = "GOOGLE_FALLBACK")
        \/ (exists r,
              nth_error candidates k = Some r /\ sr_title r = None
              /\ fst (try_candidates net title i candidates result st)
                 = inl (TypeError "'NoneType' object is not subscriptable"))).
Proof.
  induction candidates as [| search_result rest IH]; intros i result st.
  - exists 0%nat. cbn. rewrite app_nil_r. auto.
  - cbn [try_candidates].
    destruct (sr_title search_result) as [search_title |] eqn:Htitle.
    + run_step.
      destruct (page_extract net (sr_link search_result) (world st))
        as [[abstract authors] w1].
      destruct (PyStr.truthy authors || PyStr.truthy abstract).
      * run_step. exists 1%nat. cbn. split; [lia |]. split; [reflexivity |].
        right. left. exists search_result. eexists.
        split; [reflexivity |]. split; [lia |]. split; [reflexivity |].
        split; reflexivity.
      * match goal with
        | |- context [try_candidates net title ?j rest result ?s] =>
            destruct (IH j result s) as (k & Hk & Hcalls & Hres)
        end.
        exists (S k). cbn [List.length firstn map]. split; [lia |].
        split.
        -- rewrite Hcalls. cbn [calls]. rewrite <- app_assoc. reflexivity.
        -- destruct Hres as [[Hsame ->]
                            | [(r & result' & Hnth & Hk1 & Hrun & Hweb & Hsrc)
                              | (r & Hnth & Hnone & Hrun)]].
           ++ left. auto.
           ++ right. left. exists r, result'.
              split; [| split; [lia | auto]].
              destruct k as [| k']; [lia |]. cbn in *.
              now rewrite Nat.sub_0_r in *.
           ++ right. right. exists r. auto.
    + exists 0%nat. cbn. rewrite app_nil_r. split; [lia |].
      split; [reflexivity |]. right. right. exists search_result. auto.
Qed.

End CallCount.

Lemma nth_error_of_firstn {A : Type} (n : nat) (l : list A) :
  forall (i : nat) (r : A),
    nth_error (firstn n l) i = Some r -> nth_error l i = Some r.
Proof.
  revert l. induction n as [| n IH]; intros l i r H.
  - destruct i; discriminate.
  - destruct l as [| x l]; [destruct i; discriminate |].
    destruct i as [| i]; [exact H | cbn in *; now apply IH].
Qed.

Lemma fallback_stage_call_list (W : Type) (net : Collaborators W)
  (title : string) (result : EnrichmentResult) (st : State W)
  (search_results : list SearchResult) (w' : W) :
  authors result = "" ->
  abstract result = "" ->
  google_search net (dquote ++ title ++ dquote) 3 (world st)
  = (search_results, w') ->
  let run := fallback_stage net title result st in
  exists k : nat,
    (k <= 2)%nat /\ (k <= List.length search_results)%nat
    /\ calls (snd run)
       = (calls st
          ++ CallSearch (dquote ++ title ++ dquote) 3
             :: map (fun r => CallExtract (sr_link r))
                    (firstn k search_results))%list
    /\ ((exists result',
           fst run = inr result'
           /\ k = Nat.min 2 (List.length search_results)
           /\ authors result' = "" /\ abstract result' = "")
        \/ (exists r result',
              nth_error search_results (k - 1) = Some r /\ (1 <= k)%nat
              /\ fst run = inr result'
              /\ webpage result' = sr_link r
              /\ source_method result' = "GOOGLE_FALLBACK")
        \/ (exists r,
              nth_error search_results k = Some r /\ (k < 2)%nat
              /\ sr_title r = None
              /\ fst run
                 = inl (TypeError "'NoneType' object is not subscriptable"))).
Proof.
  intros Ha Hb Hsearch. cbv zeta. unfold fallback_stage.
  rewrite Ha, Hb. cbn [PyStr.truthy negb andb].
  cbv beta delta [bind ret call _log_result search]. cbn [world fst snd].
  rewrite Hsearch.
  destruct search_results as [| first others].
  - exists 0%nat. cbn. split; [lia |]. split; [lia |].
    split; [reflexivity |]. left. eexists. split; [reflexivity |].
    cbn. rewrite Ha, Hb. auto.
  - match goal with
    | |- context [try_candidates net title 0 ?cs result ?s] =>
        destruct (try_candidates_ranked net title cs 0 result s)
          as (k & Hk & Hcalls & Hres)
    end.
    rewrite length_firstn in Hk.
    exists k. split; [lia |]. split; [lia |]. split.
    + rewrite Hcalls. cbn [calls]. rewrite <- app_assoc.
      rewrite firstn_firstn. replace (Nat.min k 2) with k by lia.
      reflexivity.
    + destruct Hres as [[Hrun ->]
                       | [(r & result' & Hnth & Hk1 & Hrun & Hweb & Hsrc)
                         | (r & Hnth & Hnone & Hrun)]].
      * left. exists result. rewrite length_firstn. auto.
      * right. left. exists r, result'. split; [| auto].
        eapply nth_error_of_firstn. exact Hnth.
      * right. right. exists r.
        assert (Hlt : (k < List.length (firstn 2 (first :: others)))%nat).
        { apply nth_error_Some. rewrite Hnth. discriminate. }
        rewrite length_firstn in Hlt.
        split; [eapply nth_error_of_firstn; exact Hnth |].
        split; [lia | auto].
Qed.

(** X13: when the fallback stage is entered, it makes one search for the
    quoted title with 3 results asked, then fetches the pages of the first
    [k] candidates in the order of the search, with [k] at most 2 whatever
    the number of candidates; either none of the tried candidates yields
    anything ([k] is then 2, or the number of candidates if smaller), or
    the loop stops at the [k]-th, whose link becomes the webpage of the
    result, or the candidate after the [k]-th, one of the first two, has no
    title and the stage raises [TypeError] without fetching its page. *)
Theorem fallback_tries_two_in_order (W : Type) (net : Collaborators W)
  (title : string) (result : EnrichmentResult) (st : State W)
  (search_results : list SearchResult) (w' : W) :
  authors result = "" ->
  abstract result = "" ->
  google_search net (dquote ++ title ++ dquote) 3 (world st)
  = (search_results, w') ->
  let run := fallback_stage net title result st in
  exists k : nat,
    (k <= 2)%nat /\ (k <= List.length search_results)%nat
    /\ calls (snd run)
       = (calls st
          ++ CallSearch (dquote ++ title ++ dquote) 3
             :: map (fun r => CallExtract (sr_link r))
                    (firstn k search_results))%list
    /\ ((exists result',
           fst run = inr result'
           /\ k = Nat.min 2 (List.length search_results)
           /\ authors result' = "" /\ abstract result' = "")
        \/ (exists r result',
              nth_error search_results (k - 1) = Some r /\ (1 <= k)%nat
              /\ fst run = inr result'
              /\ webpage result' = sr_link r
              /\ source_method result' = "GOOGLE_FALLBACK")
        \/ (exists r,
              nth_error search_results k = Some r /\ (k < 2)%nat
              /\ sr_title r = None
              /\ fst run
                 = inl (TypeError "'NoneType' object is not subscriptable"))).
Proof.
  apply fallback_stage_call_list.
Qed.

(** X13 at a search with two candidates, the first of which yields
    nothing. *)
Lemma fallback_tries_two_in_order_witness :
  calls (snd (fallback_stage two_candidates_net "Graph Learning at Scale"
                initial_result start_state))
  = [CallSearch (dquote ++ "Graph Learning at Scale" ++ dquote) 3;
     CallExtract "https://example.org/p1";
     CallExtract "https://example.org/p2"].
Proof.
  destruct (@fallback_tries_two_in_order unit two_candidates_net
              "Graph Learning at Scale" initial_result start_state
              [barren_candidate; second_candidate] tt
              eq_refl eq_refl eq_refl)
    as (k & Hk & _ & Hcalls & _).
  vm_compute. reflexivity.
Defined.

(** X14: processing one block only appends: lines to the run log (at least
    one), and at most five calls to the list of calls, none of them a
    pause -- at most one request to the resolver and one page fetch in the
    authoritative stage, one search and two page fetches in the fallback
    stage; the written files are left alone.  This holds of the state the
    processing is left in, whether it returns or raises. *)
Theorem block_processing_appends (W : Type) (net : Collaborators W)
  (block : string) (st : State W) :
  let st' := snd (_process_paper_block net block st) in
  (exists lines,
     results_log st' = (results_log st ++ lines)%list /\ lines <> [])
  /\ (exists made,
        calls st' = (calls st ++ made)%list
        /\ Forall network_call made /\ (List.length made <= 5)%nat)
  /\ output_written st' = output_written st
  /\ log_written st' = log_written st.
Proof.
  cbv zeta.
  destruct (process_paper_block_appends net block st)
    as (_ & (made & Hmade & Hnet) & Hout & Hlog).
  split; [| split; [| split; assumption]].
  - unfold _process_paper_block.
    destruct (PyStr.split PyStr.NL (PyStr.strip block)) as [| l ls] eqn:Hlines.
    { exfalso. apply (split_go_nonempty PyStr.NL (PyStr.strip block) 0 "").
      exact Hlines. }
    destruct (parse_block (l :: ls)) as [doi title].
    destruct (title_of title) as [t |].
    + cbv beta delta [bind bind_exn ret].
      destruct (_log_result net _ st) as [[] st1] eqn:H1.
      destruct (_log_result net _ st1) as [[] st2] eqn:H2.
      destruct (enrichment_result_appends net t doi st2)
        as ((lines & Hl) & _).
      destruct (enrichment_result net t doi st2) as [[e | r] st3];
        cbn [snd] in *;
        rewrite Hl;
        injection H1 as <-; injection H2 as <-; cbn [results_log];
        rewrite <- !app_assoc; (eexists; split; [reflexivity |]);
        destruct (results_log st); discriminate.
    + cbv beta delta [bind ret _log_result]. cbn.
      eexists. split; [reflexivity | discriminate].
  - exists made. split; [exact Hmade |]. split; [exact Hnet |].
    assert (Hcount : exists made',
               calls (snd (_process_paper_block net block st))
               = (calls st ++ made')%list
               /\ (List.length made' <= 5)%nat).
    { unfold _process_paper_block.
      destruct (PyStr.split PyStr.NL (PyStr.strip block)) as [| l ls].
      { exists []. cbn. rewrite app_nil_r. split; [reflexivity | lia]. }
      destruct (parse_block (l :: ls)) as [doi title].
      destruct (title_of title) as [t |].
      - cbv beta delta [bind bind_exn ret].
        destruct (_log_result net _ st) as [[] st1] eqn:H1.
        destruct (_log_result net _ st1) as [[] st2] eqn:H2.
        assert (Hc : calls st2 = calls st).
        { injection H1 as <-. injection H2 as <-. reflexivity. }
        pose proof (enrichment_result_calls net t doi st2) as E.
        unfold stages, bind in E.
        destruct (doi_stage_call_count net t doi initial_result st2)
          as (m1 & Hm1 & Hl1).
        destruct (doi_stage net t doi initial_result st2) as [r1 s1].
        cbn [snd] in *.
        assert (Hfb : exists m2,
                   calls (snd (fallback_stage net t r1 s1))
                   = (calls s1 ++ m2)%list /\ (List.length m2 <= 3)%nat).
        { destruct (PyStr.truthy (authors r1) || PyStr.truthy (abstract r1))
            eqn:Hpop.
          - rewrite (fallback_stage_skipped net t r1 s1 Hpop).
            exists []. cbn. rewrite app_nil_r. split; [reflexivity | lia].
          - apply orb_false_elim in Hpop. destruct Hpop as [Ha Hb].
            apply truthy_false_empty in Ha. apply truthy_false_empty in Hb.
            destruct (google_search net (dquote ++ t ++ dquote) 3 (world s1))
              as [rs w1] eqn:Hs.
            destruct (@fallback_stage_call_list W net t r1 s1 rs w1 Ha Hb Hs)
              as (k & Hk & _ & Hcalls & _).
            eexists. split; [exact Hcalls |].
            cbn [List.length]. rewrite length_map, length_firstn. lia. }
        destruct Hfb as (m2 & Hm2 & Hl2).
        assert (Hst3 : calls (snd (enrichment_result net t doi st2))
                       = (calls st ++ (m1 ++ m2))%list).
        { rewrite E, Hm2, Hm1, Hc. now rewrite app_assoc. }
        destruct (enrichment_result net t doi st2) as [[e | r] st3];
          cbn [snd] in *;
          (exists (m1 ++ m2)%list; split; [exact Hst3 |];
           rewrite length_app; lia).
      - exists []. cbn. rewrite app_nil_r. split; [reflexivity | lia]. }
    destruct Hcount as (made' & Hmade' & Hlen).
    rewrite Hmade in Hmade'. apply app_inv_head in Hmade'. now subst.
Qed.

(** ** Further properties: the run over a document, its pauses and files *)

Lemma appends_weaken (W : Type) (P Q : Call -> Prop) (st st' : State W) :
  (forall c, P c -> Q c) -> appends P st st' -> appends Q st st'.
Proof.
  intros HPQ (Hl & (made & Hc & HP) & Ho & Hw).
  repeat split; auto. exists made. split; [exact Hc |].
  eapply Forall_impl; [exact HPQ | exact HP].
Qed.

Lemma sleeps_app (l1 l2 : list Call) :
  sleeps (l1 ++ l2) = (sleeps l1 + sleeps l2)%nat.
Proof. unfold sleeps. now rewrite filter_app, length_app. Qed.

Lemma sleeps_network (made : list Call) :
  Forall network_call made -> sleeps made = 0%nat.
Proof.
  unfold sleeps, network_call.
  induction 1 as [| c l Hc _ IH]; [reflexivity |].
  cbn. now rewrite Hc.
Qed.

Section Document.

Variable W : Type.
Variable net : Collaborators W.

(** The loop over the blocks appends to the log and to the calls, and makes
    at most one pause per block: exactly one when it returns. *)
Lemma process_blocks_appends (delay : Delay net) (blocks : list string) :
  forall (total : nat) (i : Z) (st : State W),
    let run := process_blocks net delay total i blocks st in
    appends (fun _ => True) st (snd run)
    /\ (sleeps (calls (snd run)) <= sleeps (calls st) + List.length blocks)%nat
    /\ (raised (fst run) = false ->
        sleeps (calls (snd run))
        = (sleeps (calls st) + List.length blocks)%nat).
Proof.
  induction blocks as [| block rest IH]; intros total i st; cbv zeta.
  - cbn. split; [apply appends_refl | lia].
  - cbn [process_blocks]. cbv beta delta [bind bind_exn ret].
    pose proof (appends_log net (fun _ => True)
                  (PyStr.NL ++ "[" ++ PyStr.of_Z (i + 1) ++ "/"
                   ++ PyStr.of_Z (Z.of_nat total) ++ "] "
                   ++ PyStr.repeat_char "="%char 50) st) as Hlog.
    assert (Hc1 : calls (snd (_log_result net
                    (PyStr.NL ++ "[" ++ PyStr.of_Z (i + 1) ++ "/"
                     ++ PyStr.of_Z (Z.of_nat total) ++ "] "
                     ++ PyStr.repeat_char "="%char 50) st)) = calls st)
      by reflexivity.
    destruct (_log_result net _ st) as [[] st1]. cbn [snd] in *.
    pose proof (process_paper_block_appends net block st1) as Hblock.
    assert (Hblock' : appends (fun _ => True) st1
                        (snd (_process_paper_block net block st1)))
      by (eapply appends_weaken; [| exact Hblock]; intros; exact I).
    assert (Hs2 : sleeps (calls (snd (_process_paper_block net block st1)))
                  = sleeps (calls st)).
    { destruct Hblock as (_ & (made & Hmade & Hnet) & _).
      rewrite Hmade, Hc1, sleeps_app, (sleeps_network Hnet). lia. }
    destruct (_process_paper_block net block st1) as [[e | enriched_block] st2];
      cbn [fst snd] in *.
    { split; [eapply appends_trans; [exact Hlog | exact Hblock'] |].
      split; [lia | discriminate]. }
    rewrite pause_run.
    set (st3 := mkState (snd (time_sleep net delay (world st2)))
                  (results_log st2) (calls st2 ++ [CallSleep])
                  (output_written st2) (log_written st2)).
    assert (H23 : appends (fun _ => True) st2 st3).
    { repeat split; cbn.
      - exists []. now rewrite app_nil_r.
      - exists [CallSleep]. split; [reflexivity | now constructor]. }
    assert (Hs3 : sleeps (calls st3) = S (sleeps (calls st))).
    { unfold st3. cbn [calls]. rewrite sleeps_app, Hs2. cbn. lia. }
    destruct (fst (time_sleep net delay (world st2))) as [e |].
    { cbn [fst snd].
      split; [eapply appends_trans;
              [exact Hlog | eapply appends_trans; [exact Hblock' | exact H23]] |].
      split; [cbn [List.length]; lia | discriminate]. }
    destruct (IH total (i + 1) st3) as (Hrest & Hle & Heq).
    destruct (process_blocks net delay total (i + 1) rest st3)
      as [[e | enriched] st4]; cbn [fst snd] in *.
    + split; [eapply appends_trans;
              [exact Hlog
              | eapply appends_trans;
                [exact Hblock' | eapply appends_trans; [exact H23 | exact Hrest]]] |].
      split; [cbn [List.length]; lia | discriminate].
    + split; [eapply appends_trans;
              [exact Hlog
              | eapply appends_trans;
                [exact Hblock' | eapply appends_trans; [exact H23 | exact Hrest]]] |].
      split; [cbn [List.length]; lia |].
      intros _. rewrite (Heq eq_refl). cbn [List.length]. lia.
Qed.

(** The state when the opening of [enrich] is over. *)
Lemma opening_state (st : State W) :
  snd (opening net st)
  = mkState (world st)
      ["PROCESSING STARTED: " ++ now_full net (world st);
       PyStr.repeat_char "="%char 80; "";
       "[" ++ now_hms net (world st)
       ++ "] Starting to enrich references with DOI-first approach..."]
      (calls st) (output_written st) (log_written st).
Proof. reflexivity. Qed.

(** The state when the loop of [enrich] over the document is left. *)
Lemma document_state (content : string) (delay : Delay net) (st : State W) :
  let run := document_run net content delay st in
  (exists lines,
     results_log (snd run)
     = ("PROCESSING STARTED: " ++ now_full net (world st))
       :: PyStr.repeat_char "="%char 80 :: "" :: lines)
  /\ (sleeps (calls (snd run))
      <= sleeps (calls st) + List.length (paper_blocks content))%nat
  /\ (raised (fst run) = false ->
      sleeps (calls (snd run))
      = (sleeps (calls st) + List.length (paper_blocks content))%nat)
  /\ (exists made, calls (snd run) = (calls st ++ made)%list)
  /\ output_written (snd run) = output_written st
  /\ log_written (snd run) = log_written st.
Proof.
  cbv zeta. unfold document_run. rewrite opening_state.
  unfold enriched_blocks_of, bind.
  match goal with
  | |- context [_log_result net ?m ?s] =>
      pose proof (appends_log net (fun _ => True) m s) as Hlog;
      assert (Hc1 : calls (snd (_log_result net m s)) = calls st)
        by reflexivity;
      destruct (_log_result net m s) as [[] st1]
  end.
  cbn [snd] in *.
  destruct (process_blocks_appends delay (paper_blocks content)
              (List.length (paper_blocks content)) 0 st1)
    as (Happ & Hle & Heq).
  pose proof (appends_trans Hlog Happ)
    as ((lines & Hl) & (made & Hc & _) & Ho & Hw).
  cbn [results_log calls output_written log_written] in *.
  split; [| split; [| split; [| split; [| split]]]].
  - rewrite Hl. cbn. eexists. reflexivity.
  - now rewrite <- Hc1.
  - intros Hret. rewrite <- Hc1. now apply Heq.
  - exists made. exact Hc.
  - exact Ho.
  - exact Hw.
Qed.

(** The state [enrich] ends in, when the input exists, the directory of the
    output can be made and the input can be read. *)
Lemma enrich_state (fs : FileSystem) (input_file output_file content : string)
  (delay : Delay net) (st : State W) :
  input_exists fs = true ->
  mkdir_parent fs = None ->
  input_read fs = inl content ->
  let done := snd (document_run net content delay st) in
  let final := snd (enrich net fs input_file output_file delay st) in
  match fst (document_run net content delay st) with
  | inl _ => final = done
  | inr enriched_blocks =>
      match output_write fs
              (PyStr.join (PyStr.NL ++ PyStr.NL) enriched_blocks) with
      | Some _ => final = done
      | None =>
          final
          = mkState (world done)
              (results_log done
               ++ ["[" ++ now_hms net (world done) ++ "] " ++ PyStr.NL
                   ++ "Processing completed! Results saved to " ++ output_file;
                   "[" ++ now_hms net (world done)
                   ++ "] Detailed log available in "
                   ++ results_path fs output_file])
              (calls done)
              (Some (PyStr.join (PyStr.NL ++ PyStr.NL) enriched_blocks))
              (match log_write fs (PyStr.join PyStr.NL (results_log done)) with
               | Some _ => log_written done
               | None => Some (PyStr.join PyStr.NL (results_log done))
               end)
      end
  end.
Proof.
  intros Hex Hmk Hread. cbv zeta.
  unfold enrich. rewrite Hex, Hmk, Hread. cbn [negb].
  unfold document_run, enriched_blocks_of, opening.
  cbv beta delta [bind bind_exn ret].
  destruct (reset_results_log net st) as [[] st1]. cbn [snd].
  destruct (_log_result net _ st1) as [[] st2]. cbn [snd].
  destruct (_log_result net _ st2) as [[] st3].
  destruct (process_blocks net delay _ 0 (paper_blocks content) st3)
    as [[e | enriched_blocks] st4]; [reflexivity |].
  cbn [fst snd].
  destruct (output_write fs _) as [e |]; [reflexivity |].
  unfold store_output, get_results_log, _analyze_results.
  cbn [fst snd results_log world calls output_written log_written].
  destruct (log_write fs _); destruct (log_read fs) as [text | e];
    try destruct (Analyzer.report_divides_by_zero (Analyzer.statistics text));
    cbv beta delta [ret store_log _log_result];
    cbn [fst snd results_log world calls output_written log_written];
    rewrite <- app_assoc; reflexivity.
Qed.

(** The calls of a run of [enrich] are those of its loop over the
    document. *)
Lemma enrich_calls (fs : FileSystem) (input_file output_file content : string)
  (delay : Delay net) (st : State W) :
  input_exists fs = true ->
  mkdir_parent fs = None ->
  input_read fs = inl content ->
  calls (snd (enrich net fs input_file output_file delay st))
  = calls (snd (document_run net content delay st)).
Proof.
  intros Hex Hmk Hread.
  pose proof (@enrich_state fs input_file output_file content delay st
                Hex Hmk Hread) as Hfinal.
  cbv zeta in Hfinal.
  destruct (fst (document_run net content delay st)) as [e | enriched_blocks];
    [now rewrite Hfinal |].
  destruct (output_write fs _); rewrite Hfinal; reflexivity.
Qed.

(** A run of [enrich] that raises has written no file, unless it raises in
    the closing analysis, when the output is written. *)
Lemma enrich_raised_files (fs : FileSystem) (input_file output_file : string)
  (delay : Delay net) (st : State W) (e : PyExn) :
  fst (enrich net fs input_file output_file delay st) = inl e ->
  (output_written (snd (enrich net fs input_file output_file delay st))
   = output_written st
   /\ log_written (snd (enrich net fs input_file output_file delay st))
      = log_written st)
  \/ (e = ZeroDivisionError "division by zero"
      /\ analysis_divides_by_zero fs = true
      /\ exists text,
           output_written (snd (enrich net fs input_file output_file delay st))
           = Some text).
Proof.
  intros Hraised.
  destruct (input_exists fs) eqn:Hex;
    [| left; unfold enrich; rewrite Hex; split; reflexivity].
  destruct (mkdir_parent fs) as [e' |] eqn:Hmk;
    [left; unfold enrich; rewrite Hex, Hmk; split; reflexivity |].
  destruct (input_read fs) as [content | e'] eqn:Hread;
    [| left; unfold enrich; rewrite Hex, Hmk, Hread; split; reflexivity].
  pose proof (@enrich_state fs input_file output_file content delay st
                Hex Hmk Hread) as Hfinal.
  pose proof (enrich_outcome net fs input_file output_file delay st) as Hout.
  destruct (document_state content delay st) as (_ & _ & _ & _ & Ho & Hw).
  cbv zeta in *. rewrite Hex, Hmk, Hread in Hout.
  destruct (fst (document_run net content delay st)) as [e' | enriched_blocks].
  { left. rewrite Hfinal. split; assumption. }
  destruct (output_write fs _) as [e' |].
  { left. rewrite Hfinal. split; assumption. }
  destruct Hout as [Hout Hwritten]. rewrite Hout in Hraised.
  destruct (analysis_divides_by_zero fs); [| discriminate].
  injection Hraised as <-. right.
  split; [reflexivity |]. split; [reflexivity |].
  eexists. exact Hwritten.
Qed.

End Document.

(** X15: once the input has been read, the run pauses at most once per
    paper block of the document, and exactly once per block -- titled or
    not, enriched or not -- when its loop over the blocks returns, also when
    the output cannot be written afterwards or the closing analysis raises.
    (The loop does not return when a search item without title is met or a
    pause raises.) *)
Theorem one_pause_per_block (W : Type) (net : Collaborators W)
  (fs : FileSystem) (input_file output_file content : string)
  (delay : Delay net) (st : State W) :
  input_exists fs = true ->
  mkdir_parent fs = None ->
  input_read fs = inl content ->
  let final := snd (enrich net fs input_file output_file delay st) in
  (sleeps (calls final)
   <= sleeps (calls st) + List.length (paper_blocks content))%nat
  /\ (raised (fst (document_run net content delay st)) = false ->
      sleeps (calls final)
      = (sleeps (calls st) + List.length (paper_blocks content))%nat).
Proof.
  intros Hex Hmk Hread. cbv zeta.
  rewrite (@enrich_calls W net fs input_file output_file content delay st
             Hex Hmk Hread).
  destruct (document_state net content delay st) as (_ & Hle & Heq & _).
  split; [exact Hle | exact Heq].
Qed.

Lemma one_pause_per_block_witness :
  sleeps (calls (snd (enrich two_candidates_net (healthy_fs sparse_document)
                        "refs.txt" "out/enriched.txt" one_second
                        start_state)))
  = 2%nat.
Proof.
  destruct (@one_pause_per_block unit two_candidates_net
              (healthy_fs sparse_document) "refs.txt" "out/enriched.txt"
              sparse_document one_second start_state eq_refl eq_refl eq_refl)
    as [_ H].
  cbv zeta in H. rewrite H; vm_compute; reflexivity.
Defined.

(** X16: a run that raises has written nothing, neither the output file nor
    the log file, unless what it raises is the [ZeroDivisionError] of the
    closing analysis, which comes when the output is written.  In
    particular, when the output file cannot be written the run log of the
    whole batch is lost. *)
Theorem raised_run_writes_nothing (W : Type) (net : Collaborators W)
  (fs : FileSystem) (input_file output_file : string) (delay : Delay net)
  (st : State W) (e : PyExn) :
  fst (enrich net fs input_file output_file delay st) = inl e ->
  (output_written (snd (enrich net fs input_file output_file delay st))
   = output_written st
   /\ log_written (snd (enrich net fs input_file output_file delay st))
      = log_written st)
  \/ (e = ZeroDivisionError "division by zero"
      /\ analysis_divides_by_zero fs = true
      /\ exists text,
           output_written (snd (enrich net fs input_file output_file delay st))
           = Some text).
Proof.
  apply enrich_raised_files.
Qed.

Lemma raised_run_writes_nothing_witness :
  log_written (snd (enrich silent_net (output_failing_fs titled_block)
                      "refs.txt" "out/enriched.txt" one_second start_state))
  = None.
Proof.
  destruct (@raised_run_writes_nothing unit silent_net
              (output_failing_fs titled_block)
              "refs.txt" "out/enriched.txt" one_second start_state
              (IOError "Failed to write output file: Permission denied")
              ltac:(vm_compute; reflexivity))
    as [[_ H] | [H _]].
  - exact H.
  - discriminate.
Defined.

(** X17: when the loop over the document has returned and the output has
    been written, the log file -- if its write succeeds -- holds the lines
    logged so far, joined by line feeds and beginning with the banner
    [PROCESSING STARTED: <now>], a rule of 80 [=] and an empty line; the
    two closing lines ([Processing completed! ...],
    [Detailed log available in ...]) are logged after the write and never
    reach the file.  If the write of the log fails, no log file is
    written. *)
Theorem log_file_content (W : Type) (net : Collaborators W)
  (fs : FileSystem) (input_file output_file content : string)
  (delay : Delay net) (st : State W) (enriched_blocks : list string) :
  input_exists fs = true ->
  mkdir_parent fs = None ->
  input_read fs = inl content ->
  fst (document_run net content delay st) = inr enriched_blocks ->
  output_write fs (PyStr.join (PyStr.NL ++ PyStr.NL) enriched_blocks) = None ->
  let final := snd (enrich net fs input_file output_file delay st) in
  exists (lines : list string) (stamp : string),
    let logged :=
      ("PROCESSING STARTED: " ++ now_full net (world st))
      :: PyStr.repeat_char "="%char 80 :: "" :: lines in
    results_log final
    = (logged
       ++ [("[" ++ stamp ++ "] " ++ PyStr.NL
            ++ "Processing completed! Results saved to " ++ output_file)%string;
           ("[" ++ stamp ++ "] Detailed log available in "
            ++ results_path fs output_file)%string])%list
    /\ log_written final
       = match log_write fs (PyStr.join PyStr.NL logged) with
         | None => Some (PyStr.join PyStr.NL logged)
         | Some _ => log_written st
         end.
Proof.
  intros Hex Hmk Hread Hrun Hwrite. cbv zeta.
  pose proof (@enrich_state W net fs input_file output_file content delay st
                Hex Hmk Hread) as Hfinal.
  destruct (document_state net content delay st)
    as ((lines & Hl) & _ & _ & _ & _ & Hw).
  cbv zeta in *. rewrite Hrun, Hwrite in Hfinal. rewrite Hfinal.
  cbn [results_log log_written]. rewrite Hl, Hw.
  exists lines, (now_hms net (world (snd (document_run net content delay st)))).
  split; reflexivity.
Qed.

Lemma log_file_content_witness :
  log_written (snd (enrich silent_net (healthy_fs "") "refs.txt"
                      "out/enriched.txt" one_second start_state))
  = Some ("PROCESSING STARTED: 2024-01-01 12:00:00.000000" ++ PyStr.NL
          ++ PyStr.repeat_char "="%char 80 ++ PyStr.NL ++ PyStr.NL
          ++ "[12:00:00] Starting to enrich references with DOI-first approach..."
          ++ PyStr.NL ++ "[12:00:00] Found 0 papers to process").
Proof.
  destruct (@log_file_content unit silent_net (healthy_fs "") "refs.txt"
              "out/enriched.txt" "" one_second start_state []
              eq_refl eq_refl eq_refl eq_refl eq_refl)
    as (lines & stamp & _ & Hlog).
  vm_compute. reflexivity.
Defined.

(** ** Further properties: the lines of an enriched block *)

Lemma startswith_single (x c : ascii) (s : string) :
  PyStr.startswith (String x "") (String c s) = Ascii.eqb c x.
Proof.
  unfold PyStr.startswith. cbn -[ascii_dec Ascii.eqb].
  destruct (ascii_dec x c) as [<- | N].
  - rewrite Ascii.eqb_refl. now destruct s.
  - symmetry. apply Ascii.eqb_neq. congruence.
Qed.

Lemma split_lines_step (c : ascii) (s' cur : string) :
  PyStr.split_go PyStr.NL 0 cur (String c s')
  = if Ascii.eqb c PyStr.nl
    then cur :: PyStr.split_go PyStr.NL 0 "" s'
    else PyStr.split_go PyStr.NL 0 (cur ++ String c "") s'.
Proof.
  change (PyStr.split_go PyStr.NL 0 cur (String c s'))
    with (if PyStr.startswith PyStr.NL (String c s')
          then cur :: PyStr.split_go PyStr.NL 0 "" s'
          else PyStr.split_go PyStr.NL 0 (cur ++ String c "") s').
  unfold PyStr.NL. now rewrite startswith_single.
Qed.

(** The lines of a text, a line feed and another text are the lines of the
    first followed by the lines of the second. *)
Lemma split_lines_app (a b : string) :
  forall cur : string,
    PyStr.split_go PyStr.NL 0 cur (a ++ String PyStr.nl b)
    = (PyStr.split_go PyStr.NL 0 cur a ++ PyStr.split_go PyStr.NL 0 "" b)%list.
Proof.
  induction a as [| c a IH]; intros cur.
  - cbn [append]. rewrite split_lines_step, Ascii.eqb_refl. reflexivity.
  - change ((String c a ++ String PyStr.nl b)%string)
      with (String c (a ++ String PyStr.nl b)).
    rewrite !split_lines_step.
    destruct (Ascii.eqb c PyStr.nl); rewrite IH; reflexivity.
Qed.

Lemma build_enriched_block_suffix (block : string) (result : EnrichmentResult) :
  exists rest,
    build_enriched_block block result
    = (PyStr.strip block ++ String PyStr.nl rest)%string.
Proof.
  unfold build_enriched_block.
  destruct (PyStr.truthy (authors result)),
           (PyStr.truthy (abstract result)),
           (PyStr.truthy (webpage result)),
           (has_errors result);
    rewrite !append_assoc; eexists; reflexivity.
Qed.

(** X18: enrichment keeps every line of the stripped input block, in order
    and unchanged, and only adds lines after them: the lines of the
    enriched block of a titled record are the lines of the stripped block
    followed by at least one more line.  There is no enriched block only
    when the fallback loop meets a search item without title. *)
Theorem enriched_block_keeps_lines (W : Type) (net : Collaborators W)
  (block title : string) (doi : option string) (st : State W) :
  parse_block (PyStr.split PyStr.NL (PyStr.strip block)) = (doi, Some title) ->
  PyStr.truthy title = true ->
  match fst (_process_paper_block net block st) with
  | inr output =>
      exists added : list string,
        added <> []
        /\ PyStr.split PyStr.NL output
           = (PyStr.split PyStr.NL (PyStr.strip block) ++ added)%list
  | inl _ => untitled_item_tried net title
  end.
Proof.
  intros Hparse Htitle.
  pose proof (@process_titled_block_cases W net block title doi st
                Hparse Htitle) as Hcases.
  destruct (fst (_process_paper_block net block st)) as [e | output];
    [apply Hcases |].
  destruct Hcases as (result & _ & ->).
  destruct (build_enriched_block_suffix block result) as [rest ->].
  exists (PyStr.split_go PyStr.NL 0 "" rest). split.
  - apply split_go_nonempty.
  - unfold PyStr.split. apply split_lines_app.
Qed.

Lemma enriched_block_keeps_lines_witness :
  exists (output : string) (added : list string),
    fst (_process_paper_block two_candidates_net sample_block start_state)
    = inr output
    /\ added <> []
    /\ PyStr.split PyStr.NL output
       = (["DOI: 10.1/xyz"; "Title: Graph Learning at Scale"] ++ added)%list.
Proof.
  pose proof (@enriched_block_keeps_lines unit two_candidates_net sample_block
                "Graph Learning at Scale" (Some "10.1/xyz") start_state
                eq_refl eq_refl) as H.
  destruct (fst (_process_paper_block two_candidates_net sample_block
                   start_state)) as [e | output] eqn:E.
  - vm_compute in E. discriminate.
  - destruct H as (added & Hne & Hsplit).
    exists output, added. split; [reflexivity |].
    split; [exact Hne | exact Hsplit].
Defined.

(** ** Further properties: the command line *)


(** ** Further properties: the blocks of a document *)

Lemma contains_blank_line_cons (c : ascii) (s : string) :
  PyStr.contains (PyStr.NL ++ PyStr.NL) (String c s)
  = PyStr.startswith (PyStr.NL ++ PyStr.NL) (String c s)
    || PyStr.contains (PyStr.NL ++ PyStr.NL) s.
Proof. reflexivity. Qed.

(** A blank line appears in a text extended by one character only if it
    was there already or the text ends in a line feed and the character is
    one. *)
Lemma contains_blank_line_snoc (v : string) (h : ascii) :
  PyStr.contains (PyStr.NL ++ PyStr.NL) (v ++ String h "")
  = PyStr.contains (PyStr.NL ++ PyStr.NL) v
    || (ends_with_nl v && Ascii.eqb h PyStr.nl).
Proof.
  induction v as [| x v IH].
  - cbn [append]. rewrite contains_blank_line_cons, startswith_blank_line.
    reflexivity.
  - change ((String x v ++ String h "")%string)
      with (String x (v ++ String h "")).
    rewrite !contains_blank_line_cons, IH, !startswith_blank_line.
    destruct v as [| y v'].
    + cbn [append ends_with_nl PyStr.contains].
      rewrite startswith_blank_line. cbn [orb].
      now rewrite orb_false_r.
    + change ((String y v' ++ String h "")%string)
        with (String y (v' ++ String h "")).
      change (ends_with_nl (String x (String y v')))
        with (ends_with_nl (String y v')).
      now rewrite orb_assoc.
Qed.

Lemma ends_with_nl_snoc (v : string) (c : ascii) :
  ends_with_nl (v ++ String c "") = Ascii.eqb c PyStr.nl.
Proof.
  induction v as [| x v IH]; [reflexivity |].
  change ((String x v ++ String c "")%string) with (String x (v ++ String c "")).
  destruct v as [| y v']; [reflexivity |]. exact IH.
Qed.

(** The pieces of a split on blank lines hold no blank line.  [cur], the
    piece being built, holds none even when the next character of the text
    is added to it. *)
Lemma split_go_pieces (s : string) :
  forall cur : string,
    PyStr.contains (PyStr.NL ++ PyStr.NL) (cur ++ PyStr.take 1 s) = false ->
    Forall (fun piece => PyStr.contains (PyStr.NL ++ PyStr.NL) piece = false)
           (PyStr.split_go (PyStr.NL ++ PyStr.NL) 0 cur s)
    /\ Forall (fun piece => PyStr.contains (PyStr.NL ++ PyStr.NL) piece = false)
              (PyStr.split_go (PyStr.NL ++ PyStr.NL) 1 "" s).
Proof.
  induction s as [| c s IH]; intros cur Hinv.
  - cbn [PyStr.take] in Hinv. rewrite append_empty_r in Hinv.
    split; constructor; auto.
  - assert (Hstart : PyStr.contains (PyStr.NL ++ PyStr.NL) (PyStr.take 1 s)
                     = false).
    { destruct s as [| y s']; [reflexivity |]. cbn [PyStr.take].
      rewrite contains_blank_line_cons, startswith_blank_line. reflexivity. }
    split.
    + rewrite split_go_step.
      change (PyStr.take 1 (String c s)) with (String c "") in Hinv.
      rewrite contains_blank_line_snoc in Hinv.
      apply orb_false_elim in Hinv. destruct Hinv as [Hcur Hend].
      destruct (PyStr.startswith (PyStr.NL ++ PyStr.NL) (String c s)) eqn:Hs.
      * constructor; [exact Hcur |]. apply (IH "" Hstart).
      * apply IH.
        destruct s as [| y s'].
        -- cbn [PyStr.take]. rewrite append_empty_r.
           rewrite contains_blank_line_snoc, Hcur, Hend. reflexivity.
        -- cbn [PyStr.take].
           rewrite contains_blank_line_snoc, contains_blank_line_snoc,
             Hcur, Hend, ends_with_nl_snoc.
           rewrite startswith_blank_line in Hs. now rewrite Hs.
    + change (PyStr.split_go (PyStr.NL ++ PyStr.NL) 1 "" (String c s))
        with (PyStr.split_go (PyStr.NL ++ PyStr.NL) 0 "" s).
      apply (IH "" Hstart).
Qed.

(** X20: every paper block of a document holds some character that is not
    whitespace and holds no blank line; so a block without title, which is
    written to the output as it is, never brings a blank line of its own
    into the output. *)
Theorem paper_blocks_are_paragraphs (content : string) :
  Forall (fun block =>
            PyStr.truthy (PyStr.strip block) = true
            /\ PyStr.contains (PyStr.NL ++ PyStr.NL) block = false)
         (paper_blocks content).
Proof.
  unfold paper_blocks. apply Forall_forall. intros block Hin.
  apply filter_In in Hin. destruct Hin as [Hin Hfull].
  split; [exact Hfull |].
  assert (Hpieces :
            Forall (fun piece =>
                      PyStr.contains (PyStr.NL ++ PyStr.NL) piece = false)
                   (PyStr.split (PyStr.NL ++ PyStr.NL) content)).
  { unfold PyStr.split. apply split_go_pieces.
    destruct content as [| y s']; [reflexivity |]. cbn [PyStr.take append].
    rewrite contains_blank_line_cons, startswith_blank_line. reflexivity. }
  rewrite Forall_forall in Hpieces. now apply Hpieces.
Qed.

(** ** Further properties: the analysis of the log of a run *)

Lemma uint_digits (u : Decimal.uint) :
  all_chars Analyzer.is_digit (NilEmpty.string_of_uint u) = true.
Proof.
  induction u; cbn [NilEmpty.string_of_uint all_chars];
    [reflexivity | rewrite IHu; reflexivity ..].
Qed.

(** The decimal text of a natural number is a non-empty text of digits. *)
Lemma of_Z_digits (n : Z) :
  0 <= n ->
  all_chars Analyzer.is_digit (PyStr.of_Z n) = true /\ PyStr.of_Z n <> "".
Proof.
  intros Hn. unfold PyStr.of_Z.
  destruct n as [| p | p]; [split; [reflexivity | discriminate] | | lia].
  cbn [Z.to_int NilZero.string_of_int]. unfold NilZero.string_of_uint.
  pose proof (uint_digits (Pos.to_uint p)) as Hd.
  destruct (Pos.to_uint p); (split; [first [reflexivity | exact Hd]
                                    | discriminate]).
Qed.

Lemma digits_len_app (d : string) (x : ascii) (r : string) :
  all_chars Analyzer.is_digit d = true ->
  Analyzer.is_digit x = false ->
  Analyzer.digits_len (d ++ String x r) = String.length d.
Proof.
  intros Hd Hx. induction d as [| c d IH]; cbn.
  - now rewrite Hx.
  - cbn in Hd. apply andb_prop in Hd. destruct Hd as [Hc Hd].
    now rewrite Hc, IH.
Qed.

Lemma drop_length_app (d r : string) :
  PyStr.drop (String.length d) (d ++ r) = r.
Proof.
  induction d as [| c d IH]; [now destruct r | exact IH].
Qed.

(** A bracket, digits, a slash, digits and a bracket are matched as a
    marker. *)
Lemma marker_len_marker (d1 d2 rest : string) :
  all_chars Analyzer.is_digit d1 = true -> d1 <> "" ->
  all_chars Analyzer.is_digit d2 = true -> d2 <> "" ->
  Analyzer.marker_len ("[" ++ d1 ++ "/" ++ d2 ++ "]" ++ rest)
  = Some (String.length d1 + String.length d2 + 3)%nat.
Proof.
  intros H1 N1 H2 N2.
  change (("[" ++ d1 ++ "/" ++ d2 ++ "]" ++ rest)%string)
    with (String "[" (d1 ++ String "/" (d2 ++ String "]" rest))).
  unfold Analyzer.marker_len.
  rewrite (digits_len_app d1 "/" _ H1 eq_refl), drop_length_app.
  destruct d1 as [| c1 d1']; [now contradiction N1 |].
  cbn [String.length Nat.eqb].
  rewrite (digits_len_app d2 "]" _ H2 eq_refl), drop_length_app.
  destruct d2 as [| c2 d2']; [now contradiction N2 |].
  reflexivity.
Qed.

(** A text in which a marker matches somewhere has at least one counted
    marker. *)
Lemma count_markers_found (a m : string) (len : nat) :
  Analyzer.marker_len m = Some len ->
  (1 <= Analyzer.count_markers (a ++ m))%nat.
Proof.
  intros Hm. unfold Analyzer.count_markers.
  induction a as [| c a IH].
  - cbn [append]. destruct m as [| x m']; [discriminate |].
    cbn [Analyzer.count_markers_go]. rewrite Hm. lia.
  - change ((String c a ++ m)%string) with (String c (a ++ m)).
    cbn [Analyzer.count_markers_go].
    destruct (Analyzer.marker_len (String c (a ++ m))); [lia | exact IH].
Qed.

Lemma join_middle (sep : string) (pre : list string) (x : string)
  (more : list string) :
  exists a b, PyStr.join sep (pre ++ x :: more) = (a ++ x ++ b)%string.
Proof.
  induction pre as [| y pre IH].
  - cbn [app]. destruct more as [| z more'].
    + exists "", "". cbn. now rewrite append_empty_r.
    + exists "", (sep ++ PyStr.join sep (z :: more'))%string. reflexivity.
  - destruct IH as (a & b & IH).
    exists (y ++ sep ++ a)%string, b.
    change (PyStr.join sep ((y :: pre) ++ x :: more))
      with (PyStr.join sep (y :: (pre ++ x :: more))).
    destruct (pre ++ x :: more)%list as [| z l] eqn:E.
    + destruct pre; discriminate.
    + change (PyStr.join sep (y :: z :: l))
        with (y ++ sep ++ PyStr.join sep (z :: l))%string.
      rewrite IH, !append_assoc. reflexivity.
Qed.

Section OwnLog.

Variable W : Type.
Variable net : Collaborators W.

(** The loop over a non-empty list of blocks first logs the marker line of
    its first block, whether it returns or raises later. *)
Lemma process_blocks_first_line (delay : Delay net) (block : string)
  (rest : list string) (total : nat) (i : Z) (st : State W) :
  exists more,
    results_log (snd (process_blocks net delay total i (block :: rest) st))
    = (results_log st
       ++ ("[" ++ now_hms net (world st) ++ "] " ++ PyStr.NL ++ "["
           ++ PyStr.of_Z (i + 1) ++ "/" ++ PyStr.of_Z (Z.of_nat total) ++ "] "
           ++ PyStr.repeat_char "="%char 50)%string
          :: more)%list.
Proof.
  cbn [process_blocks]. cbv beta delta [bind bind_exn ret].
  destruct (_log_result net _ st) as [[] st1] eqn:H1.
  pose proof (process_paper_block_appends net block st1) as ((l2 & H2) & _).
  destruct (_process_paper_block net block st1) as [[e | enriched_block] st2];
    cbn [snd] in *.
  { injection H1 as <-. cbn [results_log] in H2.
    rewrite H2, <- !app_assoc. cbn [app]. eexists. reflexivity. }
  rewrite pause_run.
  destruct (fst (time_sleep net delay (world st2))) as [e |].
  { cbn [snd results_log]. injection H1 as <-. cbn [results_log] in H2.
    rewrite H2, <- !app_assoc. cbn [app]. eexists. reflexivity. }
  match goal with
  | |- context [process_blocks net delay total (i + 1) rest ?s] =>
      pose proof (process_blocks_appends net delay rest total (i + 1) s)
        as [((l3 & H3) & _) _];
      destruct (process_blocks net delay total (i + 1) rest s)
        as [[e | enriched] st4]
  end; cbn [snd results_log] in *;
    injection H1 as <-; cbn [results_log] in H2;
    rewrite H3, H2, <- !app_assoc; cbn [app]; eexists; reflexivity.
Qed.

(** The text of the log of a document with at least one block holds a
    counted marker. *)
Lemma own_log_has_marker (content : string) (delay : Delay net)
  (st : State W) :
  paper_blocks content <> [] ->
  (1 <= Analyzer.count_markers
          (PyStr.join PyStr.NL
             (results_log (snd (document_run net content delay st)))))%nat.
Proof.
  intros Hne. unfold document_run, enriched_blocks_of, bind.
  destruct (_log_result net _ (snd (opening net st))) as [[] st1].
  destruct (paper_blocks content) as [| block rest]; [now contradiction Hne |].
  destruct (process_blocks_first_line delay block rest
              (List.length (block :: rest)) 0 st1) as [more ->].
  destruct (join_middle PyStr.NL (results_log st1)
              ("[" ++ now_hms net (world st1) ++ "] " ++ PyStr.NL ++ "["
               ++ PyStr.of_Z (0 + 1) ++ "/"
               ++ PyStr.of_Z (Z.of_nat (List.length (block :: rest))) ++ "] "
               ++ PyStr.repeat_char "="%char 50) more) as (a & b & ->).
  destruct (@of_Z_digits (Z.of_nat (List.length (block :: rest)))
              ltac:(lia)) as [Hd Hn].
  pose proof (@marker_len_marker "1"
                (PyStr.of_Z (Z.of_nat (List.length (block :: rest))))
                (" " ++ PyStr.repeat_char "="%char 50 ++ b)
                eq_refl ltac:(discriminate) Hd Hn) as Hm.
  replace (a ++ ("[" ++ now_hms net (world st1) ++ "] " ++ PyStr.NL ++ "["
                 ++ PyStr.of_Z (0 + 1) ++ "/"
                 ++ PyStr.of_Z (Z.of_nat (List.length (block :: rest)))
                 ++ "] " ++ PyStr.repeat_char "="%char 50) ++ b)%string
    with ((a ++ "[" ++ now_hms net (world st1) ++ "] " ++ PyStr.NL)
          ++ ("[" ++ "1" ++ "/"
              ++ PyStr.of_Z (Z.of_nat (List.length (block :: rest)))
              ++ "]" ++ " " ++ PyStr.repeat_char "="%char 50 ++ b))%string.
  - eapply count_markers_found. exact Hm.
  - change (PyStr.of_Z (0 + 1)) with "1".
    rewrite !append_assoc. reflexivity.
Qed.

End OwnLog.

(** X21: the analysis of the log of a run over a document with at least
    one paper block never divides by zero: the log file the run has written
    holds at least one paper marker [[i/n]], so [total_papers] is at least
    1 whatever the titles, the pages and the clock put into the log. *)
Theorem own_log_analysis_is_safe (W : Type) (net : Collaborators W)
  (fs : FileSystem) (input_file output_file content : string)
  (delay : Delay net) (st : State W) (text : string) :
  input_exists fs = true ->
  mkdir_parent fs = None ->
  input_read fs = inl content ->
  paper_blocks content <> [] ->
  log_written st = None ->
  log_written (snd (enrich net fs input_file output_file delay st))
  = Some text ->
  (1 <= Analyzer.total_papers (Analyzer.statistics text))%nat
  /\ Analyzer.report_divides_by_zero (Analyzer.statistics text) = false.
Proof.
  intros Hex Hmk Hread Hne Hnone Hlog.
  pose proof (@enrich_state W net fs input_file output_file content delay st
                Hex Hmk Hread) as Hfinal.
  destruct (document_state net content delay st) as (_ & _ & _ & _ & _ & Hw).
  pose proof (own_log_has_marker net content delay st Hne) as Hmarker.
  cbv zeta in *.
  assert (Htext : text
                  = PyStr.join PyStr.NL
                      (results_log (snd (document_run net content delay st)))).
  { destruct (fst (document_run net content delay st))
      as [e | enriched_blocks].
    { rewrite Hfinal, Hw, Hnone in Hlog. discriminate. }
    destruct (output_write fs _).
    - rewrite Hfinal, Hw, Hnone in Hlog. discriminate.
    - rewrite Hfinal in Hlog. cbn [log_written] in Hlog.
      destruct (log_write fs _).
      + rewrite Hw, Hnone in Hlog. discriminate.
      + now injection Hlog as <-. }
  subst text.
  assert (Htotal : (1 <= Analyzer.total_papers
                          (Analyzer.statistics
                             (PyStr.join PyStr.NL
                                (results_log
                                   (snd (document_run net content delay
                                           st))))))%nat)
    by exact Hmarker.
  split; [exact Htotal |].
  unfold Analyzer.report_divides_by_zero.
  destruct (Nat.eqb_spec
              (Analyzer.total_papers
                 (Analyzer.statistics
                    (PyStr.join PyStr.NL
                       (results_log
                          (snd (document_run net content delay st)))))) 0)
    as [E | _]; [lia | reflexivity].
Qed.

Lemma own_log_analysis_is_safe_witness :
  Analyzer.report_divides_by_zero
    (Analyzer.statistics
       (match log_written
                (snd (enrich two_candidates_net (healthy_fs sample_block)
                        "refs.txt" "out/enriched.txt" one_second start_state))
        with
        | Some text => text
        | None => ""
        end))
  = false.
Proof.
  apply (@own_log_analysis_is_safe unit two_candidates_net
           (healthy_fs sample_block) "refs.txt" "out/enriched.txt"
           sample_block one_second start_state).
  - reflexivity.
  - reflexivity.
  - reflexivity.
  - vm_compute. discriminate.
  - reflexivity.
  - vm_compute. reflexivity.
Defined.

(** X25: on a file system that reads the log back as the run wrote it, a
    run over a document with at least one paper block that gets through its
    loop and writes its output and its log returns the number of blocks:
    the closing analysis finds a paper marker and does not divide by
    zero. *)
Theorem own_log_read_back_returns (W : Type) (net : Collaborators W)
  (fs : FileSystem) (input_file output_file content : string)
  (delay : Delay net) (st : State W) (enriched_blocks : list string) :
  input_exists fs = true ->
  mkdir_parent fs = None ->
  input_read fs = inl content ->
  paper_blocks content <> [] ->
  fst (document_run net content delay st) = inr enriched_blocks ->
  output_write fs (PyStr.join (PyStr.NL ++ PyStr.NL) enriched_blocks) = None ->
  let text :=
    PyStr.join PyStr.NL
      (results_log (snd (document_run net content delay st))) in
  log_write fs text = None ->
  log_read fs = inl text ->
  log_written (snd (enrich net fs input_file output_file delay st)) = Some text
  /\ analysis_divides_by_zero fs = false
  /\ fst (enrich net fs input_file output_file delay st)
     = inr (Z.of_nat (List.length (paper_blocks content))).
Proof.
  intros Hex Hmk Hread Hne Hrun Hwrite. cbv zeta. intros Hlog Hback.
  pose proof (@enrich_state W net fs input_file output_file content delay st
                Hex Hmk Hread) as Hfinal.
  pose proof (enrich_outcome net fs input_file output_file delay st) as Hout.
  pose proof (own_log_has_marker net content delay st Hne) as Hmarker.
  cbv zeta in *.
  rewrite Hex, Hmk, Hread, Hrun, Hwrite in Hout.
  rewrite Hrun, Hwrite, Hlog in Hfinal.
  assert (Hsafe : analysis_divides_by_zero fs = false).
  { unfold analysis_divides_by_zero. rewrite Hback.
    unfold Analyzer.report_divides_by_zero.
    change (Analyzer.total_papers
              (Analyzer.statistics
                 (PyStr.join PyStr.NL
                    (results_log (snd (document_run net content delay st))))))
      with (Analyzer.count_markers
              (PyStr.join PyStr.NL
                 (results_log (snd (document_run net content delay st))))).
    destruct (Nat.eqb_spec
                (Analyzer.count_markers
                   (PyStr.join PyStr.NL
                      (results_log
                         (snd (document_run net content delay st))))) 0)
      as [E | _]; [lia | reflexivity]. }
  split; [now rewrite Hfinal |]. split; [exact Hsafe |].
  destruct Hout as [Hout _]. now rewrite Hout, Hsafe.
Qed.

Lemma own_log_read_back_returns_witness :
  fst (enrich silent_net
         (read_back_fs titled_block
            (PyStr.join PyStr.NL
               (results_log
                  (snd (document_run silent_net titled_block one_second
                          start_state)))))
         "refs.txt" "out/enriched.txt" one_second start_state)
  = inr 1.
Proof.
  destruct (@own_log_read_back_returns unit silent_net
              (read_back_fs titled_block
                 (PyStr.join PyStr.NL
                    (results_log
                       (snd (document_run silent_net titled_block one_second
                               start_state)))))
              "refs.txt" "out/enriched.txt" titled_block one_second
              start_state
              ["Title: Graph Learning at Scale" ++ PyStr.NL
               ++ "Source_Method: " ++ PyStr.NL ++ "Needs_Review: True"
               ++ PyStr.NL ++ "Errors: No search results found"])
    as (_ & _ & H).
  - reflexivity.
  - reflexivity.
  - reflexivity.
  - vm_compute. discriminate.
  - vm_compute. reflexivity.
  - reflexivity.
  - reflexivity.
  - reflexivity.
  - exact H.
Defined.

Lemma startswith_across_nl (pat : string) :
  all_chars (fun c => negb (Ascii.eqb c PyStr.nl)) pat = true ->
  forall x b : string,
    PyStr.startswith pat (x ++ String PyStr.nl b) = PyStr.startswith pat x.
Proof.
  unfold PyStr.startswith.
  induction pat as [| p pat IH]; intros Hpat x b.
  - now destruct x.
  - cbn in Hpat. apply andb_prop in Hpat. destruct Hpat as [Hp Hpat].
    destruct x as [| c x]; cbn -[ascii_dec].
    + destruct (ascii_dec p PyStr.nl) as [-> | _]; [discriminate | reflexivity].
    + destruct (ascii_dec p c); [now apply IH | reflexivity].
Qed.

Lemma startswith_length (pat x : string) :
  PyStr.startswith pat x = true -> (String.length pat <= String.length x)%nat.
Proof.
  intros H. apply startswith_split in H. destruct H as [r ->].
  rewrite length_append. lia.
Qed.

(** No occurrence of a plain pattern without line feed spans a line feed:
    the count in two texts joined by a line feed is the sum of the
    counts. *)
Lemma count_go_across_nl (pat b : string) :
  pat <> "" ->
  all_chars (fun c => negb (Ascii.eqb c PyStr.nl)) pat = true ->
  forall (a : string) (skip : nat),
    (skip <= String.length a)%nat ->
    Analyzer.count_go pat skip (a ++ String PyStr.nl b)
    = (Analyzer.count_go pat skip a + Analyzer.count_go pat 0 b)%nat.
Proof.
  intros Hne Hpat. induction a as [| c a IH]; intros skip Hskip.
  - cbn in Hskip. assert (skip = 0%nat) as -> by lia.
    pose proof (startswith_across_nl pat Hpat "" b) as E.
    cbn [append] in *. cbn [Analyzer.count_go]. rewrite E.
    destruct pat; [now contradiction Hne | reflexivity].
  - change ((String c a ++ String PyStr.nl b)%string)
      with (String c (a ++ String PyStr.nl b)).
    destruct skip as [| k]; cbn [Analyzer.count_go].
    + change (String c (a ++ String PyStr.nl b))
        with ((String c a ++ String PyStr.nl b)%string).
      rewrite (startswith_across_nl pat Hpat (String c a) b).
      destruct (PyStr.startswith pat (String c a)) eqn:Hs.
      * apply startswith_length in Hs. cbn in Hs.
        rewrite IH by lia. reflexivity.
      * apply IH. lia.
    + apply IH. cbn in Hskip. lia.
Qed.

Lemma count_text_join (pat : string) (lines : list string) :
  pat <> "" ->
  all_chars (fun c => negb (Ascii.eqb c PyStr.nl)) pat = true ->
  Analyzer.count_text pat (PyStr.join PyStr.NL lines)
  = list_sum (map (Analyzer.count_text pat) lines).
Proof.
  intros Hne Hpat. unfold Analyzer.count_text.
  induction lines as [| x rest IH]; [reflexivity |].
  destruct rest as [| y rest'].
  - cbn. lia.
  - change (PyStr.join PyStr.NL (x :: y :: rest'))
      with (x ++ String PyStr.nl (PyStr.join PyStr.NL (y :: rest')))%string.
    rewrite (count_go_across_nl _ Hne Hpat) by lia.
    rewrite IH. reflexivity.
Qed.

(** X22: the analyzer counts no marker across a line boundary: for each of
    its plain markers, the count in a log is the sum of the counts in the
    lines of the log. *)
Theorem statistics_add_over_lines (lines : list string) :
  let whole := Analyzer.statistics (PyStr.join PyStr.NL lines) in
  let per_line (field : Analyzer.Statistics -> nat) :=
    list_sum (map (fun line => field (Analyzer.statistics line)) lines) in
  Analyzer.doi_attempts whole = per_line Analyzer.doi_attempts
  /\ Analyzer.doi_successes whole = per_line Analyzer.doi_successes
  /\ Analyzer.doi_failures whole = per_line Analyzer.doi_failures
  /\ Analyzer.fallback_attempts whole = per_line Analyzer.fallback_attempts
  /\ Analyzer.fallback_successes whole = per_line Analyzer.fallback_successes
  /\ Analyzer.no_results whole = per_line Analyzer.no_results
  /\ Analyzer.high_conf_90 whole = per_line Analyzer.high_conf_90
  /\ Analyzer.med_conf_70 whole = per_line Analyzer.med_conf_70
  /\ Analyzer.med_conf_60 whole = per_line Analyzer.med_conf_60
  /\ Analyzer.zero_conf whole = per_line Analyzer.zero_conf
  /\ Analyzer.needs_review whole = per_line Analyzer.needs_review
  /\ Analyzer.http_403 whole = per_line Analyzer.http_403
  /\ Analyzer.http_202 whole = per_line Analyzer.http_202.
Proof.
  cbv zeta. unfold Analyzer.statistics.
  cbn [Analyzer.doi_attempts Analyzer.doi_successes Analyzer.doi_failures
       Analyzer.fallback_attempts Analyzer.fallback_successes
       Analyzer.no_results Analyzer.high_conf_90 Analyzer.med_conf_70
       Analyzer.med_conf_60 Analyzer.zero_conf Analyzer.needs_review
       Analyzer.http_403 Analyzer.http_202].
  repeat split; apply count_text_join; (discriminate || reflexivity).
Qed.

Lemma all_chars_impl (p q : ascii -> bool) (s : string) :
  (forall c, p c = true -> q c = true) ->
  all_chars p s = true -> all_chars q s = true.
Proof.
  intros Hpq. induction s as [| c s IH]; cbn; [reflexivity |].
  intros H. apply andb_prop in H. destruct H as [Hc Hs].
  now rewrite (Hpq c Hc), IH.
Qed.

Lemma startswith_other_head (p : ascii) (pat : string) (c : ascii) (s : string) :
  Ascii.eqb c p = false ->
  PyStr.startswith (String p pat) (String c s) = false.
Proof.
  intros H. unfold PyStr.startswith. cbn -[ascii_dec].
  destruct (ascii_dec p c) as [<- | _]; [| reflexivity].
  now rewrite Ascii.eqb_refl in H.
Qed.

(** Characters other than the first of a pattern are passed over. *)
Lemma count_go_skip_chars (p : ascii) (pat a r : string) :
  all_chars (fun c => negb (Ascii.eqb c p)) a = true ->
  Analyzer.count_go (String p pat) 0 (a ++ r)
  = Analyzer.count_go (String p pat) 0 r.
Proof.
  induction a as [| c a IH]; intros H; [reflexivity |].
  cbn in H. apply andb_prop in H. destruct H as [Hc Ha].
  apply negb_true_iff in Hc.
  change ((String c a ++ r)%string) with (String c (a ++ r)).
  cbn [Analyzer.count_go].
  rewrite (startswith_other_head p pat c (a ++ r) Hc). now apply IH.
Qed.

Lemma count_go_none (p : ascii) (pat a : string) :
  all_chars (fun c => negb (Ascii.eqb c p)) a = true ->
  Analyzer.count_go (String p pat) 0 a = 0%nat.
Proof.
  intros H. rewrite <- (append_empty_r a).
  now rewrite count_go_skip_chars.
Qed.

Lemma of_Z_no_capital_d (n : Z) :
  all_chars (fun c => negb (Ascii.eqb c "D")) (PyStr.of_Z n) = true.
Proof.
  assert (Hu : forall u,
             all_chars (fun c => negb (Ascii.eqb c "D"))
                       (NilZero.string_of_uint u) = true).
  { intros u. unfold NilZero.string_of_uint.
    pose proof (uint_digits u) as Hd.
    assert (Hd' : all_chars (fun c => negb (Ascii.eqb c "D"))
                            (NilEmpty.string_of_uint u) = true).
    { revert Hd. apply all_chars_impl. intros c Hc.
      destruct (Ascii.eqb_spec c "D") as [-> | _];
        [discriminate | reflexivity]. }
    destruct u; first [reflexivity | exact Hd']. }
  unfold PyStr.of_Z. destruct (Z.to_int n) as [u | u]; cbn.
  - apply Hu.
  - apply Hu.
Qed.

(** X23: the log line of a resolution answered with a status other than
    200 holds the marker [DOI resolution failed:] twice -- once from the
    orchestrator, once from the status message of the resolver -- so the
    analyzer counts two failures for it (the clock stamp holding no
    capital D). *)
Theorem http_failure_counted_twice (W : Type) (net : Collaborators W)
  (title d : string) (st : State W) (status_code : Z) (url : string) (w' : W) :
  doi_usable (Some d) = true ->
  doi_get net ("https://doi.org/" ++ d) (world st)
  = (HttpResponse status_code url, w') ->
  status_code <> 200 ->
  all_chars (fun c => negb (Ascii.eqb c "D")) (now_hms net w') = true ->
  exists attempt line : string,
    results_log (snd (doi_stage net title (Some d) initial_result st))
    = (results_log st ++ [attempt; line])%list
    /\ Analyzer.doi_failures (Analyzer.statistics line) = 2%nat.
Proof.
  intros Hu Hget Hne Hstamp. unfold doi_stage. rewrite Hu.
  cbv beta delta [bind]. cbn [_log_result].
  match goal with
  | |- context [resolve net (Some d) ?s] =>
      rewrite (@resolve_usable W net d s Hu)
  end.
  cbn [world]. rewrite Hget.
  destruct (Z.eqb_spec status_code 200) as [E | _]; [now contradiction Hne |].
  cbv beta delta [bind ret _log_result].
  cbn [fst snd world results_log calls output_written log_written].
  rewrite <- app_assoc. cbn [app].
  eexists. eexists. split; [reflexivity |].
  unfold Analyzer.statistics. cbn [Analyzer.doi_failures].
  unfold Analyzer.count_text.
  change ("[" ++ now_hms net w' ++ "] "
          ++ "DOI resolution failed: "
          ++ "DOI resolution failed: HTTP " ++ PyStr.of_Z status_code)%string
    with (("[" ++ now_hms net w')
          ++ "] DOI resolution failed: DOI resolution failed: HTTP "
          ++ PyStr.of_Z status_code)%string.
  rewrite count_go_skip_chars by (cbn [append all_chars]; exact Hstamp).
  change (Analyzer.count_go "DOI resolution failed:" 0
            ("] DOI resolution failed: DOI resolution failed: HTTP "
             ++ PyStr.of_Z status_code))
    with (S (S (Analyzer.count_go "DOI resolution failed:" 0
                  (" HTTP " ++ PyStr.of_Z status_code)))).
  rewrite count_go_none; [reflexivity |].
  rewrite all_chars_app, of_Z_no_capital_d. reflexivity.
Qed.

Lemma http_failure_counted_twice_witness :
  Analyzer.doi_failures
    (Analyzer.statistics
       "[12:00:00] DOI resolution failed: DOI resolution failed: HTTP 404")
  = 2%nat.
Proof.
  destruct (@http_failure_counted_twice unit silent_net
              "Graph Learning at Scale" "10.1/xyz" start_state 404 "" tt
              eq_refl eq_refl ltac:(discriminate) eq_refl)
    as (attempt & line & Hlog & Hcount).
  vm_compute in Hlog. injection Hlog as <- <-. exact Hcount.
Defined.

Example statistics_of_sample_run :
  option_map Analyzer.statistics
    (log_written
       (snd (enrich two_candidates_net (healthy_fs sample_block)
               "refs.txt" "out/enriched.txt" one_second start_state)))
  = Some (Analyzer.mkStatistics 1 1 0 4 1 1 0 0 0 0 0 1 0 0).
Proof. vm_compute. reflexivity. Qed.

(** ** Further properties: blocks in, blocks out *)

Lemma process_paper_block_from (W : Type) (net : Collaborators W)
  (block : string) (st : State W) (enriched : string) :
  fst (_process_paper_block net block st) = inr enriched ->
  processed_from block enriched.
Proof.
  unfold processed_from, _process_paper_block.
  destruct (PyStr.split PyStr.NL (PyStr.strip block)) as [| l ls] eqn:Hlines.
  { exfalso. apply (split_go_nonempty PyStr.NL (PyStr.strip block) 0 "").
    exact Hlines. }
  destruct (parse_block (l :: ls)) as [doi title]. cbn [snd].
  destruct (title_of title) as [t |].
  - cbv beta delta [bind bind_exn ret].
    destruct (_log_result net _ st) as [[] st1].
    destruct (_log_result net _ st1) as [[] st2].
    destruct (enrichment_result net t doi st2) as [[e | r] st3]; cbn [fst];
      [discriminate |].
    intros H. injection H as <-. apply build_enriched_block_suffix.
  - cbn. intros H. now injection H as <-.
Qed.

Lemma process_blocks_from (W : Type) (net : Collaborators W)
  (delay : Delay net) (blocks : list string) :
  forall (total : nat) (i : Z) (st : State W) (enriched_blocks : list string),
    fst (process_blocks net delay total i blocks st) = inr enriched_blocks ->
    Forall2 processed_from blocks enriched_blocks.
Proof.
  induction blocks as [| block rest IH]; intros total i st enriched_blocks.
  - cbn. intros H. injection H as <-. constructor.
  - cbn [process_blocks]. cbv beta delta [bind bind_exn ret].
    destruct (_log_result net _ st) as [[] st1].
    pose proof (@process_paper_block_from W net block st1) as Hblock.
    destruct (_process_paper_block net block st1) as [[e | enriched_block] st2];
      [cbn; discriminate |].
    destruct (pause net delay st2) as [[e | []] st3]; [cbn; discriminate |].
    specialize (IH total (i + 1) st3).
    destruct (process_blocks net delay total (i + 1) rest st3)
      as [[e | enriched] st4]; [cbn; discriminate |].
    cbn [fst] in *. intros H. injection H as <-.
    constructor; [now apply Hblock | now apply IH].
Qed.

(** X24: the output of a run that returns corresponds to the paper blocks
    of the input one to one and in order: it is the blank-line join of a
    list of enriched blocks whose [i]-th element is the [i]-th paper block
    itself when that block has no title, and otherwise begins with the
    stripped [i]-th block followed by a line feed. *)
Theorem output_blocks_in_order (W : Type) (net : Collaborators W)
  (fs : FileSystem) (input_file output_file content : string)
  (delay : Delay net) (st : State W) (n : Z) :
  input_read fs = inl content ->
  fst (enrich net fs input_file output_file delay st) = inr n ->
  exists enriched_blocks : list string,
    output_written (snd (enrich net fs input_file output_file delay st))
    = Some (PyStr.join (PyStr.NL ++ PyStr.NL) enriched_blocks)
    /\ Forall2 processed_from (paper_blocks content) enriched_blocks.
Proof.
  intros Hread Hret.
  pose proof (enrich_outcome net fs input_file output_file delay st) as H.
  cbv zeta in H. rewrite Hread in H.
  destruct (input_exists fs); [| rewrite H in Hret; discriminate].
  destruct (mkdir_parent fs) as [e |]; [rewrite H in Hret; discriminate |].
  destruct (fst (document_run net content delay st))
    as [e | enriched_blocks] eqn:Hrun;
    [rewrite H in Hret; discriminate |].
  destruct (output_write fs _) as [e |]; [rewrite H in Hret; discriminate |].
  destruct H as [_ Hout].
  exists enriched_blocks. split; [exact Hout |].
  revert Hrun. unfold document_run, enriched_blocks_of, bind.
  destruct (_log_result net _ (snd (opening net st))) as [[] st3].
  apply process_blocks_from.
Qed.

Lemma output_blocks_in_order_witness :
  exists enriched_blocks : list string,
    output_written
      (snd (enrich resolving_net (healthy_fs (untitled_block ++ PyStr.NL
                                              ++ PyStr.NL ++ titled_block))
              "refs.txt" "out/enriched.txt" one_second start_state))
    = Some (PyStr.join (PyStr.NL ++ PyStr.NL) enriched_blocks)
    /\ Forall2 processed_from
         (paper_blocks (untitled_block ++ PyStr.NL ++ PyStr.NL ++ titled_block))
         enriched_blocks.
Proof.
  apply (@output_blocks_in_order unit resolving_net
           (healthy_fs (untitled_block ++ PyStr.NL ++ PyStr.NL ++ titled_block))
           "refs.txt" "out/enriched.txt"
           (untitled_block ++ PyStr.NL ++ PyStr.NL ++ titled_block)
           one_second start_state 2).
  - reflexivity.
  - vm_compute. reflexivity.
Defined.
